(** * AppleHealth: extraction, daily aggregation and sleep correction

    A shallow embedding of the decision logic of the AppleHealth scripts
    ([extract_step_count.py], [extract_resting_hr.py],
    [extract_sleep_data.py], [correct_sleep_data.py]) and the properties of
    the pipeline proved about it.

    Conventions of the embedding:
    - Python [dict]s used as maps are [gmap]s, Python [set]s are [gset]s;
    - Python [int] is [Z]; Python [float] is read as an exact rational
      ([Qc]), extended with the non-finite values where the code can meet
      them ([pyfloat]);
    - an exception is a value of [exn]; a call that may raise returns
      [exn + A];
    - the file system and the standard output are threaded explicitly;
    - the standard-library parsers ([datetime.strptime],
      [datetime.fromisoformat], [float]) are Section variables: the theorems
      hold for whatever they accept;
    - so are the operations whose result is a rounded float and is not
      computed here ([statistics.mean], [round], the division of two
      integers): what a theorem needs of them is a hypothesis. *)

From Stdlib Require Import ZArith QArith Qcanon Qround Lia Lqa Ascii.
From stdpp Require Import base tactics option list numbers strings gmap sorting.

Local Open Scope Z_scope.

(** ** Exceptions *)

Inductive exn :=
  | ValueError
  | TypeError
  | KeyError (key : string)
  | OverflowError
  | FileNotFoundError
  | EOFError
  | OSError.

#[global] Instance exn_eq_dec : EqDecision exn.
Proof. solve_decision. Defined.

(** [result A] is the outcome of a call that may raise. *)
Abbreviation result A := (exn + A)%type.

Definition bind {A B} (m : result A) (k : A -> result B) : result B :=
  match m with
  | inl e => inl e
  | inr a => k a
  end.

Notation "x <-! m ; k" := (bind m (fun x => k))
  (at level 100, m at next level, right associativity).

(** ** Calendar dates ([datetime.date]) *)

Module PyDate.

Record date := Date { year : Z; month : Z; day : Z }.

#[global] Instance date_eq_dec : EqDecision date.
Proof. solve_decision. Defined.

#[global] Instance date_countable : Countable date.
Proof.
  refine (inj_countable' (fun d => (year d, month d, day d))
                         (fun t => Date t.1.1 t.1.2 t.2) _).
  by intros [].
Defined.

(** [_is_leap] *)
Definition is_leap (y : Z) : bool :=
  (y mod 4 =? 0) && (negb (y mod 100 =? 0) || (y mod 400 =? 0)).

(** [_days_before_year]: days before January 1st of year [y]. *)
Definition days_before_year (y : Z) : Z :=
  (y - 1) * 365 + (y - 1) / 4 - (y - 1) / 100 + (y - 1) / 400.

(** [_DAYS_IN_MONTH] and [_days_in_month] *)
Definition days_in_month (y m : Z) : Z :=
  if (m =? 2) && is_leap y then 29
  else match m with
       | 1 => 31 | 2 => 28 | 3 => 31 | 4 => 30 | 5 => 31 | 6 => 30
       | 7 => 31 | 8 => 31 | 9 => 30 | 10 => 31 | 11 => 30 | 12 => 31
       | _ => 0
       end.

(** [_DAYS_BEFORE_MONTH] and [_days_before_month] *)
Definition days_before_month (y m : Z) : Z :=
  match m with
  | 1 => 0 | 2 => 31 | 3 => 59 | 4 => 90 | 5 => 120 | 6 => 151
  | 7 => 181 | 8 => 212 | 9 => 243 | 10 => 273 | 11 => 304 | 12 => 334
  | _ => 0
  end + (if (2 <? m) && is_leap y then 1 else 0).

(** [date.toordinal]: 0001-01-01 is day 1. *)
Definition toordinal (d : date) : Z :=
  days_before_year (year d) + days_before_month (year d) (month d) + day d.

(** The invariant of every [datetime.date] object ([MINYEAR = 1],
    [MAXYEAR = 9999]). *)
Definition valid (d : date) : Prop :=
  1 <= year d <= 9999 /\ 1 <= month d <= 12 /\
  1 <= day d <= days_in_month (year d) (month d).

#[global] Instance valid_dec d : Decision (valid d).
Proof. unfold valid. apply _. Defined.

(** Comparison of dates: by year, then month, then day. *)
Definition le (a b : date) : Prop :=
  year a < year b \/
  (year a = year b /\ (month a < month b \/ (month a = month b /\ day a <= day b))).

Definition lt (a b : date) : Prop := le a b /\ a <> b.

#[global] Instance le_dec a b : Decision (le a b).
Proof. unfold le. apply _. Defined.

#[global] Instance lt_dec a b : Decision (lt a b).
Proof. unfold lt. apply _. Defined.

(** The calendar day before [d]: the date part of [d - timedelta(days=1)]
    when it exists. *)
Definition prev_day (d : date) : date :=
  if 1 <? day d then Date (year d) (month d) (day d - 1)
  else if 1 <? month d
       then Date (year d) (month d - 1) (days_in_month (year d) (month d - 1))
       else Date (year d - 1) 12 31.

(** [d - timedelta(days=1)]: the standard library goes through ordinals and
    raises [OverflowError] when the result would fall before 0001-01-01. *)
Definition sub_one_day (d : date) : result date :=
  if 0 <? toordinal d - 1 then inr (prev_day d) else inl OverflowError.

End PyDate.

Import PyDate.

(** ** Numbers

    [max(0, x)] keeps its first argument unless the second is strictly
    greater. *)

Definition py_max0 (x : Qc) : Qc := if decide (0 < x)%Qc then x else 0%Qc.

(** ** Reading decimal digits *)

Definition digit (c : Ascii.ascii) : option Z :=
  let n := Ascii.N_of_ascii c in
  if ((48 <=? n) && (n <=? 57))%N then Some (Z.of_N n - 48) else None.

Fixpoint digits (s : list Ascii.ascii) (acc : Z) : option Z :=
  match s with
  | [] => Some acc
  | c :: rest => match digit c with
                 | Some k => digits rest (10 * acc + k)
                 | None => None
                 end
  end.

(** ** The correction engine ([correct_sleep_data.py]) *)

Module Correct.

(** A value of the loaded JSON rows: a number, a string, [null] or an array of
    strings (the [sources] field). *)
Inductive jval :=
  | JNull
  | JNum (q : Qc)
  | JStr (s : string)
  | JArr (l : list string).

#[global] Instance jval_eq_dec : EqDecision jval.
Proof. solve_decision. Defined.

(** A row is a JSON object, a Python [dict] with string keys. *)
Abbreviation row := (gmap string jval).

(** What a file holds: a JSON array of objects, or anything else (on which
    [json.load] raises). *)
Inductive content :=
  | Doc (rows : list row)
  | Raw (bytes : string).

#[global] Instance content_eq_dec : EqDecision content.
Proof. solve_decision. Defined.

Record filesystem := Fs { dirs : gset string; files : gmap string content }.

(** One constructor for each [print] of the script. *)
Inductive line :=
  | CreatedDirectory (directory : string)
  | LoadingDataFrom (json_path : string)
  | LoadedRecords (n : nat)
  | CreatedBackupAt (backup_path : string)
  | BackupAlreadyExists (backup_path : string)
  | CorrectedDataSavedTo (output_path : string)
  | ProcessedRecords (total_records : nat)
  | AppliedCorrectionTo (corrected_records : nat) (cutoff_date : string)
  | CorrectionAnalysis
  | AffectedRecords (affected_records : nat)
  | AverageReduction (avg_difference : Qc)
  | TotalReduction (total_difference : Qc)
  | NoRecordsAffected
  | OriginalUpdated (original_path : string)
  | OriginalUnchanged (original_path : string)
  | CompletedSuccessfully
  | AnErrorOccurred (e : exn).

(** The world a run acts on: the file system, the lines still to be read from
    the terminal, and what was printed (oldest first). *)
Record world := World { fs : filesystem; stdin : list string; stdout : list line }.

(** Computations: state passing with exceptions. *)
Definition M (A : Type) : Type := world -> result A * world.

Definition ret {A} (a : A) : M A := fun w => (inr a, w).
Definition raise {A} (e : exn) : M A := fun w => (inl e, w).
Definition mbind {A B} (m : M A) (k : A -> M B) : M B :=
  fun w => match m w with
           | (inl e, w') => (inl e, w')
           | (inr a, w') => k a w'
           end.
Definition lift {A} (r : result A) : M A := fun w => (r, w).

Notation "x <- m ;; k" := (mbind m (fun x => k))
  (at level 100, m at next level, right associativity).
Notation "m ;; k" := (mbind m (fun _ => k))
  (at level 100, right associativity).

Definition print (l : line) : M unit :=
  fun w => (inr tt, World (fs w) (stdin w) (stdout w ++ [l])).

(** [input(prompt)] *)
Definition input : M string :=
  fun w => match stdin w with
           | [] => (inl EOFError, w)
           | l :: rest => (inr l, World (fs w) rest (stdout w))
           end.

(** [os.path.join] *)
Definition path_join (a b : string) : string := a +:+ "/" +:+ b.

(** [p] names a directory or a file. *)
Definition exists_at (p : string) (w : world) : Prop :=
  p ∈ dirs (fs w) \/ is_Some (files (fs w) !! p).

(** [os.path.exists] *)
Definition path_exists (p : string) : M bool :=
  fun w => (inr (bool_decide (exists_at p w)), w).

(** [os.makedirs] *)
Definition makedirs (d : string) : M unit :=
  fun w => (inr tt, World (Fs ({[d]} ∪ dirs (fs w)) (files (fs w))) (stdin w) (stdout w)).

(** [open(path, 'r')] followed by [json.load]. *)
Definition json_load (p : string) : M (list row) :=
  fun w => match files (fs w) !! p with
           | Some (Doc rows) => (inr rows, w)
           | Some (Raw _) => (inl ValueError, w)
           | None => (inl OSError, w)
           end.

(** [open(path, 'w')] followed by [json.dump]. *)
Definition json_dump (data : list row) (p : string) : M unit :=
  fun w => (inr tt,
            World (Fs (dirs (fs w)) (<[p := Doc data]> (files (fs w)))) (stdin w) (stdout w)).

(** [shutil.copy2] *)
Definition copy2 (src dst : string) : M unit :=
  fun w => match files (fs w) !! src with
           | Some c => (inr tt,
                        World (Fs (dirs (fs w)) (<[dst := c]> (files (fs w))))
                              (stdin w) (stdout w))
           | None => (inl OSError, w)
           end.

Definition ensure_dir (directory : string) : M string :=
  b <- path_exists directory ;;
  (if negb b then makedirs directory ;; print (CreatedDirectory directory)
   else ret tt) ;;
  ret directory.

Definition load_sleep_data (data_dir filename : string) : M (list row) :=
  let json_path := path_join data_dir filename in
  b <- path_exists json_path ;;
  if negb b then raise FileNotFoundError
  else
    print (LoadingDataFrom json_path) ;;
    data <- json_load json_path ;;
    print (LoadedRecords (length data)) ;;
    ret data.

Definition save_sleep_data (data : list row) (data_dir filename : string)
    (backup : bool) : M string :=
  ensure_dir data_dir ;;
  let output_path := path_join data_dir filename in
  original_exists <- path_exists (path_join data_dir "sleep_data.json") ;;
  (if backup && original_exists then
     let backup_path := path_join data_dir "sleep_data_backup.json" in
     backup_exists <- path_exists backup_path ;;
     if negb backup_exists then
       copy2 (path_join data_dir "sleep_data.json") backup_path ;;
       print (CreatedBackupAt backup_path)
     else print (BackupAlreadyExists backup_path)
   else ret tt) ;;
  json_dump data output_path ;;
  print (CorrectedDataSavedTo output_path) ;;
  ret output_path.

(** [entry[key]] *)
Definition getitem (entry : row) (key : string) : result jval :=
  match entry !! key with
  | Some v => inr v
  | None => inl (KeyError key)
  end.

(** [a - b] on JSON values: defined on numbers only. *)
Definition py_sub (a b : jval) : result Qc :=
  match a, b with
  | JNum x, JNum y => inr (x - y)%Qc
  | _, _ => inl TypeError
  end.

Section WithParser.

(** [datetime.fromisoformat(s).date()]; [None] stands for [ValueError]. *)
Variable fromisoformat : string -> option date.

Definition parse_date (v : jval) : result date :=
  match v with
  | JStr s => match fromisoformat s with
              | Some d => inr d
              | None => inl ValueError
              end
  | _ => inl TypeError
  end.

(** The body of the loop of [correct_sleep_data] on one entry of the copy;
    the boolean tells whether [corrected_records] is incremented. *)
Definition correct_entry (cutoff : date) (entry : row) : result (row * bool) :=
  dv <-! getitem entry "date" ;
  date <-! parse_date dv ;
  if decide (le cutoff date) then
    original_asleep <-! getitem entry "asleep" ;
    in_bed <-! getitem entry "in_bed" ;
    diff <-! py_sub original_asleep in_bed ;
    inr (<["asleep" := JNum (py_max0 diff)]> entry, true)
  else inr (entry, false).

(** The loop: the first exception leaves it. *)
Fixpoint correct_entries (cutoff : date) (data : list row) : result (list row * nat) :=
  match data with
  | [] => inr ([], 0%nat)
  | entry :: rest =>
      r <-! correct_entry cutoff entry ;
      rs <-! correct_entries cutoff rest ;
      inr (r.1 :: rs.1, ((if r.2 then 1 else 0) + rs.2)%nat)
  end.

Definition correct_sleep_data (data : list row) (cutoff_date : string) : M (list row) :=
  cutoff <- lift (parse_date (JStr cutoff_date)) ;;
  let total_records := length data in
  r <- lift (correct_entries cutoff data) ;;
  print (ProcessedRecords total_records) ;;
  print (AppliedCorrectionTo r.2 cutoff_date) ;;
  ret r.1.

(** [analyze_corrections]: the dictionary of the original rows by date (a later
    row with the same date replaces an earlier one). *)
Fixpoint original_dict (original_data : list row) (acc : gmap date row) : result (gmap date row) :=
  match original_data with
  | [] => inr acc
  | entry :: rest =>
      dv <-! getitem entry "date" ;
      d <-! parse_date dv ;
      original_dict rest (<[d := entry]> acc)
  end.

(** The loop of [analyze_corrections], with its two counters. *)
Fixpoint analyze_loop (cutoff_date : date)
    (dict : gmap date row) (corrected_data : list row)
    (affected_records : nat) (total_difference : Qc) : result (nat * Qc) :=
  match corrected_data with
  | [] => inr (affected_records, total_difference)
  | entry :: rest =>
      dv <-! getitem entry "date" ;
      date <-! parse_date dv ;
      if decide (le cutoff_date date) then
        original <-! match dict !! date with
                     | Some e => inr e
                     | None => inl (KeyError "date")
                     end ;
        original_asleep <-! getitem original "asleep" ;
        corrected_asleep <-! getitem entry "asleep" ;
        if decide (original_asleep <> corrected_asleep) then
          difference <-! py_sub original_asleep corrected_asleep ;
          analyze_loop cutoff_date dict rest
            (S affected_records) (total_difference + difference)%Qc
        else analyze_loop cutoff_date dict rest
               affected_records total_difference
      else analyze_loop cutoff_date dict rest
             affected_records total_difference
  end.

Definition analyze_corrections (original_data corrected_data : list row) : M unit :=
  cutoff_date <- lift (parse_date (JStr "2024-11-20")) ;;
  dict <- lift (original_dict original_data ∅) ;;
  r <- lift (analyze_loop cutoff_date dict corrected_data 0%nat 0%Qc) ;;
  let affected_records := r.1 in
  let total_difference := r.2 in
  if decide (0 < affected_records)%nat then
    let avg_difference := (total_difference / Qc_of_Z (Z.of_nat affected_records))%Qc in
    print CorrectionAnalysis ;;
    print (AffectedRecords affected_records) ;;
    print (AverageReduction avg_difference) ;;
    print (TotalReduction total_difference)
  else print NoRecordsAffected.

(** [str.lower] on the ASCII letters. *)
Definition lower_ascii (c : Ascii.ascii) : ascii :=
  let n := Ascii.N_of_ascii c in
  if ((65 <=? n) && (n <=? 90))%N then Ascii.ascii_of_N (n + 32) else c.

Fixpoint lower (s : string) : string :=
  match s with
  | EmptyString => EmptyString
  | String c rest => String (lower_ascii c) (lower rest)
  end.

Definition update_original_file (corrected_data : list row) (data_dir : string) : M unit :=
  let original_path := path_join data_dir "sleep_data.json" in
  confirm <- input ;;
  if String.eqb (lower confirm) "y" then
    json_dump corrected_data original_path ;;
    print (OriginalUpdated original_path)
  else print (OriginalUnchanged original_path).

(** The body of the [try] of the script. *)
Definition main_body : M unit :=
  original_data <- load_sleep_data "data" "sleep_data.json" ;;
  corrected_data <- correct_sleep_data original_data "2024-11-20" ;;
  analyze_corrections original_data corrected_data ;;
  save_sleep_data corrected_data "data" "sleep_data_corrected.json" true ;;
  update_original_file corrected_data "data" ;;
  print CompletedSuccessfully.

(** The script: [except Exception] prints the error and the run ends. *)
Definition main (w : world) : world :=
  match main_body w with
  | (inr _, w') => w'
  | (inl e, w') => (print (AnErrorOccurred e) w').2
  end.

(** *** What the correction rule states *)

(** The fixed cutoff date. *)
Definition cutoff : date := Date 2024 11 20.

(** [v] is the larger of [0] and [x]. *)
Definition is_max0 (x v : Qc) : Prop :=
  (0 <= v)%Qc /\ (x <= v)%Qc /\ (v = 0%Qc \/ v = x).

(** What the correction needs of a row: a date that parses and, from the
    cutoff on, numeric [asleep] and [in_bed]. *)
Definition correctable (r : row) : Prop :=
  exists s d, r !! "date" = Some (JStr s) /\ fromisoformat s = Some d /\
    (PyDate.le cutoff d ->
     exists a b, r !! "asleep" = Some (JNum a) /\ r !! "in_bed" = Some (JNum b)).

(** A row without [date], or dated from the cutoff on without [asleep] or
    [in_bed]. *)
Definition lacks_needed_field (r : row) : Prop :=
  r !! "date" = None \/
  exists s d, r !! "date" = Some (JStr s) /\ fromisoformat s = Some d /\
    PyDate.le cutoff d /\ (r !! "asleep" = None \/ r !! "in_bed" = None).

(** The corrected row [r'] of a row [r], as the rule states it. *)
Definition corrected_as_specified (r r' : row) : Prop :=
  exists s d, r !! "date" = Some (JStr s) /\ fromisoformat s = Some d /\
    ((PyDate.le cutoff d /\
      exists a b v, r !! "asleep" = Some (JNum a) /\ r !! "in_bed" = Some (JNum b) /\
        is_max0 (a - b) v /\ r' = <["asleep" := JNum v]> r)
     \/ (PyDate.lt d cutoff /\ r' = r)).

End WithParser.

(** A parser of the form the pipeline itself writes, [YYYY-MM-DD]. *)
Definition iso_date (s : string) : option date :=
  match String.list_ascii_of_string s with
  | [y1; y2; y3; y4; "-"%char; m1; m2; "-"%char; d1; d2] =>
      match digits [y1; y2; y3; y4] 0, digits [m1; m2] 0, digits [d1; d2] 0 with
      | Some y, Some m, Some d =>
          if decide (valid (Date y m d)) then Some (Date y m d) else None
      | _, _, _ => None
      end
  | _ => None
  end.

(** *** Rows and worlds to run the engine on *)

(** A summary row with the three fields the correction reads. *)
Definition summary_row (date : string) (asleep in_bed : Qc) : row :=
  <["date" := JStr date]> (<["asleep" := JNum asleep]> (<["in_bed" := JNum in_bed]> ∅)).

(** The [asleep] number of a row, as a fraction. *)
Definition asleep_of (r : row) : option Q :=
  match r !! "asleep" with
  | Some (JNum q) => Some (this q)
  | _ => None
  end.

(** A data directory holding only the summary file, and the answers typed at
    the terminal. *)
Definition world_with (rows : list row) (answers : list string) : world :=
  World (Fs {["data"%string]} {["data/sleep_data.json"%string := Doc rows]}) answers [].

(** A row before the cutoff without its [asleep] field. *)
Definition row_without_asleep : row :=
  <["date" := JStr "2024-01-01"]> (<["in_bed" := JNum (Qc_of_Z 1)]> ∅).

(** The claim that any row lacking one of [date], [asleep], [in_bed] makes the
    run fail before the corrected file is written. *)
Definition fails_on_any_missing_field (w : world) : Prop :=
  forall rows,
    files (fs w) !! "data/sleep_data.json"%string = Some (Doc rows) ->
    Exists (fun r : row => r !! "date"%string = None \/ r !! "asleep"%string = None \/
                           r !! "in_bed"%string = None) rows ->
    files (fs (main iso_date w)) !! "data/sleep_data_corrected.json"%string =
    files (fs w) !! "data/sleep_data_corrected.json"%string.

End Correct.

(** ** Timestamps and the export document *)

(** An aware [datetime]: local wall-clock fields and the UTC offset (seconds
    east of UTC) read by [%z]. *)
Record datetime := DateTime {
  dt_date : date;
  hour : Z;
  minute : Z;
  second : Z;
  utcoffset : Z
}.

#[global] Instance datetime_eq_dec : EqDecision datetime.
Proof. solve_decision. Defined.

(** The invariant of every [datetime] object. *)
Definition valid_datetime (t : datetime) : Prop :=
  valid (dt_date t) /\ 0 <= hour t <= 23 /\ 0 <= minute t <= 59 /\ 0 <= second t <= 59.

(** Seconds from the instant [0001-01-01 00:00:00 UTC] minus one day. *)
Definition utc_seconds (t : datetime) : Z :=
  toordinal (dt_date t) * 86400 + hour t * 3600 + minute t * 60 + second t - utcoffset t.

(** [(b - a).total_seconds()] of two aware datetimes. *)
Definition total_seconds_between (a b : datetime) : Z := utc_seconds b - utc_seconds a.

(** [t - timedelta(days=1)]: the wall-clock fields stay, the date steps back. *)
Definition minus_one_day (t : datetime) : result datetime :=
  d <-! sub_one_day (dt_date t) ;
  inr (DateTime d (hour t) (minute t) (second t) (utcoffset t)).

(** An element of the export: its tag and its attributes. A document is the
    list of the descendants of its root, in document order. *)
Record element := Element { tag : string; attrib : gmap string string }.

(** [root.findall(".//Record[@type='T']")] *)
Definition findall_records (type : string) (root : list element) : list element :=
  filter (fun e => tag e = "Record"%string /\ attrib e !! "type"%string = Some type) root.

(** [record.get(key)] and [record.get(key, default)] *)
Definition get (record : element) (key : string) : option string := attrib record !! key.
Definition get_default (record : element) (key default : string) : string :=
  match attrib record !! key with Some v => v | None => default end.

(** A [Record] element with the given type and attributes. *)
Definition record_element (type : string) (attrs : list (string * string)) : element :=
  Element "Record" (<["type" := type]> (list_to_map attrs)).

(** A Python [float]: a finite value, read exactly, or one of the non-finite
    values. *)
Inductive pyfloat :=
  | Finite (q : Qc)
  | PosInf
  | NegInf
  | NaN.

(** [int(f)]: truncation towards zero. *)
Definition py_int (f : pyfloat) : result Z :=
  match f with
  | Finite q => inr (Z.quot (Qnum q) (Zpos (Qden q)))
  | NaN => inl ValueError
  | PosInf | NegInf => inl OverflowError
  end.

Section Parsers.

(** [datetime.strptime(s, '%Y-%m-%d %H:%M:%S %z')] and [float(s)]; [None]
    stands for [ValueError]. *)
Variable strptime : string -> option datetime.
Variable float_of_string : string -> option pyfloat.

(** [parse_datetime]; an absent attribute makes [strptime] raise [TypeError]. *)
Definition parse_datetime (date_str : option string) : result datetime :=
  match date_str with
  | None => inl TypeError
  | Some s => match strptime s with
              | Some t => inr t
              | None => inl ValueError
              end
  end.

(** [float(record.get('value', 0))] *)
Definition float_value (v : option string) : result pyfloat :=
  match v with
  | None => inr (Finite 0%Qc)
  | Some s => match float_of_string s with
              | Some f => inr f
              | None => inl ValueError
              end
  end.

End Parsers.

(** *** Parsers of the forms the export uses

    [strptime_fixed] reads [YYYY-MM-DD HH:MM:SS +HHMM] (or [-HHMM]) and
    [float_simple] reads an unsigned decimal ([3000], [60.5]) and the words
    [inf], [-inf] and [nan]; they stand for the library parsers when the
    pipeline is run on concrete data. *)

#[global] Instance valid_datetime_dec t : Decision (valid_datetime t).
Proof. unfold valid_datetime. apply _. Defined.

Definition strptime_fixed (s : string) : option datetime :=
  match String.list_ascii_of_string s with
  | [y1; y2; y3; y4; "-"%char; m1; m2; "-"%char; d1; d2; " "%char;
     h1; h2; ":"%char; n1; n2; ":"%char; s1; s2; " "%char; sign; o1; o2; o3; o4] =>
      y ← digits [y1; y2; y3; y4] 0 ;
      m ← digits [m1; m2] 0 ;
      d ← digits [d1; d2] 0 ;
      h ← digits [h1; h2] 0 ;
      n ← digits [n1; n2] 0 ;
      sec ← digits [s1; s2] 0 ;
      oh ← digits [o1; o2] 0 ;
      om ← digits [o3; o4] 0 ;
      sgn ← (if Ascii.eqb sign "+" then Some 1
             else if Ascii.eqb sign "-" then Some (-1) else None) ;
      let t := DateTime (Date y m d) h n sec (sgn * (oh * 3600 + om * 60)) in
      if decide (valid_datetime t /\ 0 <= om <= 59) then Some t else None
  | _ => None
  end.

(** The digits before and after the first dot. *)
Fixpoint split_dot (s : list Ascii.ascii) : list Ascii.ascii * option (list Ascii.ascii) :=
  match s with
  | [] => ([], None)
  | c :: rest =>
      if Ascii.eqb c "." then ([], Some rest)
      else let p := split_dot rest in (c :: p.1, p.2)
  end.

Definition float_simple (s : string) : option pyfloat :=
  if String.eqb s "inf" then Some PosInf
  else if String.eqb s "-inf" then Some NegInf
  else if String.eqb s "nan" then Some NaN
  else
    let p := split_dot (String.list_ascii_of_string s) in
    match p.1, p.2 with
    | [], _ => None
    | ip, None => n ← digits ip 0 ; Some (Finite (Qc_of_Z n))
    | ip, Some [] => None
    | ip, Some fp =>
        n ← digits ip 0 ;
        f ← digits fp 0 ;
        Some (Finite (Qc_of_Z n + Qc_of_Z f / Qc_of_Z (10 ^ Z.of_nat (length fp)))%Qc)
    end.

(** ** Step counts ([extract_step_count.py]) *)

Module Steps.

Record step_record := StepRecord {
  start_date : datetime;
  end_date : datetime;
  value : Z;
  unit : string;
  source : string;
  date_key : date          (* the ['date'] entry *)
}.

Inductive line :=
  | Parsing (xml_path : string)
  | ExtractingStepCountRecords
  | ErrorProcessingStepCountRecord (e : exn)
  | FoundStepCountRecords (n : nat).

Section Extraction.

Variable strptime : string -> option datetime.
Variable float_of_string : string -> option pyfloat.

(** The body of the [try]: [None] is [continue]. *)
Definition try_body (record : element) : result (option step_record) :=
  f <-! float_value float_of_string (get record "value") ;
  value <-! py_int f ;
  start_date <-! parse_datetime strptime (get record "startDate") ;
  end_date <-! parse_datetime strptime (get record "endDate") ;
  let unit := get_default record "unit" "count" in
  let source := get_default record "sourceName" "Unknown" in
  if decide (value <= 0) then inr None
  else inr (Some (StepRecord start_date end_date value unit source (dt_date start_date))).

(** The loop: [except (ValueError, TypeError)] prints and goes on; any other
    exception leaves the function. *)
Fixpoint extract_loop (records : list element) (step_records : list step_record)
    (out : list line) : result (list step_record) * list line :=
  match records with
  | [] => (inr step_records, out)
  | record :: rest =>
      match try_body record with
      | inr (Some r) => extract_loop rest (step_records ++ [r]) out
      | inr None => extract_loop rest step_records out
      | inl ValueError =>
          extract_loop rest step_records (out ++ [ErrorProcessingStepCountRecord ValueError])
      | inl TypeError =>
          extract_loop rest step_records (out ++ [ErrorProcessingStepCountRecord TypeError])
      | inl e => (inl e, out)
      end
  end.

Definition get_step_count_records (xml_path : string) (root : list element)
    : result (list step_record) * list line :=
  match extract_loop (findall_records "HKQuantityTypeIdentifierStepCount" root) []
          [Parsing xml_path; ExtractingStepCountRecords] with
  | (inr step_records, out) =>
      (inr step_records, out ++ [FoundStepCountRecords (length step_records)])
  | (inl e, out) => (inl e, out)
  end.

(** *** What the extraction states *)

(** The record a [Record] element contributes, if any. *)
Definition accepted (record : element) : option step_record :=
  match try_body record with
  | inr (Some r) => Some r
  | _ => None
  end.

(** The line printed for an element whose fields are malformed. *)
Definition reported (record : element) : option line :=
  match try_body record with
  | inl e => Some (ErrorProcessingStepCountRecord e)
  | inr _ => None
  end.

(** The element raises nothing but what the handler catches. *)
Definition recoverable (record : element) : Prop :=
  forall e, try_body record = inl e -> e = ValueError \/ e = TypeError.

(** The number of step-count elements that gave no record. *)
Definition skipped_count (root : list element) : nat :=
  length (filter (fun record => accepted record = None)
            (findall_records "HKQuantityTypeIdentifierStepCount" root)).

(** The claim that the count of skipped records can be read off what a run
    returns and prints. *)
Definition skipped_count_available : Prop :=
  exists count : result (list step_record) * list line -> nat,
    forall root, count (get_step_count_records "export.xml" root) = skipped_count root.

End Extraction.

(** The value of the [defaultdict] for one day. *)
Record day_data := DayData { total : Z; sources : gset string }.

Definition default_day : day_data := DayData 0 ∅.

(** [days[date]] on a [defaultdict]: a missing key is inserted first. *)
Definition touch (d : date) (days : gmap date day_data) : gmap date day_data :=
  match days !! d with
  | Some _ => days
  | None => <[d := default_day]> days
  end.

(** One turn of the loop of [aggregate_by_day]. *)
Definition add_record (days : gmap date day_data) (record : step_record)
    : gmap date day_data :=
  let d := date_key record in
  let days1 := alter (fun a => DayData (total a + value record) (sources a)) d
                 (touch d days) in
  alter (fun a => DayData (total a) ({[source record]} ∪ sources a)) d
    (touch d days1).

Record day_row := DayRow { date : PyDate.date; steps : Z; row_sources : gset string }.

Definition by_date (x y : day_row) : Prop := le (date x) (date y).

#[global] Instance by_date_dec x y : Decision (by_date x y).
Proof. unfold by_date. apply _. Defined.

Definition aggregate_by_day (records : list step_record) : list day_row :=
  let days := foldl add_record ∅ records in
  let result := (fun p => DayRow p.1 (total p.2) (sources p.2)) <$> map_to_list days in
  merge_sort by_date result.

(** *** What the aggregation states *)

(** The records of one calendar date, in the order of the input. *)
Definition records_on (d : PyDate.date) (records : list step_record) : list step_record :=
  filter (fun r => date_key r = d) records.

(** The sum of the values and the set of the sources of some records. *)
Definition sum_values (records : list step_record) : Z :=
  foldr Z.add 0 (value <$> records).

Definition source_set (records : list step_record) : gset string :=
  list_to_set (source <$> records).

(** Rows in strictly ascending date order. *)
Definition strictly_ascending (rows : list day_row) : Prop :=
  StronglySorted (fun x y => PyDate.lt (date x) (date y)) rows.

(** *** Elements to run the extraction on *)

Definition step_element (value start_date end_date source : string) : element :=
  record_element "HKQuantityTypeIdentifierStepCount"
    [("value", value); ("startDate", start_date); ("endDate", end_date);
     ("sourceName", source)]%string.

(** The two records of the end-to-end scenario. *)
Definition scenario : list element :=
  [step_element "3000" "2024-01-01 08:00:00 +0000" "2024-01-01 08:30:00 +0000" "Phone";
   step_element "4500" "2024-01-01 18:00:00 +0000" "2024-01-01 19:00:00 +0000" "Watch"].

(** An element whose value is out of range and one whose value is malformed. *)
Definition zero_steps : element :=
  step_element "0" "2024-01-01 08:00:00 +0000" "2024-01-01 08:30:00 +0000" "Phone".

Definition malformed_steps : element :=
  step_element "many" "2024-01-01 08:00:00 +0000" "2024-01-01 08:30:00 +0000" "Phone".

Definition infinite_steps : element :=
  step_element "inf" "2024-01-01 08:00:00 +0000" "2024-01-01 08:30:00 +0000" "Phone".

End Steps.

(** ** Resting heart rate ([extract_resting_hr.py]) *)

Module RestingHR.

(** The comparisons [<] and [<=] of floats: every comparison with [nan] is
    false. *)
Definition pyfloat_lt (a b : pyfloat) : bool :=
  match a, b with
  | NaN, _ | _, NaN => false
  | _, NegInf => false
  | NegInf, _ => true
  | PosInf, _ => false
  | Finite _, PosInf => true
  | Finite x, Finite y => bool_decide (x < y)%Qc
  end.


(** A record as the extraction builds it: the value is the float read from
    the attribute, which can be [nan]. *)
Record rhr_record := RhrRecord {
  start_date : datetime;
  end_date : datetime;
  value : pyfloat;
  unit : string;
  source : string;
  date_key : date          (* the ['date'] entry *)
}.

Record day_data := DayData { values : list pyfloat; sources : gset string }.

Definition default_day : day_data := DayData [] ∅.

Definition touch (d : date) (days : gmap date day_data) : gmap date day_data :=
  match days !! d with
  | Some _ => days
  | None => <[d := default_day]> days
  end.

(** One turn of the first loop of [aggregate_by_day]. *)
Definition add_record (days : gmap date day_data) (record : rhr_record)
    : gmap date day_data :=
  let d := date_key record in
  let days1 := alter (fun a => DayData (values a ++ [value record]) (sources a)) d
                 (touch d days) in
  alter (fun a => DayData (values a) ({[source record]} ∪ sources a)) d
    (touch d days1).

(** [min] and [max] of a list: the element kept is replaced only by one that
    compares strictly below, respectively above, it, so what a list with a
    [nan] gives depends on its order. *)
Definition py_min (l : list pyfloat) : pyfloat :=
  match l with
  | [] => Finite 0%Qc
  | x :: rest => foldl (fun m v => if pyfloat_lt v m then v else m) x rest
  end.

Definition py_max (l : list pyfloat) : pyfloat :=
  match l with
  | [] => Finite 0%Qc
  | x :: rest => foldl (fun m v => if pyfloat_lt m v then v else m) x rest
  end.

Record day_row := DayRow {
  date : PyDate.date;
  resting_hr : pyfloat;
  min_hr : pyfloat;
  max_hr : pyfloat;
  readings : nat;
  row_sources : gset string
}.

Definition by_date (x y : day_row) : Prop := le (date x) (date y).

#[global] Instance by_date_dec x y : Decision (by_date x y).
Proof. unfold by_date. apply _. Defined.

Section Aggregation.

(** [statistics.mean] on a non-empty list of floats and [round(x, 1)] on a
    float: both give a float. *)
Variable statistics_mean : list pyfloat -> pyfloat.
Variable round1 : pyfloat -> pyfloat.

(** The body of the second loop: a row when the day has readings. *)
Definition make_row (p : PyDate.date * day_data) : option day_row :=
  let values := values p.2 in
  if decide (0 < length values)%nat then
    Some (DayRow p.1 (round1 (statistics_mean values)) (py_min values) (py_max values)
            (length values) (sources p.2))
  else None.

Definition aggregate_by_day (records : list rhr_record) : list day_row :=
  let days := foldl add_record ∅ records in
  merge_sort by_date (omap make_row (map_to_list days)).

End Aggregation.

(** *** What the aggregation states *)

(** The records of one calendar date, in the order of the input. *)
Definition records_on (d : PyDate.date) (records : list rhr_record) : list rhr_record :=
  filter (fun r => date_key r = d) records.

Definition source_set (records : list rhr_record) : gset string :=
  list_to_set (source <$> records).




(** *** The two library functions on readings that are exact decimals

    The exact mean and the exact rounding to one decimal, ties to the even
    digit: they stand for [statistics.mean] and [round] when the aggregation
    is run on concrete readings. *)

Definition sum (l : list Qc) : Qc := foldr Qcplus 0%Qc l.

Definition exact_mean (l : list Qc) : Qc := (sum l / Qc_of_Z (Z.of_nat (length l)))%Qc.

(** Rounding to the nearest integer, ties to the even one. *)
Definition round_half_even (x : Qc) : Z :=
  let f := Qfloor x in
  let r := (x - Qc_of_Z f)%Qc in
  if decide (r < Q2Qc (1 # 2))%Qc then f
  else if decide (Q2Qc (1 # 2) < r)%Qc then f + 1
  else if Z.even f then f else f + 1.

Definition exact_round1 (x : Qc) : Qc :=
  (Qc_of_Z (round_half_even (x * Qc_of_Z 10)) / Qc_of_Z 10)%Qc.

(** The values of a list of finite floats. *)
Fixpoint finite_values (l : list pyfloat) : option (list Qc) :=
  match l with
  | [] => Some []
  | Finite q :: rest => qs ← finite_values rest ; Some (q :: qs)
  | _ :: _ => None
  end.

Definition exact_statistics_mean (l : list pyfloat) : pyfloat :=
  match finite_values l with
  | Some qs => Finite (exact_mean qs)
  | None => NaN
  end.

Definition exact_py_round1 (x : pyfloat) : pyfloat :=
  match x with
  | Finite q => Finite (exact_round1 q)
  | _ => x
  end.

(** *** Records to run the aggregation on *)

Definition reading (d : PyDate.date) (v : pyfloat) (source : string) : rhr_record :=
  RhrRecord (DateTime d 8 0 0 0) (DateTime d 8 0 0 0) v "count/min" source d.

(** The fraction a finite float stands for. *)
Definition fraction (x : pyfloat) : option Q :=
  match x with
  | Finite q => Some (this q)
  | _ => None
  end.

End RestingHR.

(** ** Sleep ([extract_sleep_data.py]) *)

Module Sleep.

Record sleep_record := SleepRecord {
  start_date : datetime;
  end_date : datetime;
  duration : Qc;
  value : option string;
  source : string;
  night_date : date;
  is_nap : bool
}.

Inductive line :=
  | Parsing (xml_path : string)
  | ExtractingSleepRecords
  | ErrorProcessingSleepRecord (e : exn)
  | FoundSleepRecords (n : nat).

Section Extraction.

Variable strptime : string -> option datetime.

(** The body of the [try]: [None] is [continue]. *)
Definition try_body (record : element) : result (option sleep_record) :=
  let value := get record "value" in
  start_date <-! parse_datetime strptime (get record "startDate") ;
  end_date <-! parse_datetime strptime (get record "endDate") ;
  let source := get_default record "sourceName" "Unknown" in
  let duration :=
    (Qc_of_Z (total_seconds_between start_date end_date) / Qc_of_Z 3600)%Qc in
  if decide (duration < Q2Qc (1 # 10) \/ Qc_of_Z 24 < duration)%Qc then inr None
  else
    let is_nap := bool_decide (hour start_date < 18 /\ hour start_date > 8) in
    night_date <-! (if decide (hour start_date < 6)
                    then t <-! minus_one_day start_date ; inr (dt_date t)
                    else inr (dt_date start_date)) ;
    inr (Some (SleepRecord start_date end_date duration value source night_date is_nap)).

Fixpoint extract_loop (records : list element) (sleep_records : list sleep_record)
    (out : list line) : result (list sleep_record) * list line :=
  match records with
  | [] => (inr sleep_records, out)
  | record :: rest =>
      match try_body record with
      | inr (Some r) => extract_loop rest (sleep_records ++ [r]) out
      | inr None => extract_loop rest sleep_records out
      | inl ValueError =>
          extract_loop rest sleep_records (out ++ [ErrorProcessingSleepRecord ValueError])
      | inl TypeError =>
          extract_loop rest sleep_records (out ++ [ErrorProcessingSleepRecord TypeError])
      | inl e => (inl e, out)
      end
  end.

Definition get_sleep_records (xml_path : string) (root : list element)
    : result (list sleep_record) * list line :=
  match extract_loop (findall_records "HKCategoryTypeIdentifierSleepAnalysis" root) []
          [Parsing xml_path; ExtractingSleepRecords] with
  | (inr sleep_records, out) =>
      (inr sleep_records, out ++ [FoundSleepRecords (length sleep_records)])
  | (inl e, out) => (inl e, out)
  end.

(** *** What the extraction states *)

(** The record a [Record] element contributes, if any. *)
Definition accepted (record : element) : option sleep_record :=
  match try_body record with
  | inr (Some r) => Some r
  | _ => None
  end.

(** The line printed for an element whose fields are malformed. *)
Definition reported (record : element) : option line :=
  match try_body record with
  | inl e => Some (ErrorProcessingSleepRecord e)
  | inr _ => None
  end.

(** The element raises nothing but what the handler catches. *)
Definition recoverable (record : element) : Prop :=
  forall e, try_body record = inl e -> e = ValueError \/ e = TypeError.

End Extraction.

(** [needle in hay] on strings. *)
Fixpoint contains (needle hay : string) : bool :=
  String.prefix needle hay ||
  match hay with
  | EmptyString => false
  | String _ rest => contains needle rest
  end.

Record night_data := NightData {
  asleep : Qc;
  in_bed : Qc;
  unspecified : Qc;
  total : Qc;
  sources : gset string
}.

Definition default_night : night_data := NightData 0 0 0 0 ∅.

Definition touch (d : date) (nights : gmap date night_data) : gmap date night_data :=
  match nights !! d with
  | Some _ => nights
  | None => <[d := default_night]> nights
  end.

Definition add_source (s : string) (n : night_data) : night_data :=
  NightData (asleep n) (in_bed n) (unspecified n) (total n) ({[s]} ∪ sources n).
Definition add_asleep (x : Qc) (n : night_data) : night_data :=
  NightData (asleep n + x) (in_bed n) (unspecified n) (total n) (sources n).
Definition add_in_bed (x : Qc) (n : night_data) : night_data :=
  NightData (asleep n) (in_bed n + x) (unspecified n) (total n) (sources n).
Definition add_unspecified (x : Qc) (n : night_data) : night_data :=
  NightData (asleep n) (in_bed n) (unspecified n + x) (total n) (sources n).
Definition add_total (x : Qc) (n : night_data) : night_data :=
  NightData (asleep n) (in_bed n) (unspecified n) (total n + x) (sources n).

(** One turn of the loop of [aggregate_sleep_by_night]; ['Asleep' in value]
    raises [TypeError] when the record has no value. *)
Definition add_record (nights : gmap date night_data) (record : sleep_record)
    : result (gmap date night_data) :=
  let night := night_date record in
  if is_nap record then inr nights
  else
    let nights1 := alter (add_source (source record)) night (touch night nights) in
    match value record with
    | None => inl TypeError
    | Some value =>
        let nights2 :=
          if contains "Asleep" value then
            alter (add_asleep (duration record)) night (touch night nights1)
          else if contains "InBed" value then
            alter (add_in_bed (duration record)) night (touch night nights1)
          else alter (add_unspecified (duration record)) night (touch night nights1) in
        inr (alter (add_total (duration record)) night (touch night nights2))
    end.

Fixpoint aggregate_loop (sleep_records : list sleep_record)
    (nights : gmap date night_data) : result (gmap date night_data) :=
  match sleep_records with
  | [] => inr nights
  | record :: rest =>
      nights' <-! add_record nights record ;
      aggregate_loop rest nights'
  end.

(** A row of the result: [{'date': date, **data}]. *)
Record night_row := NightRow { date : PyDate.date; data : night_data }.

Definition by_date (x y : night_row) : Prop := le (date x) (date y).

#[global] Instance by_date_dec x y : Decision (by_date x y).
Proof. unfold by_date. apply _. Defined.

Definition aggregate_sleep_by_night (sleep_records : list sleep_record)
    : result (list night_row) :=
  nights <-! aggregate_loop sleep_records ∅ ;
  inr (merge_sort by_date ((fun p => NightRow p.1 p.2) <$> map_to_list nights)).

(** *** What the night aggregation states *)

(** The three categories of a label, in the order the labels are tested. *)
Inductive category := Asleep | InBed | Unspecified.

#[global] Instance category_eq_dec : EqDecision category.
Proof. solve_decision. Defined.

Definition category_of (value : string) : category :=
  if contains "Asleep" value then Asleep
  else if contains "InBed" value then InBed
  else Unspecified.

(** The records that count for a night: those of that night date that are not
    naps, in the order of the input. *)
Definition night_records (d : PyDate.date) (records : list sleep_record)
    : list sleep_record :=
  filter (fun r => night_date r = d /\ is_nap r = false) records.

(** What a record contributes to a category. *)
Definition in_category (c : category) (r : sleep_record) : Qc :=
  match value r with
  | Some v => if decide (category_of v = c) then duration r else 0%Qc
  | None => 0%Qc
  end.

Definition duration_in (c : category) (records : list sleep_record) : Qc :=
  foldr (fun r acc => in_category c r + acc)%Qc 0%Qc records.

Definition total_duration (records : list sleep_record) : Qc :=
  foldr (fun r acc => duration r + acc)%Qc 0%Qc records.

Definition source_set (records : list sleep_record) : gset string :=
  list_to_set (source <$> records).

(** Every record that is not a nap has a label. *)
Definition labelled (records : list sleep_record) : Prop :=
  Forall (fun r => is_nap r = false -> is_Some (value r)) records.

(** The entry of a night that starts from [a] and takes in the records [on]. *)
Definition accumulate (a : night_data) (on : list sleep_record) : night_data :=
  NightData (asleep a + duration_in Asleep on) (in_bed a + duration_in InBed on)
    (unspecified a + duration_in Unspecified on) (total a + total_duration on)
    (sources a ∪ source_set on).

(** *** Elements to run the extraction on *)

Definition sleep_element (value start_date end_date source : string) : element :=
  record_element "HKCategoryTypeIdentifierSleepAnalysis"
    [("value", value); ("startDate", start_date); ("endDate", end_date);
     ("sourceName", source)]%string.

(** A session starting at 01:30, one starting at 07:00, a nap starting at
    14:00, and an element whose start is not a timestamp. *)
Definition after_midnight : element :=
  sleep_element "HKCategoryValueSleepAnalysisAsleepCore"
    "2024-03-10 01:30:00 +0000" "2024-03-10 06:30:00 +0000" "Watch".

Definition morning : element :=
  sleep_element "HKCategoryValueSleepAnalysisInBed"
    "2024-03-10 07:00:00 +0000" "2024-03-10 08:00:00 +0000" "Phone".

Definition afternoon_nap : element :=
  sleep_element "HKCategoryValueSleepAnalysisAsleepCore"
    "2024-03-10 14:00:00 +0000" "2024-03-10 15:00:00 +0000" "Watch".

(** A nap on a day without any other session. *)
Definition lone_nap : element :=
  sleep_element "HKCategoryValueSleepAnalysisAsleepCore"
    "2024-03-11 14:00:00 +0000" "2024-03-11 15:00:00 +0000" "Watch".

Definition malformed_sleep : element :=
  sleep_element "HKCategoryValueSleepAnalysisAsleepCore"
    "yesterday" "2024-03-10 15:00:00 +0000" "Watch".

(** The records extracted from these elements with [strptime_fixed]. *)
Definition example_records : list sleep_record :=
  omap (accepted strptime_fixed) [after_midnight; morning; afternoon_nap; lone_nap].

End Sleep.

(** ** Resting heart rate: extraction ([get_resting_hr_records]) *)

Module RestingHRExtraction.

(** A record as the extraction builds it: the value is the [float] read from
    the attribute, finite or not. *)
Record raw_record := RawRecord {
  start_date : datetime;
  end_date : datetime;
  value : pyfloat;
  unit : string;
  source : string;
  date_key : date          (* the ['date'] entry *)
}.

Inductive line :=
  | Parsing (xml_path : string)
  | ExtractingRestingHeartRateRecords
  | ErrorProcessingRestingHeartRateRecord (e : exn)
  | FoundRestingHeartRateRecords (n : nat).

(** [value <= 0] and [value > 200] on floats: every comparison with [nan] is
    false. *)
Definition le_zero (f : pyfloat) : bool :=
  match f with
  | Finite q => bool_decide (q <= 0)%Qc
  | NegInf => true
  | PosInf | NaN => false
  end.

Definition gt_200 (f : pyfloat) : bool :=
  match f with
  | Finite q => bool_decide (Qc_of_Z 200 < q)%Qc
  | PosInf => true
  | NegInf | NaN => false
  end.

Section Extraction.

Variable strptime : string -> option datetime.
Variable float_of_string : string -> option pyfloat.

(** The body of the [try]: [None] is [continue]. *)
Definition try_body (record : element) : result (option raw_record) :=
  value <-! float_value float_of_string (get record "value") ;
  start_date <-! parse_datetime strptime (get record "startDate") ;
  end_date <-! parse_datetime strptime (get record "endDate") ;
  let unit := get_default record "unit" "count/min" in
  let source := get_default record "sourceName" "Unknown" in
  if le_zero value || gt_200 value then inr None
  else inr (Some (RawRecord start_date end_date value unit source (dt_date start_date))).

Fixpoint extract_loop (records : list element) (rhr_records : list raw_record)
    (out : list line) : result (list raw_record) * list line :=
  match records with
  | [] => (inr rhr_records, out)
  | record :: rest =>
      match try_body record with
      | inr (Some r) => extract_loop rest (rhr_records ++ [r]) out
      | inr None => extract_loop rest rhr_records out
      | inl ValueError =>
          extract_loop rest rhr_records
            (out ++ [ErrorProcessingRestingHeartRateRecord ValueError])
      | inl TypeError =>
          extract_loop rest rhr_records
            (out ++ [ErrorProcessingRestingHeartRateRecord TypeError])
      | inl e => (inl e, out)
      end
  end.

Definition get_resting_hr_records (xml_path : string) (root : list element)
    : result (list raw_record) * list line :=
  match extract_loop (findall_records "HKQuantityTypeIdentifierRestingHeartRate" root) []
          [Parsing xml_path; ExtractingRestingHeartRateRecords] with
  | (inr rhr_records, out) =>
      (inr rhr_records, out ++ [FoundRestingHeartRateRecords (length rhr_records)])
  | (inl e, out) => (inl e, out)
  end.

(** The record a [Record] element contributes, if any, and the line printed
    for an element whose fields are malformed. *)
Definition accepted (record : element) : option raw_record :=
  match try_body record with
  | inr (Some r) => Some r
  | _ => None
  end.

Definition reported (record : element) : option line :=
  match try_body record with
  | inl e => Some (ErrorProcessingRestingHeartRateRecord e)
  | inr _ => None
  end.

End Extraction.

(** The values the range test lets through. *)
Definition in_range (f : pyfloat) : Prop :=
  f = NaN \/ exists q, f = Finite q /\ (0 < q)%Qc /\ (q <= Qc_of_Z 200)%Qc.

(** *** Elements to run the extraction on *)

Definition rhr_element (value start_date : string) : element :=
  record_element "HKQuantityTypeIdentifierRestingHeartRate"
    [("value", value); ("startDate", start_date); ("endDate", start_date)]%string.

Definition example_elements : list element :=
  [rhr_element "58" "2024-01-01 08:00:00 +0000";
   rhr_element "nan" "2024-01-01 09:00:00 +0000";
   rhr_element "inf" "2024-01-01 10:00:00 +0000";
   rhr_element "250" "2024-01-01 11:00:00 +0000";
   rhr_element "fast" "2024-01-01 12:00:00 +0000"].

End RestingHRExtraction.

(** ** Writing the summaries and running the extraction scripts *)

(** [str(date)]: [YYYY-MM-DD], each field in decimal digits padded with
    zeros to its width (the fields of a date fit theirs). *)
Definition digit_char (k : Z) : Ascii.ascii := Ascii.ascii_of_N (48 + Z.to_N k).

Fixpoint zero_padded (width : nat) (n : Z) : list Ascii.ascii :=
  match width with
  | O => []
  | S w => zero_padded w (n / 10) ++ [digit_char (n mod 10)]
  end.

Definition isoformat (d : date) : string :=
  String.string_of_list_ascii
    (zero_padded 4 (year d) ++ "-"%char :: zero_padded 2 (month d)
       ++ "-"%char :: zero_padded 2 (day d)).

(** The file operations of the extraction scripts. *)
Module Output.

Import Correct.

(** [os.path.exists] *)
Definition path_exists (p : string) (fs : filesystem) : bool :=
  bool_decide (p ∈ dirs fs \/ is_Some (files fs !! p)).

(** [os.makedirs] *)
Definition makedirs (d : string) (fs : filesystem) : filesystem :=
  Fs ({[d]} ∪ dirs fs) (files fs).

(** [open(output_path, 'w')] followed by [json.dump]: the open fails when
    [output_dir] is not a directory or [output_path] is one. *)
Definition write_json (output_dir filename : string) (data : list row)
    (fs : filesystem) : result filesystem :=
  let output_path := path_join output_dir filename in
  if decide (output_dir ∈ dirs fs /\ output_path ∉ dirs fs)
  then inr (Fs (dirs fs) (<[output_path := Doc data]> (files fs)))
  else inl OSError.

End Output.

(** *** The step-count script ([extract_step_count.py]) *)

Module StepsScript.

Import Correct Output.

Inductive line :=
  | WillSaveOutputTo (data_dir : string)
  | FromExtraction (l : Steps.line)
  | StepCountStatistics
  | TotalDaysRecorded (days_recorded : nat)
  | TotalSteps (total_steps : Z)
  | AverageDailySteps (average_daily_steps : Qc)
  | MinimumSteps (min_steps : Z) (min_date : option date)
  | MaximumSteps (max_steps : Z) (max_date : option date)
  | CreatedDirectory (directory : string)
  | DataSavedAs (output_path : string)
  | ExtractionComplete (output_path : string)
  | AnErrorOccurred (e : exn).

Definition ensure_dir (directory : string) (fs : filesystem) : filesystem * list line :=
  if negb (path_exists directory fs)
  then (makedirs directory fs, [CreatedDirectory directory])
  else (fs, []).

(** An entry with its date as a string and its sources as a list (in the
    order the set gives them). *)
Definition serializable_entry (entry : Steps.day_row) : row :=
  <["date" := JStr (isoformat (Steps.date entry))]>
    (<["steps" := JNum (Qc_of_Z (Steps.steps entry))]>
       (<["sources" := JArr (elements (Steps.row_sources entry))]> ∅)).

Definition save_to_json (data : list Steps.day_row) (output_dir filename : string)
    (fs : filesystem) : result string * filesystem * list line :=
  let (fs1, out1) := ensure_dir output_dir fs in
  let output_path := path_join output_dir filename in
  let serializable_data := serializable_entry <$> data in
  match write_json output_dir filename serializable_data fs1 with
  | inl e => (inl e, fs1, out1)
  | inr fs2 => (inr output_path, fs2, out1 ++ [DataSavedAs output_path])
  end.

(** The dictionary [calculate_stats] returns when there is data. *)
Record stats := Stats {
  days_recorded : nat;
  total_steps : Z;
  average_daily_steps : Qc;
  min_steps : Z;
  min_date : option date;
  max_steps : Z;
  max_date : option date
}.

(** [min] and [max] of a list of integers, [0] standing in for the empty
    list as in the source. *)
Definition min_or_0 (values : list Z) : Z :=
  match values with
  | [] => 0
  | v :: vs => foldl Z.min v vs
  end.

Definition max_or_0 (values : list Z) : Z :=
  match values with
  | [] => 0
  | v :: vs => foldl Z.max v vs
  end.

(** [next((entry['date'] for entry in data if entry['steps'] == v), None)] *)
Definition first_date_with (v : Z) (data : list Steps.day_row) : option date :=
  Steps.date <$> head (filter (fun entry => Steps.steps entry = v) data).

Section Script.

Variable strptime : string -> option datetime.
Variable float_of_string : string -> option pyfloat.

(** [total / count] on two integers: the float nearest to the quotient, read
    exactly; [None] stands for the [OverflowError] raised when the quotient is
    beyond the range of floats. *)
Variable true_div : Z -> Z -> option Qc.

(** [calculate_stats]; [None] is the empty dictionary. The average is
    computed first, and its division can raise. *)
Definition calculate_stats (data : list Steps.day_row) : result (option stats) :=
  match data with
  | [] => inr None
  | _ =>
      let values := Steps.steps <$> data in
      let count := length values in
      let total := foldl Z.add 0 values in
      average <-! (if decide (0 < count)%nat
                   then match true_div total (Z.of_nat count) with
                        | Some q => inr q
                        | None => inl OverflowError
                        end
                   else inr 0%Qc) ;
      let minimum := min_or_0 values in
      let maximum := max_or_0 values in
      inr (Some (Stats count total average minimum (first_date_with minimum data)
                   maximum (first_date_with maximum data)))
  end.

(** [get_step_count_records] from the file: [export] is what [ET.parse]
    gives, the elements of the document or the exception it raises. *)
Definition extract (xml_path : string) (export : result (list element))
    : result (list Steps.step_record) * list Steps.line :=
  match export with
  | inl e => (inl e, [Steps.Parsing xml_path])
  | inr root => Steps.get_step_count_records strptime float_of_string xml_path root
  end.

(** The script: the statistics are computed and read off the dictionary
    before anything is saved, and [except Exception] prints the error. *)
Definition main (export : result (list element)) (fs : filesystem)
    : filesystem * list line :=
  let out0 := [WillSaveOutputTo "data"] in
  match extract "apple_health_export/export.xml" export with
  | (inl e, lines) => (fs, out0 ++ (FromExtraction <$> lines) ++ [AnErrorOccurred e])
  | (inr step_records, lines) =>
      let daily_data := Steps.aggregate_by_day step_records in
      let out1 := out0 ++ (FromExtraction <$> lines) ++ [StepCountStatistics] in
      match calculate_stats daily_data with
      | inl e => (fs, out0 ++ (FromExtraction <$> lines) ++ [AnErrorOccurred e])
      | inr None => (fs, out1 ++ [AnErrorOccurred (KeyError "days_recorded")])
      | inr (Some stats) =>
          let out2 :=
            out1 ++ [TotalDaysRecorded (days_recorded stats);
                     TotalSteps (total_steps stats);
                     AverageDailySteps (average_daily_steps stats);
                     MinimumSteps (min_steps stats) (min_date stats);
                     MaximumSteps (max_steps stats) (max_date stats)] in
          match save_to_json daily_data "data" "step_count_data.json" fs with
          | (inl e, fs', lines') => (fs', out2 ++ lines' ++ [AnErrorOccurred e])
          | (inr output_path, fs', lines') =>
              (fs', out2 ++ lines' ++ [ExtractionComplete output_path])
          end
      end
  end.

End Script.

(** The exact quotient: it stands for the division when the script is run on
    concrete data whose quotient is a float. *)
Definition exact_div (total count : Z) : option Qc :=
  Some (Qc_of_Z total / Qc_of_Z count)%Qc.

End StepsScript.

(** *** The sleep script ([extract_sleep_data.py]) *)

Module SleepScript.

Import Correct Output.

Inductive line :=
  | WillSaveOutputTo (data_dir : string)
  | FromExtraction (l : Sleep.line)
  | CreatedDirectory (directory : string)
  | DataSavedAs (output_path : string)
  | ExtractionComplete
  | AnErrorOccurred (e : exn).

Definition ensure_dir (directory : string) (fs : filesystem) : filesystem * list line :=
  if negb (path_exists directory fs)
  then (makedirs directory fs, [CreatedDirectory directory])
  else (fs, []).

(** An entry with its date as a string and its sources as a list (in the
    order the set gives them). *)
Definition serializable_entry (entry : Sleep.night_row) : row :=
  let data := Sleep.data entry in
  <["date" := JStr (isoformat (Sleep.date entry))]>
    (<["asleep" := JNum (Sleep.asleep data)]>
       (<["in_bed" := JNum (Sleep.in_bed data)]>
          (<["unspecified" := JNum (Sleep.unspecified data)]>
             (<["total" := JNum (Sleep.total data)]>
                (<["sources" := JArr (elements (Sleep.sources data))]> ∅))))).

Definition save_sleep_data_json (sleep_data : list Sleep.night_row)
    (output_dir filename : string) (fs : filesystem)
    : result string * filesystem * list line :=
  let (fs1, out1) := ensure_dir output_dir fs in
  let output_path := path_join output_dir filename in
  let serializable_data := serializable_entry <$> sleep_data in
  match write_json output_dir filename serializable_data fs1 with
  | inl e => (inl e, fs1, out1)
  | inr fs2 => (inr output_path, fs2, out1 ++ [DataSavedAs output_path])
  end.

Section Script.

Variable strptime : string -> option datetime.

(** [get_sleep_records] from the file: [export] is what [ET.parse] gives. *)
Definition extract (xml_path : string) (export : result (list element))
    : result (list Sleep.sleep_record) * list Sleep.line :=
  match export with
  | inl e => (inl e, [Sleep.Parsing xml_path])
  | inr root => Sleep.get_sleep_records strptime xml_path root
  end.

Definition main (export : result (list element)) (fs : filesystem)
    : filesystem * list line :=
  let out0 := [WillSaveOutputTo "data"] in
  match extract "apple_health_export/export.xml" export with
  | (inl e, lines) => (fs, out0 ++ (FromExtraction <$> lines) ++ [AnErrorOccurred e])
  | (inr sleep_records, lines) =>
      let out1 := out0 ++ (FromExtraction <$> lines) in
      match Sleep.aggregate_sleep_by_night sleep_records with
      | inl e => (fs, out1 ++ [AnErrorOccurred e])
      | inr sleep_data =>
          match save_sleep_data_json sleep_data "data" "sleep_data.json" fs with
          | (inl e, fs', lines') => (fs', out1 ++ lines' ++ [AnErrorOccurred e])
          | (inr _, fs', lines') => (fs', out1 ++ lines' ++ [ExtractionComplete])
          end
      end
  end.

End Script.

End SleepScript.

(** ** What the correction engine reports *)

Module Report.

Import Correct.

Section WithParser.

Variable fromisoformat : string -> option date.

(** The date of a row, when it has one that parses. *)
Definition row_date (r : row) : option date :=
  match r !! "date" with
  | Some (JStr s) => fromisoformat s
  | _ => None
  end.

(** The row is dated from the cutoff on. *)
Definition from_cutoff (r : row) : bool :=
  match row_date r with
  | Some d => bool_decide (PyDate.le cutoff d)
  | None => false
  end.

(** What the correction takes off the [asleep] of a row. *)
Definition reduction (r : row) : Qc :=
  match r !! "asleep", r !! "in_bed" with
  | Some (JNum a), Some (JNum b) =>
      if from_cutoff r then (a - py_max0 (a - b))%Qc else 0%Qc
  | _, _ => 0%Qc
  end.

(** The rows whose [asleep] the correction changes, in order. *)
Definition changed (data : list row) : list row :=
  filter (fun r => reduction r <> 0%Qc) data.

(** The lines of the analysis: the number of changed rows, the mean and the
    sum of what was taken off them, added up in the order of the rows. *)
Definition analysis_lines (data : list row) : list line :=
  let affected := length (changed data) in
  let total := foldl (fun acc r => (acc + reduction r)%Qc) 0%Qc (changed data) in
  if decide (0 < affected)%nat then
    [CorrectionAnalysis; AffectedRecords affected;
     AverageReduction (total / Qc_of_Z (Z.of_nat affected))%Qc; TotalReduction total]
  else [NoRecordsAffected].

End WithParser.

End Report.

(** * Properties *)

(** ** The calendar *)

Section DateFacts.

#[global] Instance date_le_refl : Reflexive PyDate.le.
Proof. intros [y m d]; unfold PyDate.le; simpl; lia. Qed.

#[global] Instance date_le_trans : Transitive PyDate.le.
Proof. intros [] [] []; unfold PyDate.le; simpl; lia. Qed.

#[global] Instance date_le_total : Total PyDate.le.
Proof. intros [] []; unfold PyDate.le; simpl; lia. Qed.

#[global] Instance date_le_antisym : AntiSymm (=) PyDate.le.
Proof.
  intros [y m d] [y' m' d']; unfold PyDate.le; simpl; intros H1 H2.
  assert (y = y' /\ m = m' /\ d = d') as (-> & -> & ->) by lia. done.
Qed.

Lemma date_not_le (a b : date) : ~ PyDate.le a b -> PyDate.le b a.
Proof. destruct (total PyDate.le a b); tauto. Qed.

Lemma is_leap_spec (y : Z) :
  is_leap y = true <-> y mod 4 = 0 /\ (y mod 100 <> 0 \/ y mod 400 = 0).
Proof.
  unfold is_leap. rewrite andb_true_iff, orb_true_iff, negb_true_iff.
  rewrite !Z.eqb_eq, Z.eqb_neq. tauto.
Qed.

Lemma days_before_year_succ (y : Z) :
  days_before_year (y + 1) = days_before_year y + 365 + (if is_leap y then 1 else 0).
Proof.
  unfold days_before_year.
  destruct (is_leap y) eqn:E.
  - apply is_leap_spec in E. replace (y + 1 - 1) with y by lia.
    Z.div_mod_to_equations. lia.
  - assert (~ (y mod 4 = 0 /\ (y mod 100 <> 0 \/ y mod 400 = 0))) as N.
    { rewrite <- is_leap_spec, E. done. }
    replace (y + 1 - 1) with y by lia.
    Z.div_mod_to_equations. lia.
Qed.

Lemma days_before_month_succ (y m : Z) :
  1 <= m < 12 ->
  days_before_month y (m + 1) = days_before_month y m + days_in_month y m.
Proof.
  intros Hm.
  assert (m = 1 \/ m = 2 \/ m = 3 \/ m = 4 \/ m = 5 \/ m = 6 \/ m = 7 \/ m = 8 \/
          m = 9 \/ m = 10 \/ m = 11) as Hc by lia.
  unfold days_before_month, days_in_month.
  destruct (is_leap y); intuition (subst; reflexivity).
Qed.

Lemma days_in_month_pos (y m : Z) : 1 <= m <= 12 -> 28 <= days_in_month y m <= 31.
Proof.
  intros Hm.
  assert (m = 1 \/ m = 2 \/ m = 3 \/ m = 4 \/ m = 5 \/ m = 6 \/ m = 7 \/ m = 8 \/
          m = 9 \/ m = 10 \/ m = 11 \/ m = 12) as Hc by lia.
  unfold days_in_month.
  destruct (is_leap y); intuition (subst; simpl; lia).
Qed.

(** The first representable day has ordinal 1 and every other valid date a
    larger one. *)
Lemma toordinal_min (d : date) :
  valid d -> 1 <= toordinal d /\ (toordinal d = 1 -> d = Date 1 1 1).
Proof.
  destruct d as [y m d]. unfold valid, toordinal. simpl. intros (Hy & Hm & Hd).
  assert (0 <= days_before_month y m) as Hbm.
  { unfold days_before_month.
    assert (m = 1 \/ m = 2 \/ m = 3 \/ m = 4 \/ m = 5 \/ m = 6 \/ m = 7 \/ m = 8 \/
            m = 9 \/ m = 10 \/ m = 11 \/ m = 12) as Hc by lia.
    destruct (is_leap y); intuition (subst; simpl; lia). }
  assert (365 * (y - 1) <= days_before_year y) as Hby.
  { unfold days_before_year. Z.div_mod_to_equations. lia. }
  split; [lia|]. intros He.
  assert (y = 1) as -> by lia.
  assert (d = 1) as -> by (unfold days_before_year in *; simpl in *; lia).
  assert (days_before_month 1 m = 0) as H0 by (unfold days_before_year in *; simpl in *; lia).
  assert (m = 1) as ->; [|done].
  unfold days_before_month in H0.
  assert (m = 1 \/ m = 2 \/ m = 3 \/ m = 4 \/ m = 5 \/ m = 6 \/ m = 7 \/ m = 8 \/
          m = 9 \/ m = 10 \/ m = 11 \/ m = 12) as Hc by lia.
  intuition (subst; simpl in *; lia).
Qed.

(** Stepping back one calendar day lowers the ordinal by one and stays
    inside the calendar. *)
Lemma prev_day_spec (d : date) :
  valid d -> 1 < toordinal d ->
  valid (prev_day d) /\ toordinal (prev_day d) = toordinal d - 1.
Proof.
  intros Hv Ho. pose proof (toordinal_min d Hv) as [_ Hmin].
  destruct d as [y m d]. unfold valid in *. simpl in *.
  destruct Hv as (Hy & Hm & Hd). unfold prev_day. simpl.
  destruct (1 <? d) eqn:E1; [apply Z.ltb_lt in E1|apply Z.ltb_ge in E1].
  { unfold toordinal; simpl. lia. }
  assert (d = 1) as -> by lia.
  destruct (1 <? m) eqn:E2; [apply Z.ltb_lt in E2|apply Z.ltb_ge in E2].
  { pose proof (days_in_month_pos y (m - 1)).
    pose proof (days_before_month_succ y (m - 1)).
    replace (m - 1 + 1) with m in * by lia.
    unfold toordinal; simpl. lia. }
  assert (m = 1) as -> by lia.
  assert (y <> 1) as Hy1.
  { intros ->. vm_compute in Ho. discriminate. }
  pose proof (days_before_year_succ (y - 1)) as Hs.
  replace (y - 1 + 1) with y in Hs by lia.
  unfold toordinal; simpl. split; [unfold days_in_month; simpl; lia|].
  rewrite Hs. unfold days_before_month. simpl.
  destruct (is_leap (y - 1)); lia.
Qed.

End DateFacts.

(** ** The correction rule *)

Section CorrectionFacts.

Import Correct.

Variable fromisoformat : string -> option date.

Hypothesis cutoff_parses : fromisoformat "2024-11-20" = Some cutoff.

Lemma py_max0_is_max0 (x : Qc) : is_max0 x (py_max0 x).
Proof.
  unfold is_max0, py_max0. destruct (decide (0 < x)%Qc) as [H|H].
  - split; [by apply Qclt_le_weak|]. split; [apply Qcle_refl|by right].
  - apply Qcnot_lt_le in H. split; [apply Qcle_refl|]. split; [done|by left].
Qed.

Lemma correct_entry_ok (r : row) :
  correctable fromisoformat r ->
  exists r' c, correct_entry fromisoformat cutoff r = inr (r', c) /\
               corrected_as_specified fromisoformat r r'.
Proof.
  intros (s & d & Hd & Hp & Hn). unfold correct_entry, getitem, parse_date.
  rewrite Hd. simpl. rewrite Hp. simpl.
  destruct (decide (PyDate.le cutoff d)) as [Hle|Hle].
  - destruct (Hn Hle) as (a & b & Ha & Hb). rewrite Ha, Hb. simpl.
    eexists _, _. split; [done|]. exists s, d. split_and!; [done..|].
    left. split; [done|]. exists a, b, (py_max0 (a - b)).
    split_and!; [done..|apply py_max0_is_max0|done].
  - eexists _, _. split; [done|]. exists s, d. split_and!; [done..|].
    right. split; [|done]. split; [by apply date_not_le|].
    intros ->. apply Hle. reflexivity.
Qed.

Lemma correct_entry_fails (r : row) :
  ~ correctable fromisoformat r -> exists e, correct_entry fromisoformat cutoff r = inl e.
Proof.
  intros Hn. unfold correct_entry, getitem, parse_date.
  destruct (r !! "date") as [[| |s|]|] eqn:Hd; simpl; eauto.
  destruct (fromisoformat s) as [d|] eqn:Hp; simpl; eauto.
  destruct (decide (PyDate.le cutoff d)) as [Hle|Hle].
  - destruct (r !! "asleep") as [va|] eqn:Ha; simpl; eauto.
    destruct (r !! "in_bed") as [vb|] eqn:Hb; simpl; eauto.
    destruct va as [|a| |]; simpl; eauto.
    destruct vb as [|b| |]; simpl; eauto.
    exfalso. apply Hn. exists s, d. split_and!; [done..|]. intros _. eauto.
  - exfalso. apply Hn. exists s, d. split_and!; [done..|]. intros H. done.
Qed.

Lemma correct_entries_ok (data : list row) :
  Forall (correctable fromisoformat) data ->
  exists out n, correct_entries fromisoformat cutoff data = inr (out, n) /\
                Forall2 (corrected_as_specified fromisoformat) data out.
Proof.
  induction 1 as [|r data Hr _ IH]; simpl.
  - eexists _, _. split; [done|constructor].
  - destruct (correct_entry_ok r Hr) as (r' & c & -> & Hc).
    destruct IH as (out & n & -> & Hout). simpl.
    eexists _, _. split; [done|]. by constructor.
Qed.

Lemma correct_entries_fails (data : list row) :
  Exists (fun r => ~ correctable fromisoformat r) data ->
  exists e, correct_entries fromisoformat cutoff data = inl e.
Proof.
  induction 1 as [r data Hr|r data _ IH]; simpl.
  - destruct (correct_entry_fails r Hr) as (e & ->). simpl. eauto.
  - destruct (correct_entry fromisoformat cutoff r) as [e|p]; simpl; [eauto|].
    destruct IH as (e & ->). simpl. eauto.
Qed.

(** C1. Every row the correction engine processes is corrected by the rule:
    from 2024-11-20 on, [asleep] becomes the larger of [0] and
    [asleep - in_bed] and nothing else changes; before that date the row
    passes through unchanged. On rows it can process the engine returns. *)
Theorem correction_rule (data : list row) (w : world) :
  Forall (correctable fromisoformat) data ->
  exists out w',
    correct_sleep_data fromisoformat data "2024-11-20" w = (inr out, w') /\
    fs w' = fs w /\
    Forall2 (corrected_as_specified fromisoformat) data out.
Proof.
  intros Hd. destruct (correct_entries_ok data Hd) as (out & n & He & Hout).
  unfold correct_sleep_data, mbind, lift, parse_date.
  rewrite cutoff_parses. rewrite He. simpl.
  eexists _, _. split; [done|]. split; done.
Qed.

End CorrectionFacts.

(** ** The run of the correction engine *)

Section EngineFacts.

Import Correct.

Variable fromisoformat : string -> option date.

(** Case analysis along the tests a computation makes. *)
Ltac split_tests :=
  repeat (first [ case_bool_decide | case_match ]; simpl in * ).

Lemma load_sleep_data_frame (data_dir filename : string) (w : world) :
  fs (load_sleep_data data_dir filename w).2 = fs w /\
  stdin (load_sleep_data data_dir filename w).2 = stdin w.
Proof.
  unfold load_sleep_data, mbind, path_exists, raise, print, json_load, ret. simpl.
  split_tests; simplify_eq; done.
Qed.

Lemma load_sleep_data_absent (data_dir filename : string) (w : world) :
  ~ exists_at (path_join data_dir filename) w ->
  load_sleep_data data_dir filename w = (inl FileNotFoundError, w).
Proof.
  intros H. unfold load_sleep_data, mbind, path_exists, raise. simpl.
  rewrite bool_decide_eq_false_2; done.
Qed.

Lemma load_sleep_data_doc (data_dir filename : string) (rows : list row) (w : world) :
  files (fs w) !! path_join data_dir filename = Some (Doc rows) ->
  exists w', load_sleep_data data_dir filename w = (inr rows, w').
Proof.
  intros H. unfold load_sleep_data, mbind, path_exists, raise, print, json_load, ret.
  simpl. rewrite bool_decide_eq_true_2; [|right; rewrite H; eauto]. simpl.
  rewrite H. eauto.
Qed.


Lemma correct_sleep_data_frame (data : list row) (cutoff_date : string) (w : world) :
  fs (correct_sleep_data fromisoformat data cutoff_date w).2 = fs w /\
  stdin (correct_sleep_data fromisoformat data cutoff_date w).2 = stdin w.
Proof.
  unfold correct_sleep_data, mbind, lift, print, ret. simpl.
  split_tests; simplify_eq; done.
Qed.


Lemma analyze_corrections_frame (original_data corrected_data : list row) (w : world) :
  fs (analyze_corrections fromisoformat original_data corrected_data w).2 = fs w /\
  stdin (analyze_corrections fromisoformat original_data corrected_data w).2 = stdin w.
Proof.
  unfold analyze_corrections, mbind, lift, print, ret. simpl.
  split_tests; simplify_eq; done.
Qed.



Hypothesis cutoff_parses : fromisoformat "2024-11-20" = Some cutoff.

(** The three artifacts of the engine. *)
Local Notation original_path := "data/sleep_data.json"%string.
Local Notation backup_path := "data/sleep_data_backup.json"%string.
Local Notation corrected_path := "data/sleep_data_corrected.json"%string.

(** The persist phase and what follows it in the script. *)
Local Notation persist corrected_data :=
  (save_sleep_data corrected_data "data" "sleep_data_corrected.json" true ;;
   update_original_file corrected_data "data" ;;
   print CompletedSuccessfully).

(** How the script ends once its body has run. *)
Local Notation finish r :=
  (match r with
   | (inr _, w') => w'
   | (inl e, w') => (print (AnErrorOccurred e) w').2
   end).

Lemma mbind_inr {A B} (m : M A) (k : A -> M B) (w w' : world) (a : A) :
  m w = (inr a, w') -> mbind m k w = k a w'.
Proof. intros H. unfold mbind. by rewrite H. Qed.

Lemma mbind_inl {A B} (m : M A) (k : A -> M B) (w w' : world) (e : exn) :
  m w = (inl e, w') -> mbind m k w = (inl e, w').
Proof. intros H. unfold mbind. by rewrite H. Qed.

(** [ensure_dir] returns, leaves the files alone and adds at most the
    directory itself. *)
Lemma ensure_dir_spec (directory : string) (w : world) :
  exists w', ensure_dir directory w = (inr directory, w') /\
    files (fs w') = files (fs w) /\ stdin w' = stdin w /\
    (dirs (fs w') = dirs (fs w) \/ dirs (fs w') = {[directory]} ∪ dirs (fs w)).
Proof.
  unfold ensure_dir, mbind, path_exists, makedirs, print, ret.
  case_bool_decide; cbn; eauto 10.
Qed.




(** The phases before persisting: load, correct, analyze. *)
Local Notation analysis :=
  (original_data <- load_sleep_data "data" "sleep_data.json" ;;
   corrected_data <- correct_sleep_data fromisoformat original_data "2024-11-20" ;;
   analyze_corrections fromisoformat original_data corrected_data ;;
   ret corrected_data).

Lemma main_unfold (w : world) :
  main fromisoformat w =
  match analysis w with
  | (inl e, w') => (print (AnErrorOccurred e) w').2
  | (inr corrected_data, w') => finish (persist corrected_data w')
  end.
Proof.
  unfold main, main_body.
  destruct (load_sleep_data "data" "sleep_data.json" w)
    as [[e|original_data] w1] eqn:E1.
  { by rewrite !(mbind_inl _ _ _ _ _ E1). }
  rewrite !(mbind_inr _ _ _ _ _ E1).
  destruct (correct_sleep_data fromisoformat original_data "2024-11-20" w1)
    as [[e|corrected_data] w2] eqn:E2.
  { by rewrite !(mbind_inl _ _ _ _ _ E2). }
  rewrite !(mbind_inr _ _ _ _ _ E2).
  destruct (analyze_corrections fromisoformat original_data corrected_data w2)
    as [[e|[]] w3] eqn:E3.
  { by rewrite !(mbind_inl _ _ _ _ _ E3). }
  by rewrite !(mbind_inr _ _ _ _ _ E3).
Qed.

Lemma load_sleep_data_inv (data_dir filename : string) (rows : list row) (w w' : world) :
  load_sleep_data data_dir filename w = (inr rows, w') ->
  files (fs w) !! path_join data_dir filename = Some (Doc rows).
Proof.
  unfold load_sleep_data, mbind, path_exists, raise, print, json_load, ret. simpl.
  intros H. split_tests; simplify_eq; done.
Qed.

Lemma correct_sleep_data_inv (data out : list row) (w w' : world) :
  correct_sleep_data fromisoformat data "2024-11-20" w = (inr out, w') ->
  exists n, correct_entries fromisoformat cutoff data = inr (out, n).
Proof.
  unfold correct_sleep_data, mbind, lift, parse_date. rewrite cutoff_parses. simpl.
  destruct (correct_entries _ _ _) as [e|[out' n]]; simpl; [done|].
  intros [= <- _]. eauto.
Qed.

Lemma analysis_frame (w : world) :
  fs (analysis w).2 = fs w /\ stdin (analysis w).2 = stdin w.
Proof.
  pose proof (load_sleep_data_frame "data" "sleep_data.json" w) as [F1 I1].
  destruct (load_sleep_data "data" "sleep_data.json" w)
    as [[e|original_data] w1] eqn:E1; cbn in F1, I1.
  { by rewrite (mbind_inl _ _ _ _ _ E1). }
  rewrite (mbind_inr _ _ _ _ _ E1).
  pose proof (correct_sleep_data_frame original_data "2024-11-20" w1) as [F2 I2].
  destruct (correct_sleep_data fromisoformat original_data "2024-11-20" w1)
    as [[e|corrected_data] w2] eqn:E2; cbn in F2, I2.
  { rewrite (mbind_inl _ _ _ _ _ E2). cbn. split; congruence. }
  rewrite (mbind_inr _ _ _ _ _ E2).
  pose proof (analyze_corrections_frame original_data corrected_data w2) as [F3 I3].
  destruct (analyze_corrections fromisoformat original_data corrected_data w2)
    as [[e|[]] w3] eqn:E3; cbn in F3, I3.
  { rewrite (mbind_inl _ _ _ _ _ E3). cbn. split; congruence. }
  rewrite (mbind_inr _ _ _ _ _ E3). cbn. split; congruence.
Qed.

Lemma analysis_inv (corrected_data : list row) (w w' : world) :
  analysis w = (inr corrected_data, w') ->
  exists rows n,
    files (fs w) !! "data/sleep_data.json" = Some (Doc rows) /\
    correct_entries fromisoformat cutoff rows = inr (corrected_data, n).
Proof.
  destruct (load_sleep_data "data" "sleep_data.json" w)
    as [[e|original_data] w1] eqn:E1.
  { by rewrite (mbind_inl _ _ _ _ _ E1). }
  rewrite (mbind_inr _ _ _ _ _ E1). apply load_sleep_data_inv in E1.
  destruct (correct_sleep_data fromisoformat original_data "2024-11-20" w1)
    as [[e|out] w2] eqn:E2.
  { by rewrite (mbind_inl _ _ _ _ _ E2). }
  rewrite (mbind_inr _ _ _ _ _ E2). apply correct_sleep_data_inv in E2 as [n E2].
  destruct (analyze_corrections fromisoformat original_data out w2)
    as [[e|[]] w3] eqn:E3.
  { by rewrite (mbind_inl _ _ _ _ _ E3). }
  rewrite (mbind_inr _ _ _ _ _ E3). unfold ret. intros [= <- _]. eauto.
Qed.


Lemma analysis_loaded (corrected_data : list row) (w w' : world) :
  analysis w = (inr corrected_data, w') ->
  is_Some (files (fs w) !! "data/sleep_data.json").
Proof.
  destruct (load_sleep_data "data" "sleep_data.json" w)
    as [[e|original_data] w1] eqn:E1.
  { by rewrite (mbind_inl _ _ _ _ _ E1). }
  apply load_sleep_data_inv in E1. intros _. eexists. exact E1.
Qed.

Lemma lacks_needed_field_not_correctable (r : row) :
  lacks_needed_field fromisoformat r -> ~ correctable fromisoformat r.
Proof.
  intros [Hd|(s & d & Hd & Hp & Hle & Hm)] (s' & d' & Hd' & Hp' & Hn).
  - congruence.
  - simplify_eq. destruct (Hn Hle) as (a & b & Ha & Hb).
    destruct Hm; congruence.
Qed.

(** C7 (amended). The engine fails before writing anything when the summary
    artifact is absent, and when a loaded row has no [date] or is dated from the
    cutoff on and has no [asleep] or no [in_bed]: the file system is left as
    it was and the error is printed. *)
Theorem precondition_failure (w : world) :
  ~ exists_at "data/sleep_data.json" w \/
  (exists rows, files (fs w) !! "data/sleep_data.json" = Some (Doc rows) /\
                Exists (lacks_needed_field fromisoformat) rows) ->
  fs (main fromisoformat w) = fs w /\
  exists e, last (stdout (main fromisoformat w)) = Some (AnErrorOccurred e).
Proof.
  intros H. rewrite main_unfold.
  pose proof (analysis_frame w) as [F _].
  destruct (analysis w) as [[e|corrected_data] w'] eqn:E; simpl in *.
  { split; [done|]. exists e. apply last_snoc. }
  exfalso. apply analysis_inv in E as (rows & n & Hrows & Hc).
  destruct H as [H|(rows' & Hrows' & Hex)].
  - apply H. right. rewrite Hrows. eauto.
  - simplify_eq.
    destruct (correct_entries_fails fromisoformat rows') as [e He]; [|congruence].
    eapply Exists_impl; [done|]. intros r. apply lacks_needed_field_not_correctable.
Qed.



End EngineFacts.

(** The same run on concrete data: the claim's rows. *)
Lemma correction_rule_witness :
  let data := [Correct.summary_row "2024-11-20" (Qc_of_Z 8) (Qc_of_Z 1);
               Correct.summary_row "2024-11-19" (Qc_of_Z 8) (Qc_of_Z 1);
               Correct.summary_row "2024-12-01" (Q2Qc (1 # 2)) (Qc_of_Z 2)] in
  exists out w',
    Correct.correct_sleep_data Correct.iso_date data "2024-11-20"
      (Correct.world_with data []) = (inr out, w') /\
    Correct.fs w' = Correct.fs (Correct.world_with data []) /\
    Forall2 (Correct.corrected_as_specified Correct.iso_date) data out.
Proof.
  intros data.
  apply (correction_rule Correct.iso_date eq_refl data (Correct.world_with data [])).
  repeat constructor.
  - exists "2024-11-20"%string, (Date 2024 11 20). split_and!; [done..|].
    intros _. exists (Qc_of_Z 8), (Qc_of_Z 1). done.
  - exists "2024-11-19"%string, (Date 2024 11 19). split_and!; [done..|].
    intros _. exists (Qc_of_Z 8), (Qc_of_Z 1). done.
  - exists "2024-12-01"%string, (Date 2024 12 1). split_and!; [done..|].
    intros _. exists (Q2Qc (1 # 2)), (Qc_of_Z 2). done.
Defined.

(** ** Applying the correction twice *)

Section Idempotence.

Import Correct.

Variable fromisoformat : string -> option date.
Hypothesis cutoff_parses : fromisoformat "2024-11-20" = Some cutoff.

Lemma summary_row_set_asleep (date : string) (asleep in_bed v : Qc) :
  <["asleep" := JNum v]> (summary_row date asleep in_bed) = summary_row date v in_bed.
Proof.
  unfold summary_row. rewrite insert_insert_ne by done. by rewrite insert_insert_eq.
Qed.

Lemma summary_row_lookup (date : string) (asleep in_bed : Qc) :
  summary_row date asleep in_bed !! "date" = Some (JStr date) /\
  summary_row date asleep in_bed !! "asleep" = Some (JNum asleep) /\
  summary_row date asleep in_bed !! "in_bed" = Some (JNum in_bed).
Proof. unfold summary_row. split_and!; by simplify_map_eq. Qed.

Lemma correct_entry_cutoff_row (asleep in_bed : Qc) :
  correct_entry fromisoformat cutoff (summary_row "2024-11-20" asleep in_bed) =
  inr (summary_row "2024-11-20" (py_max0 (asleep - in_bed)) in_bed, true).
Proof.
  destruct (summary_row_lookup "2024-11-20" asleep in_bed) as (Hd & Ha & Hb).
  unfold correct_entry, getitem. rewrite Hd, Ha, Hb. cbn [bind parse_date].
  rewrite cutoff_parses. cbn [bind].
  rewrite decide_True by reflexivity. cbn [bind py_sub].
  by rewrite summary_row_set_asleep.
Qed.

Lemma py_max0_pos (x : Qc) : (0 < x)%Qc -> py_max0 x = x.
Proof. intros H. unfold py_max0. by rewrite decide_True. Qed.

Lemma correct_sleep_data_cutoff_row (asleep in_bed : Qc) (w : world) :
  exists w',
    correct_sleep_data fromisoformat [summary_row "2024-11-20" asleep in_bed]
      "2024-11-20" w =
    (inr [summary_row "2024-11-20" (py_max0 (asleep - in_bed)) in_bed], w').
Proof.
  unfold correct_sleep_data, mbind, lift, parse_date. rewrite cutoff_parses.
  cbn [correct_entries]. rewrite correct_entry_cutoff_row. cbn. eauto.
Qed.

(** C8. The correction is not idempotent: on a row dated at the cutoff with
    [0 < in_bed < asleep], a second application subtracts [in_bed] again, so
    correcting the corrected data gives something else. *)
Theorem correction_not_idempotent (a b : Qc) (w : world) :
  (0 < b)%Qc -> (b < a)%Qc ->
  exists once twice w1 w2,
    correct_sleep_data fromisoformat [summary_row "2024-11-20" a b] "2024-11-20" w
      = (inr once, w1) /\
    correct_sleep_data fromisoformat once "2024-11-20" w1 = (inr twice, w2) /\
    once = [summary_row "2024-11-20" (a - b) b] /\
    twice = [summary_row "2024-11-20" (py_max0 (a - b - b)) b] /\
    twice <> once.
Proof.
  intros Hb Hab.
  assert (0 < a - b)%Qc as Hpos.
  { apply Qclt_minus_iff in Hab. done. }
  destruct (correct_sleep_data_cutoff_row a b w) as [w1 E1].
  rewrite (py_max0_pos (a - b)) in E1 by done.
  destruct (correct_sleep_data_cutoff_row (a - b) b w1) as [w2 E2].
  eexists _, _, w1, w2. split_and!; [exact E1|exact E2|done..|].
  intros H.
  apply (f_equal (fun l : list row =>
                    match l with r :: _ => r !! "asleep" | [] => None end)) in H.
  cbv beta iota in H.
  destruct (summary_row_lookup "2024-11-20" (py_max0 (a - b - b)) b) as (_ & Ha2 & _).
  destruct (summary_row_lookup "2024-11-20" (a - b) b) as (_ & Ha1 & _).
  rewrite Ha1, Ha2 in H. injection H as H.
  unfold py_max0 in H. destruct (decide (0 < a - b - b)%Qc) as [H2|H2].
  - apply (Qclt_not_eq _ _ Hb).
    replace b with ((a - b) - (a - b - b))%Qc by ring. rewrite H. ring.
  - by apply (Qclt_not_eq _ _ Hpos).
Qed.

End Idempotence.

(** The rows of the claim, run through the loop: 8 - 1 = 7 on the cutoff day,
    8 kept the day before, 0.5 - 2 floored at 0; two rows were corrected. *)
Example correction_examples :
  match Correct.correct_entries Correct.iso_date Correct.cutoff
          [Correct.summary_row "2024-11-20" (Qc_of_Z 8) (Qc_of_Z 1);
           Correct.summary_row "2024-11-19" (Qc_of_Z 8) (Qc_of_Z 1);
           Correct.summary_row "2024-12-01" (Q2Qc (1 # 2)) (Qc_of_Z 2)] with
  | inr (out, n) =>
      Correct.asleep_of <$> out = [Some (7 # 1); Some (8 # 1); Some (0 # 1)]%Q /\
      n = 2%nat
  | inl _ => False
  end.
Proof. vm_compute. split; reflexivity. Qed.

Lemma correction_not_idempotent_witness :
  let w := Correct.world_with [] [] in
  exists once twice w1 w2,
    Correct.correct_sleep_data Correct.iso_date
      [Correct.summary_row "2024-11-20" (Qc_of_Z 8) (Qc_of_Z 1)] "2024-11-20" w
      = (inr once, w1) /\
    Correct.correct_sleep_data Correct.iso_date once "2024-11-20" w1 = (inr twice, w2) /\
    once = [Correct.summary_row "2024-11-20" (Qc_of_Z 8 - Qc_of_Z 1) (Qc_of_Z 1)] /\
    twice = [Correct.summary_row "2024-11-20"
               (py_max0 (Qc_of_Z 8 - Qc_of_Z 1 - Qc_of_Z 1)) (Qc_of_Z 1)] /\
    twice <> once.
Proof.
  intros w.
  apply (correction_not_idempotent Correct.iso_date eq_refl (Qc_of_Z 8) (Qc_of_Z 1) w);
    reflexivity.
Defined.

(** A row before the cutoff that has no [asleep] field does not stop the run:
    the corrected file is written. *)
Lemma missing_field_before_cutoff_is_written :
  let w := Correct.world_with [Correct.row_without_asleep] ["n"%string] in
  ~ Correct.fails_on_any_missing_field w /\
  Correct.files (Correct.fs (Correct.main Correct.iso_date w))
    !! "data/sleep_data_corrected.json"%string = Some (Correct.Doc [Correct.row_without_asleep]) /\
  last (Correct.stdout (Correct.main Correct.iso_date w)) = Some Correct.CompletedSuccessfully.
Proof.
  intros w. split_and!.
  - intros H. specialize (H [Correct.row_without_asleep] eq_refl).
    assert (Exists (fun r : Correct.row => r !! "date"%string = None \/
              r !! "asleep"%string = None \/ r !! "in_bed"%string = None)
              [Correct.row_without_asleep]) as Hex.
    { constructor. right. left. reflexivity. }
    specialize (H Hex). vm_compute in H. discriminate.
  - vm_compute. reflexivity.
  - vm_compute. reflexivity.
Qed.

Lemma precondition_failure_witness :
  let w := Correct.world_with
             [<["asleep" := Correct.JNum (Qc_of_Z 8)]>
                (<["in_bed" := Correct.JNum (Qc_of_Z 1)]> ∅)] [] in
  Correct.fs (Correct.main Correct.iso_date w) = Correct.fs w /\
  exists e, last (Correct.stdout (Correct.main Correct.iso_date w))
            = Some (Correct.AnErrorOccurred e).
Proof.
  intros w. apply (precondition_failure Correct.iso_date eq_refl w).
  right. eexists. split; [reflexivity|]. constructor. left. reflexivity.
Defined.


(** Two runs in a row on concrete data, the first one replacing the original:
    the backup still holds the rows of before the first run, while the
    original has been corrected twice (8 - 1 - 1 = 6). *)
Example two_runs_keep_first_backup :
  let rows := [Correct.summary_row "2024-11-20" (Qc_of_Z 8) (Qc_of_Z 1)] in
  let w := Correct.world_with rows ["y"%string; "y"%string] in
  let w2 := Correct.main Correct.iso_date (Correct.main Correct.iso_date w) in
  Correct.files (Correct.fs w2) !! "data/sleep_data_backup.json"%string
    = Some (Correct.Doc rows) /\
  match Correct.files (Correct.fs w2) !! "data/sleep_data.json"%string with
  | Some (Correct.Doc out) => Correct.asleep_of <$> out = [Some (6 # 1)%Q]
  | _ => False
  end.
Proof. vm_compute. split; reflexivity. Qed.

(** ** Daily step counts *)

Section StepFacts.

Import Steps.

Lemma touch_lookup (d d' : PyDate.date) (days : gmap PyDate.date day_data) :
  touch d days !! d' =
  if decide (d = d') then Some (default default_day (days !! d)) else days !! d'.
Proof.
  unfold touch. destruct (days !! d) as [a|] eqn:E; case_decide; subst; simpl.
  - done.
  - done.
  - by rewrite lookup_insert_eq.
  - by rewrite lookup_insert_ne.
Qed.

(** One record adds its value and its source to the entry of its date and
    touches no other entry. *)
Lemma add_record_lookup (days : gmap PyDate.date day_data) (r : step_record) (d : PyDate.date) :
  add_record days r !! d =
  if decide (date_key r = d)
  then let a := default default_day (days !! d) in
       Some (DayData (total a + value r) ({[source r]} ∪ sources a))
  else days !! d.
Proof.
  unfold add_record. case_decide as Hd.
  - subst d. rewrite lookup_alter_eq, touch_lookup, decide_True by done.
    rewrite lookup_alter_eq, touch_lookup, decide_True by done. done.
  - rewrite lookup_alter_ne, touch_lookup, decide_False by done.
    rewrite lookup_alter_ne, touch_lookup, decide_False by done. done.
Qed.

(** The entry of a date after the loop, from any starting dictionary. *)
Lemma foldl_add_record_lookup (records : list step_record)
    (days : gmap PyDate.date day_data) (d : PyDate.date) :
  foldl add_record days records !! d =
  match records_on d records with
  | [] => days !! d
  | on => let a := default default_day (days !! d) in
          Some (DayData (total a + sum_values on) (sources a ∪ source_set on))
  end.
Proof.
  revert days. induction records as [|r records IH]; intros days; [done|].
  simpl. rewrite IH, add_record_lookup. unfold records_on.
  rewrite filter_cons. case_decide as Hd; [|done].
  fold (records_on d records). simpl.
  destruct (records_on d records) as [|r' on'] eqn:E.
  - unfold sum_values, source_set. simpl. f_equal. f_equal; [lia|set_solver].
  - unfold sum_values, source_set. simpl. f_equal. f_equal; [lia|set_solver].
Qed.

Lemma days_lookup (records : list step_record) (d : PyDate.date) :
  foldl add_record ∅ records !! d =
  match records_on d records with
  | [] => None
  | on => Some (DayData (sum_values on) (source_set on))
  end.
Proof.
  rewrite foldl_add_record_lookup, lookup_empty. simpl.
  destruct (records_on d records); [done|]. f_equal. f_equal. set_solver.
Qed.

#[global] Instance steps_by_date_trans : Transitive by_date.
Proof. intros x y z. unfold by_date. apply date_le_trans. Qed.

#[global] Instance steps_by_date_total : Total by_date.
Proof. intros x y. unfold by_date. apply date_le_total. Qed.

Lemma aggregate_by_day_rows (records : list step_record) :
  aggregate_by_day records ≡ₚ
  (fun p => DayRow p.1 (total p.2) (sources p.2))
    <$> map_to_list (foldl add_record ∅ records).
Proof. unfold aggregate_by_day. apply merge_sort_Permutation. Qed.

(** The rows are the entries of the dictionary. *)
Lemma elem_of_aggregate_by_day (records : list step_record) (row : day_row) :
  row ∈ aggregate_by_day records <->
  foldl add_record ∅ records !! date row = Some (DayData (steps row) (row_sources row)).
Proof.
  rewrite aggregate_by_day_rows, list_elem_of_fmap. split.
  - intros ([d a] & -> & Hin). apply elem_of_map_to_list in Hin. simpl.
    by destruct a.
  - intros Hl. exists (date row, DayData (steps row) (row_sources row)).
    split; [by destruct row|]. by apply elem_of_map_to_list.
Qed.

Lemma aggregate_by_day_dates_NoDup (records : list step_record) :
  NoDup (date <$> aggregate_by_day records).
Proof.
  rewrite aggregate_by_day_rows, <- list_fmap_compose.
  apply (NoDup_fst_map_to_list (foldl add_record ∅ records)).
Qed.

(** A list sorted by date without a repeated date ascends strictly. *)
Lemma sorted_NoDup_strict (rows : list day_row) :
  StronglySorted by_date rows -> NoDup (date <$> rows) -> strictly_ascending rows.
Proof.
  unfold strictly_ascending.
  induction 1 as [|x rows Hs IH Hx]; intros Hn; [constructor|].
  rewrite fmap_cons in Hn. apply NoDup_cons in Hn as [Hnotin Hn].
  constructor; [by apply IH|].
  apply Forall_forall. intros y Hy. split.
  - rewrite Forall_forall in Hx. by apply Hx.
  - intros Heq. apply Hnotin. rewrite Heq. apply list_elem_of_fmap. eauto.
Qed.

(** C4. The daily aggregator gives one row for each calendar date that has a
    record and none for the others, in strictly ascending date order; the
    [steps] of a row is the sum of the values of the records of its date and
    its [sources] is the set of their source names. *)
Theorem aggregate_by_day_spec (records : list step_record) :
  strictly_ascending (aggregate_by_day records) /\
  (forall d, (exists row, row ∈ aggregate_by_day records /\ date row = d) <->
             (exists r, r ∈ records /\ date_key r = d)) /\
  (forall row, row ∈ aggregate_by_day records ->
     steps row = sum_values (records_on (date row) records) /\
     row_sources row = source_set (records_on (date row) records)).
Proof.
  split_and!.
  - apply sorted_NoDup_strict; [|apply aggregate_by_day_dates_NoDup].
    unfold aggregate_by_day. apply (StronglySorted_merge_sort by_date).
  - intros d. split.
    + intros (row & Hin & <-). apply elem_of_aggregate_by_day in Hin.
      rewrite days_lookup in Hin.
      destruct (records_on (date row) records) as [|r on] eqn:E; [done|].
      assert (r ∈ records_on (date row) records) as Hon by (rewrite E; left).
      apply list_elem_of_filter in Hon as [Hd Hr]. eauto.
    + intros (r & Hin & <-).
      assert (r ∈ records_on (date_key r) records) as Hon.
      { by apply list_elem_of_filter. }
      destruct (records_on (date_key r) records) as [|r' on] eqn:E;
        [by apply not_elem_of_nil in Hon|].
      exists (DayRow (date_key r) (sum_values (r' :: on)) (source_set (r' :: on))).
      split; [|done]. apply elem_of_aggregate_by_day. simpl.
      by rewrite days_lookup, E.
  - intros row Hin. apply elem_of_aggregate_by_day in Hin.
    rewrite days_lookup in Hin.
    destruct (records_on (date row) records) as [|r on]; [done|].
    by injection Hin as -> ->.
Qed.

End StepFacts.

(** ** Extraction: rejections and malformed fields *)

Section ExtractionFacts.

Variable strptime : string -> option datetime.
Variable float_of_string : string -> option pyfloat.

(** The loop takes the accepted records in order, prints one line for each
    malformed element and goes through the whole list. *)
Lemma step_extract_loop_spec (records : list element)
    (step_records : list Steps.step_record) (out : list Steps.line) :
  Forall (Steps.recoverable strptime float_of_string) records ->
  Steps.extract_loop strptime float_of_string records step_records out =
  (inr (step_records ++ omap (Steps.accepted strptime float_of_string) records),
   out ++ omap (Steps.reported strptime float_of_string) records).
Proof.
  intros H. revert step_records out.
  induction H as [|record records Hr _ IH]; intros step_records out; simpl.
  { by rewrite !app_nil_r. }
  unfold Steps.accepted, Steps.reported. unfold Steps.recoverable in Hr.
  destruct (Steps.try_body strptime float_of_string record) as [e|[r|]] eqn:E.
  - destruct (Hr e eq_refl) as [-> | ->]; rewrite IH; by rewrite <- app_assoc.
  - rewrite IH. by rewrite <- app_assoc.
  - by rewrite IH.
Qed.

Lemma sleep_extract_loop_spec (records : list element)
    (sleep_records : list Sleep.sleep_record) (out : list Sleep.line) :
  Forall (Sleep.recoverable strptime) records ->
  Sleep.extract_loop strptime records sleep_records out =
  (inr (sleep_records ++ omap (Sleep.accepted strptime) records),
   out ++ omap (Sleep.reported strptime) records).
Proof.
  intros H. revert sleep_records out.
  induction H as [|record records Hr _ IH]; intros sleep_records out; simpl.
  { by rewrite !app_nil_r. }
  unfold Sleep.accepted, Sleep.reported. unfold Sleep.recoverable in Hr.
  destruct (Sleep.try_body strptime record) as [e|[r|]] eqn:E.
  - destruct (Hr e eq_refl) as [-> | ->]; rewrite IH; by rewrite <- app_assoc.
  - rewrite IH. by rewrite <- app_assoc.
  - by rewrite IH.
Qed.

(** C9 (amended). When no element raises anything but [ValueError] or
    [TypeError], extraction goes through every element and returns: the result
    holds the accepted records in document order, each element with a
    malformed field is reported by one line and skipped, an element rejected
    for its value or duration is skipped silently, and the last line gives the
    number of accepted records. Nothing counts the skipped ones. *)
Theorem rejections_recovered_locally (xml_path : string) (root : list element) :
  let steps := findall_records "HKQuantityTypeIdentifierStepCount" root in
  let sleeps := findall_records "HKCategoryTypeIdentifierSleepAnalysis" root in
  (Forall (Steps.recoverable strptime float_of_string) steps ->
   Steps.get_step_count_records strptime float_of_string xml_path root =
   (inr (omap (Steps.accepted strptime float_of_string) steps),
    [Steps.Parsing xml_path; Steps.ExtractingStepCountRecords]
      ++ omap (Steps.reported strptime float_of_string) steps
      ++ [Steps.FoundStepCountRecords
            (length (omap (Steps.accepted strptime float_of_string) steps))])) /\
  (Forall (Sleep.recoverable strptime) sleeps ->
   Sleep.get_sleep_records strptime xml_path root =
   (inr (omap (Sleep.accepted strptime) sleeps),
    [Sleep.Parsing xml_path; Sleep.ExtractingSleepRecords]
      ++ omap (Sleep.reported strptime) sleeps
      ++ [Sleep.FoundSleepRecords (length (omap (Sleep.accepted strptime) sleeps))])).
Proof.
  intros steps sleeps. split; intros H.
  - unfold Steps.get_step_count_records. fold steps.
    by rewrite step_extract_loop_spec.
  - unfold Sleep.get_sleep_records. fold sleeps.
    by rewrite sleep_extract_loop_spec.
Qed.

End ExtractionFacts.

(** Proves that a concrete element is recoverable by running the body. *)
Ltac run_recoverable :=
  let e := fresh "e" in
  let He := fresh "He" in
  intros e He; vm_compute in He;
  first [ discriminate He | injection He as <-; auto ].

Lemma rejections_recovered_locally_witness :
  let root := Steps.scenario ++ [Steps.zero_steps; Steps.malformed_steps;
                Sleep.after_midnight; Sleep.afternoon_nap; Sleep.malformed_sleep] in
  let steps := findall_records "HKQuantityTypeIdentifierStepCount" root in
  let sleeps := findall_records "HKCategoryTypeIdentifierSleepAnalysis" root in
  Steps.get_step_count_records strptime_fixed float_simple "export.xml" root =
   (inr (omap (Steps.accepted strptime_fixed float_simple) steps),
    [Steps.Parsing "export.xml"; Steps.ExtractingStepCountRecords]
      ++ omap (Steps.reported strptime_fixed float_simple) steps
      ++ [Steps.FoundStepCountRecords
            (length (omap (Steps.accepted strptime_fixed float_simple) steps))]) /\
  Sleep.get_sleep_records strptime_fixed "export.xml" root =
   (inr (omap (Sleep.accepted strptime_fixed) sleeps),
    [Sleep.Parsing "export.xml"; Sleep.ExtractingSleepRecords]
      ++ omap (Sleep.reported strptime_fixed) sleeps
      ++ [Sleep.FoundSleepRecords (length (omap (Sleep.accepted strptime_fixed) sleeps))]).
Proof.
  intros root steps sleeps.
  destruct (rejections_recovered_locally strptime_fixed float_simple "export.xml" root)
    as [Hsteps Hsleeps].
  split.
  - apply Hsteps.
    let l := eval vm_compute in (findall_records "HKQuantityTypeIdentifierStepCount" root)
    in change (findall_records "HKQuantityTypeIdentifierStepCount" root) with l.
    repeat (apply Forall_cons_2; [run_recoverable|]). apply Forall_nil_2.
  - apply Hsleeps.
    let l := eval vm_compute in
               (findall_records "HKCategoryTypeIdentifierSleepAnalysis" root)
    in change (findall_records "HKCategoryTypeIdentifierSleepAnalysis" root) with l.
    repeat (apply Forall_cons_2; [run_recoverable|]). apply Forall_nil_2.
Defined.

(** What that run returns and prints: two records out of four step-count
    elements, one line for the malformed one, none for the one rejected for its
    value. *)
Example step_extraction_run :
  let root := Steps.scenario ++ [Steps.zero_steps; Steps.malformed_steps] in
  match Steps.get_step_count_records strptime_fixed float_simple "export.xml" root with
  | (inr records, out) =>
      Steps.value <$> records = [3000; 4500] /\
      out = [Steps.Parsing "export.xml"; Steps.ExtractingStepCountRecords;
             Steps.ErrorProcessingStepCountRecord ValueError;
             Steps.FoundStepCountRecords 2]
  | (inl _, _) => False
  end.
Proof. vm_compute. split; reflexivity. Qed.

(** C9, as claimed, fails: a rejected element leaves no trace. The run on a
    document with one rejected element returns and prints exactly what the run
    on the empty document does, so no count of skipped records can be read off
    a run. *)
Lemma skipped_record_leaves_no_trace :
  Steps.get_step_count_records strptime_fixed float_simple "export.xml" [Steps.zero_steps] =
  Steps.get_step_count_records strptime_fixed float_simple "export.xml" [] /\
  Steps.skipped_count strptime_fixed float_simple [Steps.zero_steps] = 1%nat /\
  Steps.skipped_count strptime_fixed float_simple [] = 0%nat /\
  ~ Steps.skipped_count_available strptime_fixed float_simple.
Proof.
  assert (Steps.get_step_count_records strptime_fixed float_simple "export.xml"
            [Steps.zero_steps] =
          Steps.get_step_count_records strptime_fixed float_simple "export.xml" [])
    as Hsame by (vm_compute; reflexivity).
  assert (Steps.skipped_count strptime_fixed float_simple [Steps.zero_steps] = 1%nat)
    as H1 by (vm_compute; reflexivity).
  assert (Steps.skipped_count strptime_fixed float_simple [] = 0%nat)
    as H0 by (vm_compute; reflexivity).
  split_and!; [done..|].
  intros [count Hcount].
  pose proof (Hcount [Steps.zero_steps]) as Ha.
  pose proof (Hcount []) as Hb.
  rewrite Hsame, Hb, H0, H1 in Ha. discriminate.
Qed.

(** A value that reads as an infinite float raises [OverflowError] in [int],
    which the handler of the loop does not catch: the extraction stops there
    and returns no records. *)
Example infinite_value_stops_the_run :
  Steps.get_step_count_records strptime_fixed float_simple "export.xml"
    (Steps.infinite_steps :: Steps.scenario) =
  (inl OverflowError, [Steps.Parsing "export.xml"; Steps.ExtractingStepCountRecords]).
Proof. vm_compute. reflexivity. Qed.

(** The end-to-end scenario: two records of 2024-01-01 worth 3000 and 4500
    steps from "Phone" and "Watch" give the one row of 7500 steps. *)
Example end_to_end_scenario :
  match Steps.get_step_count_records strptime_fixed float_simple "export.xml"
          Steps.scenario with
  | (inr records, _) =>
      Steps.aggregate_by_day records =
      [Steps.DayRow (Date 2024 1 1) 7500 {["Phone"%string; "Watch"%string]}]
  | (inl _, _) => False
  end.
Proof. vm_compute. reflexivity. Qed.

(** ** Resting heart rate *)

Section RestingHRFacts.

Import RestingHR.

Lemma this_Q2Qc (q : Q) : (this (Q2Qc q) == q)%Q.
Proof. apply Qred_correct. Qed.


















(** What [statistics.mean] and [round] are known to do. *)
Variable statistics_mean : list pyfloat -> pyfloat.
Variable round1 : pyfloat -> pyfloat.


(** The mean of finite readings is finite and lies between any two bounds of
    the readings; rounding a finite value to one decimal gives a finite value
    at most [delta] away. *)
Variable delta : Qc.

Hypothesis mean_between :
  forall (qs : list Qc) (lo hi : Qc),
    qs <> [] ->
    Forall (fun q => lo <= q)%Qc qs -> Forall (fun q => q <= hi)%Qc qs ->
    exists m, statistics_mean (Finite <$> qs) = Finite m /\ (lo <= m)%Qc /\ (m <= hi)%Qc.

Hypothesis round1_near :
  forall m : Qc,
    exists x, round1 (Finite m) = Finite x /\ (m - delta <= x)%Qc /\ (x <= m + delta)%Qc.


End RestingHRFacts.






(** The rows of that run: two readings on the first day (mean 61.02, rounded
    to 61.0), one on the second. *)
Example resting_hr_run :
  let records := [RestingHR.reading (Date 2024 1 1) (Finite (Q2Qc (6004 # 100))) "Watch";
                  RestingHR.reading (Date 2024 1 2) (Finite (Qc_of_Z 55)) "Phone";
                  RestingHR.reading (Date 2024 1 1) (Finite (Qc_of_Z 62)) "Watch"] in
  (fun row => (RestingHR.date row, RestingHR.fraction (RestingHR.resting_hr row),
               RestingHR.fraction (RestingHR.min_hr row),
               RestingHR.fraction (RestingHR.max_hr row), RestingHR.readings row))
    <$> RestingHR.aggregate_by_day
          RestingHR.exact_statistics_mean RestingHR.exact_py_round1 records =
  [(Date 2024 1 1, Some (61 # 1), Some (1501 # 25), Some (62 # 1), 2%nat);
   (Date 2024 1 2, Some (55 # 1), Some (55 # 1), Some (55 # 1), 1%nat)]%Q.
Proof. vm_compute. reflexivity. Qed.

(** With a [nan] among the readings of a day, which of the readings [min] and
    [max] return depends on the order of the readings. *)
Example extremes_with_nan :
  RestingHR.py_min [NaN; Finite (Qc_of_Z 58)] = NaN /\
  RestingHR.fraction (RestingHR.py_min [Finite (Qc_of_Z 58); NaN]) = Some (58 # 1)%Q /\
  RestingHR.py_max [NaN; Finite (Qc_of_Z 58)] = NaN /\
  RestingHR.fraction (RestingHR.py_max [Finite (Qc_of_Z 58); NaN]) = Some (58 # 1)%Q.
Proof. vm_compute. split_and!; reflexivity. Qed.

(** ** Sleep records: night date and naps *)

Section SleepExtractionFacts.

Variable strptime : string -> option datetime.

(** What an accepted element says about its record. *)
Lemma sleep_try_body_inv (record : element) (r : Sleep.sleep_record) :
  Sleep.try_body strptime record = inr (Some r) ->
  parse_datetime strptime (get record "startDate") = inr (Sleep.start_date r) /\
  parse_datetime strptime (get record "endDate") = inr (Sleep.end_date r) /\
  Sleep.value r = get record "value" /\
  Sleep.source r = get_default record "sourceName" "Unknown" /\
  Sleep.duration r =
    (Qc_of_Z (total_seconds_between (Sleep.start_date r) (Sleep.end_date r))
     / Qc_of_Z 3600)%Qc /\
  (Q2Qc (1 # 10) <= Sleep.duration r /\ Sleep.duration r <= Qc_of_Z 24)%Qc /\
  Sleep.is_nap r =
    bool_decide (hour (Sleep.start_date r) < 18 /\ hour (Sleep.start_date r) > 8) /\
  (if decide (hour (Sleep.start_date r) < 6)
   then sub_one_day (dt_date (Sleep.start_date r)) = inr (Sleep.night_date r)
   else Sleep.night_date r = dt_date (Sleep.start_date r)).
Proof.
  unfold Sleep.try_body.
  destruct (parse_datetime strptime (get record "startDate")) as [e|s]; [done|].
  destruct (parse_datetime strptime (get record "endDate")) as [e|t]; [done|].
  cbn [bind].
  set (d := (Qc_of_Z (total_seconds_between s t) / Qc_of_Z 3600)%Qc).
  destruct (decide (d < Q2Qc (1 # 10) \/ Qc_of_Z 24 < d)%Qc) as [Hd|Hd]; [done|].
  assert (Q2Qc (1 # 10) <= d /\ d <= Qc_of_Z 24)%Qc as Hrange.
  { split; apply Qcnot_lt_le; tauto. }
  destruct (decide (hour s < 6)) as [H6|H6].
  - unfold minus_one_day.
    destruct (sub_one_day (dt_date s)) as [e|n] eqn:En; [done|].
    cbn [bind dt_date]. intros [= <-]. cbn.
    rewrite decide_True by done. done.
  - cbn [bind]. intros [= <-]. cbn.
    rewrite decide_False by done. done.
Qed.

(** C2. The night date of an accepted sleep record is computed from the
    start timestamp of its element: the start of the record is what the
    [startDate] attribute reads as, and when its local hour is below 6 the
    night date is the calendar day before the start date (the valid date whose
    ordinal is one less), otherwise it is the start date itself. *)
Theorem night_date_spec (record : element) (r : Sleep.sleep_record) :
  Sleep.try_body strptime record = inr (Some r) ->
  valid (dt_date (Sleep.start_date r)) ->
  parse_datetime strptime (get record "startDate") = inr (Sleep.start_date r) /\
  (hour (Sleep.start_date r) < 6 ->
   Sleep.night_date r = prev_day (dt_date (Sleep.start_date r)) /\
   valid (Sleep.night_date r) /\
   toordinal (Sleep.night_date r) = toordinal (dt_date (Sleep.start_date r)) - 1) /\
  (6 <= hour (Sleep.start_date r) ->
   Sleep.night_date r = dt_date (Sleep.start_date r)).
Proof.
  intros Hr Hv.
  destruct (sleep_try_body_inv record r Hr) as (Hs & _ & _ & _ & _ & _ & _ & Hn).
  split; [exact Hs|].
  split; intros Hh.
  - rewrite decide_True in Hn by done. unfold sub_one_day in Hn.
    destruct (0 <? toordinal (dt_date (Sleep.start_date r)) - 1) eqn:Ho; [|done].
    apply Z.ltb_lt in Ho. injection Hn as <-.
    destruct (prev_day_spec (dt_date (Sleep.start_date r)) Hv) as [Hpv Hpo]; [lia|].
    done.
  - rewrite decide_False in Hn by lia. done.
Qed.

(** The nap flag of an accepted record, from the start its element gives. *)
Lemma is_nap_spec (record : element) (r : Sleep.sleep_record) :
  Sleep.try_body strptime record = inr (Some r) ->
  parse_datetime strptime (get record "startDate") = inr (Sleep.start_date r) /\
  (Sleep.is_nap r = true <-> 8 < hour (Sleep.start_date r) < 18).
Proof.
  intros Hr.
  destruct (sleep_try_body_inv record r Hr) as (Hs & _ & _ & _ & _ & _ & Hnap & _).
  split; [exact Hs|].
  rewrite Hnap, bool_decide_eq_true. lia.
Qed.

End SleepExtractionFacts.

(** ** Sleep: aggregation by night *)

Section SleepNightFacts.

Import Sleep.

Lemma night_touch_lookup (d d' : PyDate.date) (nights : gmap PyDate.date night_data) :
  touch d nights !! d' =
  if decide (d = d') then Some (default default_night (nights !! d)) else nights !! d'.
Proof.
  unfold touch. destruct (nights !! d) as [a|] eqn:E; case_decide; subst; simpl.
  - done.
  - done.
  - by rewrite lookup_insert_eq.
  - by rewrite lookup_insert_ne.
Qed.

Lemma alter_touch_lookup (f : night_data -> night_data) (d d' : PyDate.date)
    (nights : gmap PyDate.date night_data) :
  alter f d (touch d nights) !! d' =
  if decide (d = d') then Some (f (default default_night (nights !! d)))
  else nights !! d'.
Proof.
  case_decide as Hd.
  - subst d'. by rewrite lookup_alter_eq, night_touch_lookup, decide_True.
  - by rewrite lookup_alter_ne, night_touch_lookup, decide_False.
Qed.

(** A nap leaves the dictionary as it is. *)
Lemma night_add_record_nap (nights : gmap PyDate.date night_data) (r : sleep_record) :
  is_nap r = true -> add_record nights r = inr nights.
Proof. intros H. unfold add_record. by rewrite H. Qed.

(** A record that is not a nap and has a label adds its source and its
    duration, to its category and to the total, in the entry of its night, and
    touches no other entry. *)
Lemma night_add_record_lookup (nights : gmap PyDate.date night_data) (r : sleep_record)
    (v : string) (d : PyDate.date) :
  is_nap r = false -> value r = Some v ->
  exists nights', add_record nights r = inr nights' /\
    nights' !! d =
    if decide (night_date r = d)
    then Some (accumulate (default default_night (nights !! d)) [r])
    else nights !! d.
Proof.
  intros Hnap Hv. unfold add_record. rewrite Hnap, Hv.
  eexists. split; [done|].
  assert (forall c, in_category c r = if decide (category_of v = c) then duration r else 0%Qc)
    as Hin by (intros c; unfold in_category; by rewrite Hv).
  unfold accumulate, duration_in, total_duration, source_set.
  cbn [foldr fmap list_fmap list_to_set]. rewrite !Hin. unfold category_of.
  destruct (contains "Asleep" v), (contains "InBed" v);
    rewrite !alter_touch_lookup;
    (destruct (decide (night_date r = d)) as [Heq|Hd]; [subst d|done]);
    rewrite !decide_True by done; cbn;
    f_equal; unfold add_total, add_asleep, add_in_bed, add_unspecified, add_source;
    cbn; f_equal; repeat case_decide; try done; try ring; set_solver.
Qed.

(** The loop fails exactly on a record that is not a nap and has no label. *)
Lemma night_add_record_no_value (nights : gmap PyDate.date night_data) (r : sleep_record) :
  is_nap r = false -> value r = None -> add_record nights r = inl TypeError.
Proof. intros Hnap Hv. unfold add_record. by rewrite Hnap, Hv. Qed.

Lemma accumulate_cons (a : night_data) (r : sleep_record) (on : list sleep_record) :
  accumulate (accumulate a [r]) on = accumulate a (r :: on).
Proof.
  unfold accumulate, duration_in, total_duration, source_set. cbn.
  f_equal; try ring. set_solver.
Qed.

(** The entry of a night after the loop, from any starting dictionary. *)
Lemma aggregate_loop_lookup (records : list sleep_record)
    (nights nights' : gmap PyDate.date night_data) (d : PyDate.date) :
  aggregate_loop records nights = inr nights' ->
  nights' !! d =
  match night_records d records with
  | [] => nights !! d
  | on => Some (accumulate (default default_night (nights !! d)) on)
  end.
Proof.
  revert nights. induction records as [|r records IH]; intros nights.
  { intros [= <-]. done. }
  cbn [aggregate_loop]. unfold night_records. rewrite filter_cons.
  fold (night_records d records).
  destruct (is_nap r) eqn:Hnap.
  - rewrite night_add_record_nap by done. cbn [bind]. intros Hl.
    rewrite decide_False by (intros [_ ?]; done). by apply IH.
  - destruct (value r) as [v|] eqn:Hv;
      [|by rewrite night_add_record_no_value].
    destruct (night_add_record_lookup nights r v d Hnap Hv) as (n1 & -> & Hn1).
    cbn [bind]. intros Hl. rewrite (IH _ Hl), Hn1.
    case_decide as Hd.
    + rewrite decide_True by done.
      destruct (night_records d records) as [|r' on]; [done|].
      cbn. by rewrite accumulate_cons.
    + rewrite decide_False by (intros [? _]; done). done.
Qed.

(** The loop returns when every record that counts has a label. *)
Lemma aggregate_loop_returns (records : list sleep_record)
    (nights : gmap PyDate.date night_data) :
  labelled records -> exists nights', aggregate_loop records nights = inr nights'.
Proof.
  intros H. revert nights.
  induction H as [|r records Hr _ IH]; intros nights; cbn [aggregate_loop]; [eauto|].
  destruct (is_nap r) eqn:Hnap.
  - rewrite night_add_record_nap by done. cbn [bind]. apply IH.
  - destruct (Hr eq_refl) as [v Hv].
    destruct (night_add_record_lookup nights r v (night_date r) Hnap Hv) as (n1 & -> & _).
    cbn [bind]. apply IH.
Qed.

(** And only then. *)
Lemma aggregate_loop_labelled (records : list sleep_record)
    (nights nights' : gmap PyDate.date night_data) :
  aggregate_loop records nights = inr nights' -> labelled records.
Proof.
  revert nights. induction records as [|r records IH]; intros nights;
    cbn [aggregate_loop]; [constructor|].
  destruct (add_record nights r) as [e|n1] eqn:E; [done|]. cbn [bind].
  intros Hl. constructor; [|by eapply IH].
  intros Hnap. destruct (value r) eqn:Hv; [eauto|].
  by rewrite night_add_record_no_value in E.
Qed.

(** Naps do not take part in the loop. *)
Lemma aggregate_loop_without_naps (records : list sleep_record)
    (nights : gmap PyDate.date night_data) :
  aggregate_loop records nights =
  aggregate_loop (filter (fun r => is_nap r = false) records) nights.
Proof.
  revert nights. induction records as [|r records IH]; intros nights; [done|].
  rewrite filter_cons. cbn [aggregate_loop]. destruct (is_nap r) eqn:Hnap.
  - rewrite decide_False by done. rewrite night_add_record_nap by done. apply IH.
  - rewrite decide_True by done. cbn [aggregate_loop].
    destruct (add_record nights r) as [e|n1]; [done|]. apply IH.
Qed.

(** The rows are the entries of the dictionary. *)
Lemma elem_of_aggregate_sleep (records : list sleep_record) (rows : list night_row)
    (row : night_row) :
  aggregate_sleep_by_night records = inr rows ->
  row ∈ rows <->
  exists on, night_records (date row) records = on /\ on <> [] /\
             data row = accumulate default_night on.
Proof.
  unfold aggregate_sleep_by_night.
  destruct (aggregate_loop records ∅) as [e|nights] eqn:E; [done|].
  cbn [bind]. intros [= <-].
  rewrite merge_sort_Permutation, list_elem_of_fmap.
  pose proof (aggregate_loop_lookup records ∅ nights (date row) E) as Hl.
  rewrite lookup_empty in Hl. split.
  - intros ([d a] & -> & Hin). apply elem_of_map_to_list in Hin.
    cbn [date data fst snd] in *. rewrite Hin in Hl.
    destruct (night_records d records) as [|r on]; [done|].
    eexists. split; [done|]. split; [done|]. by injection Hl as ->.
  - intros (on & Hon & Hne & Hdata). rewrite Hon in Hl.
    exists (date row, data row). split; [by destruct row|].
    apply elem_of_map_to_list. rewrite Hl. destruct on; [done|]. by rewrite Hdata.
Qed.

(** With a label on each record, the durations by category add up to the
    total duration. *)
Lemma total_duration_split (on : list sleep_record) :
  Forall (fun r => is_Some (value r)) on ->
  total_duration on =
  (duration_in Asleep on + duration_in InBed on + duration_in Unspecified on)%Qc.
Proof.
  induction 1 as [|r on [v Hv] _ IH]; cbn [total_duration duration_in foldr].
  { ring. }
  fold (total_duration on) (duration_in Asleep on) (duration_in InBed on)
    (duration_in Unspecified on). rewrite IH.
  unfold in_category. rewrite Hv.
  destruct (category_of v); repeat case_decide; try done; ring.
Qed.

Lemma night_records_labelled (records : list sleep_record) (d : PyDate.date) :
  labelled records -> Forall (fun r => is_Some (value r)) (night_records d records).
Proof.
  unfold labelled, night_records. rewrite !Forall_forall. intros H r Hr.
  apply list_elem_of_filter in Hr as [[_ Hnap] Hin]. by apply H.
Qed.

(** C10. The night aggregator returns when every record that is not a nap
    has a label, and then every row comes from at least one such record of its
    night: each of [asleep], [in_bed] and [unspecified] is the sum of the
    durations of the records of that category, [total] is the sum of all of
    them, so [total = asleep + in_bed + unspecified], and [sources] is the
    non-empty set of their sources. *)
Theorem night_row_invariant (records : list sleep_record) :
  (labelled records -> exists rows, aggregate_sleep_by_night records = inr rows) /\
  (forall rows row,
     aggregate_sleep_by_night records = inr rows -> row ∈ rows ->
     let on := night_records (date row) records in
     on <> [] /\
     asleep (data row) = duration_in Asleep on /\
     in_bed (data row) = duration_in InBed on /\
     unspecified (data row) = duration_in Unspecified on /\
     total (data row) = total_duration on /\
     total (data row) =
       (asleep (data row) + in_bed (data row) + unspecified (data row))%Qc /\
     sources (data row) = source_set on /\
     sources (data row) <> ∅).
Proof.
  split.
  - intros Hl. unfold aggregate_sleep_by_night.
    destruct (aggregate_loop_returns records ∅ Hl) as [nights ->]. cbn [bind]. eauto.
  - intros rows row Hrows Hin. cbv zeta.
    assert (labelled records) as Hlab.
    { unfold aggregate_sleep_by_night in Hrows.
      destruct (aggregate_loop records ∅) as [e|nights] eqn:E; [done|].
      by eapply aggregate_loop_labelled. }
    apply (elem_of_aggregate_sleep records rows row Hrows) in Hin
      as (on & Hon & Hne & Hdata).
    pose proof (night_records_labelled records (date row) Hlab) as Hval.
    rewrite Hon in *. rewrite Hdata. unfold accumulate, default_night.
    cbn [asleep in_bed unspecified total sources].
    rewrite !Qcplus_0_l, (total_duration_split on Hval).
    split_and!; try done.
    + set_solver.
    + destruct on as [|r on]; [done|]. unfold source_set. cbn. set_solver.
Qed.

(** C3. An accepted record starts at what the [startDate] attribute of its
    element reads as, and it is flagged as a nap exactly when the local hour
    of that start is strictly between 8 and 18; the night aggregation of any
    records is the aggregation of those that are not naps, so a nap adds to no
    field of any row; and a night whose records are all naps has no row. *)
Theorem naps_excluded (strptime : string -> option datetime) :
  (forall record r,
     try_body strptime record = inr (Some r) ->
     parse_datetime strptime (get record "startDate") = inr (start_date r) /\
     (is_nap r = true <-> 8 < hour (start_date r) < 18)) /\
  (forall records,
     aggregate_sleep_by_night records =
     aggregate_sleep_by_night (filter (fun r => is_nap r = false) records)) /\
  (forall records rows d,
     aggregate_sleep_by_night records = inr rows ->
     (forall r, r ∈ records -> night_date r = d -> is_nap r = true) ->
     forall row, row ∈ rows -> date row <> d).
Proof.
  split_and!.
  - apply is_nap_spec.
  - intros records. unfold aggregate_sleep_by_night.
    by rewrite aggregate_loop_without_naps.
  - intros records rows d Hrows Hnaps row Hin Hd.
    apply (elem_of_aggregate_sleep records rows row Hrows) in Hin
      as (on & Hon & Hne & _).
    destruct on as [|r on]; [done|].
    assert (r ∈ night_records (date row) records) as Hr by (rewrite Hon; left).
    apply list_elem_of_filter in Hr as [[Hnight Hnap] Hrin].
    rewrite (Hnaps r Hrin) in Hnap; [done|congruence].
Qed.

End SleepNightFacts.

Lemma night_date_spec_witness :
  (exists r,
     Sleep.try_body strptime_fixed Sleep.after_midnight = inr (Some r) /\
     parse_datetime strptime_fixed (get Sleep.after_midnight "startDate") =
       inr (Sleep.start_date r) /\
     Sleep.start_date r = DateTime (Date 2024 3 10) 1 30 0 0 /\
     Sleep.night_date r = Date 2024 3 9) /\
  (exists r,
     Sleep.try_body strptime_fixed Sleep.morning = inr (Some r) /\
     parse_datetime strptime_fixed (get Sleep.morning "startDate") =
       inr (Sleep.start_date r) /\
     Sleep.start_date r = DateTime (Date 2024 3 10) 7 0 0 0 /\
     Sleep.night_date r = Date 2024 3 10).
Proof.
  split.
  - destruct (Sleep.try_body strptime_fixed Sleep.after_midnight) as [e|[r|]] eqn:E;
      [vm_compute in E; discriminate E| |vm_compute in E; discriminate E].
    assert (Sleep.start_date r = DateTime (Date 2024 3 10) 1 30 0 0) as Hstart.
    { pose proof E as E'. vm_compute in E'. by injection E' as <-. }
    destruct (night_date_spec strptime_fixed Sleep.after_midnight r E)
      as (Hs & Hearly & _).
    { rewrite Hstart. apply (bool_decide_eq_true_1 _). vm_compute. reflexivity. }
    exists r. split; [reflexivity|]. split; [exact Hs|]. split; [exact Hstart|].
    rewrite Hstart in Hearly. cbn [hour dt_date] in Hearly.
    destruct Hearly as (-> & _); [lia|]. reflexivity.
  - destruct (Sleep.try_body strptime_fixed Sleep.morning) as [e|[r|]] eqn:E;
      [vm_compute in E; discriminate E| |vm_compute in E; discriminate E].
    assert (Sleep.start_date r = DateTime (Date 2024 3 10) 7 0 0 0) as Hstart.
    { pose proof E as E'. vm_compute in E'. by injection E' as <-. }
    destruct (night_date_spec strptime_fixed Sleep.morning r E) as (Hs & _ & Hlate).
    { rewrite Hstart. apply (bool_decide_eq_true_1 _). vm_compute. reflexivity. }
    exists r. split; [reflexivity|]. split; [exact Hs|]. split; [exact Hstart|].
    rewrite Hstart in Hlate. cbn [hour dt_date] in Hlate. apply Hlate. lia.
Defined.

(** The sessions of the claim: one starting at 01:30 is put on the day before,
    one starting at 07:00 on its own day; those starting at 14:00 are naps. *)
Example night_dates_and_naps :
  (fun r => (Sleep.night_date r, Sleep.is_nap r)) <$> Sleep.example_records =
  [(Date 2024 3 9, false); (Date 2024 3 10, false);
   (Date 2024 3 10, true); (Date 2024 3 11, true)].
Proof. vm_compute. reflexivity. Qed.

(** Stepping back over the end of a month, of February in a leap year and of
    a year; there is no day before 0001-01-01. *)
Example day_before_examples :
  prev_day (Date 2024 3 1) = Date 2024 2 29 /\
  prev_day (Date 2023 3 1) = Date 2023 2 28 /\
  prev_day (Date 2024 1 1) = Date 2023 12 31 /\
  sub_one_day (Date 1 1 1) = inl OverflowError.
Proof. vm_compute. split_and!; reflexivity. Qed.

Lemma naps_excluded_witness :
  (exists r, Sleep.try_body strptime_fixed Sleep.lone_nap = inr (Some r) /\
             parse_datetime strptime_fixed (get Sleep.lone_nap "startDate") =
               inr (Sleep.start_date r) /\
             Sleep.start_date r = DateTime (Date 2024 3 11) 14 0 0 0 /\
             Sleep.is_nap r = true) /\
  (exists r, Sleep.try_body strptime_fixed Sleep.morning = inr (Some r) /\
             parse_datetime strptime_fixed (get Sleep.morning "startDate") =
               inr (Sleep.start_date r) /\
             Sleep.start_date r = DateTime (Date 2024 3 10) 7 0 0 0 /\
             Sleep.is_nap r = false) /\
  (exists rows, Sleep.aggregate_sleep_by_night Sleep.example_records = inr rows /\
                forall row, row ∈ rows -> Sleep.date row <> Date 2024 3 11).
Proof.
  destruct (naps_excluded strptime_fixed) as (Hflag & _ & Hnone).
  split_and!.
  - destruct (Sleep.try_body strptime_fixed Sleep.lone_nap) as [e|[r|]] eqn:E;
      [vm_compute in E; discriminate E| |vm_compute in E; discriminate E].
    assert (Sleep.start_date r = DateTime (Date 2024 3 11) 14 0 0 0) as Hstart.
    { pose proof E as E'. vm_compute in E'. by injection E' as <-. }
    destruct (Hflag Sleep.lone_nap r E) as [Hs Hnap].
    exists r. split; [reflexivity|]. split; [exact Hs|]. split; [exact Hstart|].
    apply Hnap. rewrite Hstart. cbn [hour]. lia.
  - destruct (Sleep.try_body strptime_fixed Sleep.morning) as [e|[r|]] eqn:E;
      [vm_compute in E; discriminate E| |vm_compute in E; discriminate E].
    assert (Sleep.start_date r = DateTime (Date 2024 3 10) 7 0 0 0) as Hstart.
    { pose proof E as E'. vm_compute in E'. by injection E' as <-. }
    destruct (Hflag Sleep.morning r E) as [Hs Hnap].
    exists r. split; [reflexivity|]. split; [exact Hs|]. split; [exact Hstart|].
    destruct (Sleep.is_nap r); [|reflexivity].
    destruct Hnap as [Hnap _]. specialize (Hnap eq_refl).
    rewrite Hstart in Hnap. cbn [hour] in Hnap. lia.
  - destruct (Sleep.aggregate_sleep_by_night Sleep.example_records) as [e|rows] eqn:E;
      [vm_compute in E; discriminate E|].
    exists rows. split; [reflexivity|].
    apply (Hnone Sleep.example_records rows (Date 2024 3 11) E).
    intros r Hr Hd.
    assert (Forall (fun r => Sleep.night_date r = Date 2024 3 11 -> Sleep.is_nap r = true)
              Sleep.example_records) as Hall.
    { apply (bool_decide_eq_true_1 _). vm_compute. reflexivity. }
    rewrite Forall_forall in Hall. by apply Hall.
Defined.

Lemma night_row_invariant_witness :
  (exists rows, Sleep.aggregate_sleep_by_night Sleep.example_records = inr rows) /\
  (exists rows row,
     Sleep.aggregate_sleep_by_night Sleep.example_records = inr rows /\ row ∈ rows /\
     let on := Sleep.night_records (Sleep.date row) Sleep.example_records in
     on <> [] /\
     Sleep.asleep (Sleep.data row) = Sleep.duration_in Sleep.Asleep on /\
     Sleep.in_bed (Sleep.data row) = Sleep.duration_in Sleep.InBed on /\
     Sleep.unspecified (Sleep.data row) = Sleep.duration_in Sleep.Unspecified on /\
     Sleep.total (Sleep.data row) = Sleep.total_duration on /\
     Sleep.total (Sleep.data row) =
       (Sleep.asleep (Sleep.data row) + Sleep.in_bed (Sleep.data row)
        + Sleep.unspecified (Sleep.data row))%Qc /\
     Sleep.sources (Sleep.data row) = Sleep.source_set on /\
     Sleep.sources (Sleep.data row) <> ∅).
Proof.
  destruct (night_row_invariant Sleep.example_records) as [Hret Hrow].
  split.
  - apply Hret. apply (bool_decide_eq_true_1 _). vm_compute. reflexivity.
  - destruct (Sleep.aggregate_sleep_by_night Sleep.example_records) as [e|rows] eqn:E;
      [vm_compute in E; discriminate E|].
    destruct rows as [|row rest]; [vm_compute in E; discriminate E|].
    exists (row :: rest), row.
    assert (row ∈ row :: rest) as Hin by left.
    split; [reflexivity|]. split; [exact Hin|].
    exact (Hrow (row :: rest) row eq_refl Hin).
Defined.

(** The rows of that run: the session after midnight makes the night of
    2024-03-09 (5 hours asleep), the morning one the night of 2024-03-10 (1 hour
    in bed, the nap of that afternoon adding nothing), and the day with only a
    nap has no row. *)
Example sleep_run :
  match Sleep.aggregate_sleep_by_night Sleep.example_records with
  | inr rows =>
      (fun row => (Sleep.date row, this (Sleep.asleep (Sleep.data row)),
                   this (Sleep.in_bed (Sleep.data row)),
                   this (Sleep.unspecified (Sleep.data row)),
                   this (Sleep.total (Sleep.data row)),
                   Sleep.sources (Sleep.data row))) <$> rows =
      [(Date 2024 3 9, 5 # 1, 0 # 1, 0 # 1, 5 # 1, {["Watch"%string]});
       (Date 2024 3 10, 0 # 1, 1 # 1, 0 # 1, 1 # 1, {["Phone"%string]})]%Q
  | inl _ => False
  end.
Proof. vm_compute. reflexivity. Qed.

(** * Further properties of the code *)

(** ** The correction engine, end to end *)

Section EngineRunFacts.

Import Correct.

Variable fromisoformat : string -> option date.
Hypothesis cutoff_parses : fromisoformat "2024-11-20" = Some cutoff.

(** What the persist phase does to the files: the corrected rows go to the
    corrected artifact, a missing backup becomes a copy of the original, and
    every other file stays. *)
Lemma save_sleep_data_files (data : list row) (w : world) :
  is_Some (files (fs w) !! "data/sleep_data.json") ->
  exists w',
    save_sleep_data data "data" "sleep_data_corrected.json" true w =
      (inr "data/sleep_data_corrected.json"%string, w') /\
    stdin w' = stdin w /\
    (dirs (fs w') = dirs (fs w) \/ dirs (fs w') = {["data"%string]} ∪ dirs (fs w)) /\
    forall p,
      files (fs w') !! p =
      if decide (p = "data/sleep_data_corrected.json"%string) then Some (Doc data)
      else if decide (p = "data/sleep_data_backup.json"%string /\
                      ~ exists_at "data/sleep_data_backup.json" w)
           then files (fs w) !! "data/sleep_data.json"
           else files (fs w) !! p.
Proof.
  intros [c Hc]. unfold save_sleep_data.
  destruct (ensure_dir_spec "data" w) as (w1 & E1 & Hf1 & Hi1 & Hd1).
  rewrite (mbind_inr _ _ _ _ _ E1).
  change (path_join "data" "sleep_data.json") with "data/sleep_data.json"%string.
  change (path_join "data" "sleep_data_backup.json")
    with "data/sleep_data_backup.json"%string.
  change (path_join "data" "sleep_data_corrected.json")
    with "data/sleep_data_corrected.json"%string.
  assert (exists_at "data/sleep_data.json" w1) as Ho.
  { right. rewrite Hf1, Hc. eauto. }
  assert (exists_at "data/sleep_data_backup.json" w1 <->
          exists_at "data/sleep_data_backup.json" w) as Hbw.
  { unfold exists_at. rewrite Hf1. destruct Hd1 as [->| ->]; [done|].
    rewrite elem_of_union, elem_of_singleton.
    split; [intros [[?|?]|?]; [done|by left|by right]
           |intros [?|?]; [left; by right|by right]]. }
  rewrite (mbind_inr _ _ w1 w1 true);
    [|unfold path_exists; by rewrite bool_decide_eq_true_2].
  cbn [andb].
  destruct (decide (exists_at "data/sleep_data_backup.json" w1)) as [Hb|Hb].
  - eexists. split.
    { unfold mbind at 1. unfold mbind at 1.
      unfold path_exists at 1. rewrite bool_decide_eq_true_2 by done. cbn [negb].
      unfold print at 1. unfold mbind, json_dump, print, ret. cbn. reflexivity. }
    cbn. split; [done|]. split; [done|]. intros p.
    case_decide as Hp; [subst p; by rewrite lookup_insert_eq|].
    rewrite lookup_insert_ne by done. rewrite Hf1.
    rewrite decide_False by tauto. done.
  - eexists. split.
    { unfold mbind at 1. unfold mbind at 1.
      unfold path_exists at 1. rewrite bool_decide_eq_false_2 by done. cbn [negb].
      unfold mbind at 1. unfold copy2 at 1. rewrite Hf1, Hc.
      unfold mbind, json_dump, print, ret. cbn. reflexivity. }
    cbn. split; [done|]. split; [done|]. intros p.
    case_decide as Hp; [subst p; by rewrite lookup_insert_eq|].
    rewrite lookup_insert_ne by done.
    case_decide as Hpb.
    + destruct Hpb as [-> _]. by rewrite lookup_insert_eq, Hc.
    + rewrite lookup_insert_ne by (intros <-; tauto). done.
Qed.

(** [update_original_file] reads one line; the answer [y] in either case
    replaces the original by the corrected rows, any other answer leaves the
    files alone, and the end of the input raises [EOFError]. *)
Lemma update_original_file_spec (corrected_data : list row) (w : world) :
  match stdin w with
  | [] => update_original_file corrected_data "data" w = (inl EOFError, w)
  | answer :: rest =>
      exists w', update_original_file corrected_data "data" w = (inr tt, w') /\
        stdin w' = rest /\ dirs (fs w') = dirs (fs w) /\
        files (fs w') =
          if String.eqb (lower answer) "y"
          then <["data/sleep_data.json"%string := Doc corrected_data]> (files (fs w))
          else files (fs w)
  end.
Proof.
  unfold update_original_file, mbind, input, json_dump, print.
  destruct (stdin w) as [|answer rest]; [done|].
  destruct (String.eqb (lower answer) "y"); cbn; eauto.
Qed.

Lemma Forall2_elem_of_Forall_r {A B} (P : A -> B -> Prop) (Q : B -> Prop)
    (l : list A) (k : list B) :
  Forall2 P l k -> (forall x y, x ∈ l -> P x y -> Q y) -> Forall Q k.
Proof.
  induction 1 as [|x y l k Hxy _ IH]; intros H; constructor.
  - apply (H x); [left|done].
  - apply IH. intros x' y' Hin. apply H. by right.
Qed.

(** The dictionary of the analysis exists when every row is correctable; it
    has an entry for the date of every row, and each entry is a row of that
    date. *)
Lemma original_dict_spec (rows : list row) (acc : gmap date row) :
  Forall (correctable fromisoformat) rows ->
  exists dict, original_dict fromisoformat rows acc = inr dict /\
    (forall d r0, dict !! d = Some r0 ->
       acc !! d = Some r0 \/
       (r0 ∈ rows /\ exists s, r0 !! "date" = Some (JStr s) /\ fromisoformat s = Some d)) /\
    (forall d, is_Some (acc !! d) -> is_Some (dict !! d)) /\
    (forall r s d, r ∈ rows -> r !! "date" = Some (JStr s) -> fromisoformat s = Some d ->
       is_Some (dict !! d)).
Proof.
  intros H. revert acc. induction H as [|r rows Hr _ IH]; intros acc.
  { exists acc. split; [done|]. split_and!; [by left|done|].
    intros r s d Hin. by apply not_elem_of_nil in Hin. }
  destruct Hr as (s & d & Hd & Hp & _).
  cbn [original_dict]. unfold getitem. rewrite Hd. cbn [bind parse_date].
  rewrite Hp. cbn [bind].
  destruct (IH (<[d := r]> acc)) as (dict & -> & Hfrom & Hacc & Hall).
  exists dict. split; [done|]. split_and!.
  - intros d' r0 Hl. destruct (Hfrom d' r0 Hl) as [Hi|[Hin Hs]].
    + destruct (decide (d = d')) as [<-|Hne].
      * rewrite lookup_insert_eq in Hi. injection Hi as <-.
        right. split; [left|eauto].
      * rewrite lookup_insert_ne in Hi by done. by left.
    + right. split; [by right|done].
  - intros d' Hs. apply Hacc. destruct (decide (d = d')) as [<-|Hne].
    + rewrite lookup_insert_eq. eauto.
    + by rewrite lookup_insert_ne.
  - intros r' s' d' Hin Hd' Hp'. apply elem_of_cons in Hin as [->|Hin].
    + apply Hacc. assert (s' = s) as -> by congruence.
      assert (d' = d) as -> by congruence. rewrite lookup_insert_eq. eauto.
    + by eapply Hall.
Qed.

(** What the loop of the analysis needs of a corrected row. *)
Lemma analyze_loop_returns (dict : gmap date row) (corrected_data : list row)
    (affected : nat) (total : Qc) :
  Forall (fun r' => exists s d,
            r' !! "date" = Some (JStr s) /\ fromisoformat s = Some d /\
            (PyDate.le cutoff d ->
             (exists r0 a0, dict !! d = Some r0 /\ r0 !! "asleep" = Some (JNum a0)) /\
             exists v, r' !! "asleep" = Some (JNum v))) corrected_data ->
  exists affected' total',
    analyze_loop fromisoformat cutoff dict corrected_data affected total =
    inr (affected', total').
Proof.
  intros H. revert affected total.
  induction H as [|r' rest (s & d & Hd & Hp & Hle) _ IH]; intros affected total.
  { cbn. eauto. }
  cbn [analyze_loop]. unfold getitem at 1. rewrite Hd. cbn [bind parse_date].
  rewrite Hp. cbn [bind].
  destruct (decide (PyDate.le cutoff d)) as [Hc|Hc]; [|apply IH].
  destruct (Hle Hc) as ((r0 & a0 & Hr0 & Ha0) & v & Hv).
  rewrite Hr0. cbn [bind]. unfold getitem. rewrite Ha0, Hv. cbn [bind].
  destruct (decide (JNum a0 <> JNum v)); [cbn [bind py_sub]|]; apply IH.
Qed.

(** The analysis cannot fail on the result of a correction. *)
Lemma analyze_corrections_returns (rows out : list row) (n : nat) (w : world) :
  correct_entries fromisoformat cutoff rows = inr (out, n) ->
  Forall (correctable fromisoformat) rows ->
  exists w', analyze_corrections fromisoformat rows out w = (inr tt, w').
Proof.
  intros Hc Hrows.
  destruct (correct_entries_ok fromisoformat rows Hrows) as (out' & n' & Hc' & Hspec).
  rewrite Hc in Hc'. injection Hc' as <- <-.
  destruct (original_dict_spec rows ∅ Hrows) as (dict & Hdict & Hfrom & _ & Hall).
  assert (exists affected total,
            analyze_loop fromisoformat cutoff dict out 0%nat 0%Qc = inr (affected, total))
    as (affected & total & Hloop).
  { apply analyze_loop_returns.
    assert (forall r r', r ∈ rows -> corrected_as_specified fromisoformat r r' ->
              exists s d, r' !! "date" = Some (JStr s) /\ fromisoformat s = Some d /\
                (PyDate.le cutoff d ->
                 (exists r0 a0, dict !! d = Some r0 /\ r0 !! "asleep" = Some (JNum a0)) /\
                 exists v, r' !! "asleep" = Some (JNum v))) as Hone.
    { intros r r' Hin (s & d & Hd & Hp & Hcase). exists s, d.
      assert (r' !! "date" = Some (JStr s)) as Hd'.
      { destruct Hcase as [(_ & a & b & v & _ & _ & _ & ->)|[_ ->]]; [|done].
        by rewrite lookup_insert_ne. }
      split_and!; [done..|]. intros Hle. split.
      - destruct (Hall r s d Hin Hd Hp) as [r0 Hr0].
        destruct (Hfrom d r0 Hr0) as [Hemp|[Hin0 (s0 & Hd0 & Hp0)]];
          [by rewrite lookup_empty in Hemp|].
        rewrite Forall_forall in Hrows.
        destruct (Hrows r0 Hin0) as (s1 & d1 & Hd1 & Hp1 & Hnum).
        assert (s1 = s0) as -> by congruence.
        assert (d1 = d) as -> by congruence.
        destruct (Hnum Hle) as (a0 & b0 & Ha0 & _). eauto.
      - destruct Hcase as [(_ & a & b & v & _ & _ & _ & ->)|[[Hdc Hne] _]].
        + exists v. by rewrite lookup_insert_eq.
        + exfalso. apply Hne. by apply (anti_symm PyDate.le).
    }
    by eapply Forall2_elem_of_Forall_r. }
  unfold analyze_corrections, mbind, lift, parse_date.
  rewrite cutoff_parses, Hdict, Hloop. cbn.
  destruct (decide (0 < affected)%nat); cbn; eauto.
Qed.

Lemma correct_sleep_data_returns (rows out : list row) (n : nat) (w : world) :
  correct_entries fromisoformat cutoff rows = inr (out, n) ->
  exists w', correct_sleep_data fromisoformat rows "2024-11-20" w = (inr out, w').
Proof.
  intros He. unfold correct_sleep_data, mbind, lift, parse_date.
  rewrite cutoff_parses, He. cbn. eauto.
Qed.

(** The phases before persisting, as in the script. *)
#[local] Abbreviation analysis_phase :=
  (original_data <- load_sleep_data "data" "sleep_data.json" ;;
   corrected_data <- correct_sleep_data fromisoformat original_data "2024-11-20" ;;
   analyze_corrections fromisoformat original_data corrected_data ;;
   ret corrected_data).

(** On a summary file whose rows are all correctable the engine reaches its
    persist phase with the corrected rows, having written nothing. *)
Lemma analysis_phase_returns (rows : list row) (w : world) :
  files (fs w) !! "data/sleep_data.json" = Some (Doc rows) ->
  Forall (correctable fromisoformat) rows ->
  exists out n w0,
    correct_entries fromisoformat cutoff rows = inr (out, n) /\
    Forall2 (corrected_as_specified fromisoformat) rows out /\
    analysis_phase w = (inr out, w0) /\ fs w0 = fs w /\ stdin w0 = stdin w.
Proof.
  intros Hfile Hrows.
  destruct (load_sleep_data_doc "data" "sleep_data.json" rows w Hfile) as [w1 E1].
  destruct (correct_entries_ok fromisoformat rows Hrows) as (out & n & Hn & Hspec).
  destruct (correct_sleep_data_returns rows out n w1 Hn) as [w2 E2].
  destruct (analyze_corrections_returns rows out n w2 Hn Hrows) as [w3 E3].
  exists out, n, w3. split; [done|]. split; [done|].
  assert (analysis_phase w = (inr out, w3)) as Ha.
  { rewrite (mbind_inr _ _ _ _ _ E1), (mbind_inr _ _ _ _ _ E2),
      (mbind_inr _ _ _ _ _ E3). done. }
  split; [done|].
  pose proof (analysis_frame fromisoformat w) as [F I]. rewrite Ha in F, I. done.
Qed.

(** X1. A complete run. On a summary file whose rows are all correctable,
    with an answer at the terminal, and with neither of the two paths the run
    opens for writing being a directory, the engine ends successfully: the
    corrected artifact holds the corrected rows, the original is replaced by
    them exactly when the answer is [y] or [Y] and is left as it was otherwise,
    and a backup that did not exist now holds the original rows. *)
Theorem main_completes (rows : list row) (answer : string) (rest : list string)
    (w : world) :
  files (fs w) !! "data/sleep_data.json" = Some (Doc rows) ->
  "data/sleep_data.json" ∉ dirs (fs w) ->
  "data/sleep_data_corrected.json" ∉ dirs (fs w) ->
  Forall (correctable fromisoformat) rows ->
  stdin w = answer :: rest ->
  exists out n,
    correct_entries fromisoformat cutoff rows = inr (out, n) /\
    let w' := main fromisoformat w in
    files (fs w') !! "data/sleep_data_corrected.json" = Some (Doc out) /\
    files (fs w') !! "data/sleep_data.json" =
      Some (Doc (if String.eqb (lower answer) "y" then out else rows)) /\
    files (fs w') !! "data/sleep_data_backup.json" =
      (if decide (exists_at "data/sleep_data_backup.json" w)
       then files (fs w) !! "data/sleep_data_backup.json"
       else Some (Doc rows)) /\
    stdin w' = rest /\
    last (stdout w') = Some CompletedSuccessfully.
Proof.
  intros Hfile _ _ Hrows Hin.
  destruct (analysis_phase_returns rows w Hfile Hrows)
    as (out & n & w0 & Hn & _ & Ha & F0 & I0).
  exists out, n. split; [done|]. cbv zeta.
  rewrite main_unfold, Ha.
  assert (is_Some (files (fs w0) !! "data/sleep_data.json")) as Ho
    by (rewrite F0, Hfile; eauto).
  destruct (save_sleep_data_files out w0 Ho) as (w1 & E1 & I1 & _ & F1).
  rewrite (mbind_inr _ _ _ _ _ E1).
  pose proof (update_original_file_spec out w1) as Hu.
  rewrite I1, I0, Hin in Hu. destruct Hu as (w2 & E2 & I2 & _ & F2).
  rewrite (mbind_inr _ _ _ _ _ E2). unfold print. cbn.
  rewrite last_snoc. split_and!; [| | |done..].
  - rewrite F2. destruct (String.eqb (lower answer) "y");
      rewrite ?lookup_insert_ne by done; by rewrite F1, decide_True.
  - rewrite F2. destruct (String.eqb (lower answer) "y").
    + by rewrite lookup_insert_eq.
    + rewrite F1, decide_False by done.
      rewrite decide_False by (intros [? _]; done). by rewrite F0.
  - assert (files (fs w2) !! "data/sleep_data_backup.json" =
            files (fs w1) !! "data/sleep_data_backup.json") as ->.
    { rewrite F2. destruct (String.eqb (lower answer) "y"); [|done].
      by rewrite lookup_insert_ne. }
    rewrite F1, decide_False by done.
    assert (exists_at "data/sleep_data_backup.json" w0 <->
            exists_at "data/sleep_data_backup.json" w) as Hex
      by (unfold exists_at; by rewrite F0).
    destruct (decide (exists_at "data/sleep_data_backup.json" w)) as [Hb|Hb].
    + rewrite decide_False by tauto. by rewrite F0.
    + rewrite decide_True by tauto. by rewrite F0.
Qed.

(** X2. The end of the input at the confirmation prompt. When the path of
    the corrected artifact is not a directory, the artifact has been written
    by then, so the run ends on [EOFError] with the corrected rows saved and
    the original left as it was. *)
Theorem main_stops_at_end_of_input (rows : list row) (w : world) :
  files (fs w) !! "data/sleep_data.json" = Some (Doc rows) ->
  "data/sleep_data_corrected.json" ∉ dirs (fs w) ->
  Forall (correctable fromisoformat) rows ->
  stdin w = [] ->
  exists out n,
    correct_entries fromisoformat cutoff rows = inr (out, n) /\
    let w' := main fromisoformat w in
    files (fs w') !! "data/sleep_data_corrected.json" = Some (Doc out) /\
    files (fs w') !! "data/sleep_data.json" = Some (Doc rows) /\
    last (stdout w') = Some (AnErrorOccurred EOFError).
Proof.
  intros Hfile _ Hrows Hin.
  destruct (analysis_phase_returns rows w Hfile Hrows)
    as (out & n & w0 & Hn & _ & Ha & F0 & I0).
  exists out, n. split; [done|]. cbv zeta.
  rewrite main_unfold, Ha.
  assert (is_Some (files (fs w0) !! "data/sleep_data.json")) as Ho
    by (rewrite F0, Hfile; eauto).
  destruct (save_sleep_data_files out w0 Ho) as (w1 & E1 & I1 & _ & F1).
  rewrite (mbind_inr _ _ _ _ _ E1).
  pose proof (update_original_file_spec out w1) as Hu.
  rewrite I1, I0, Hin in Hu.
  rewrite (mbind_inl _ _ _ _ _ Hu). unfold print. cbn.
  rewrite last_snoc. split_and!; [| |done].
  - by rewrite F1, decide_True.
  - rewrite F1, decide_False by done.
    rewrite decide_False by (intros [? _]; done). by rewrite F0.
Qed.

End EngineRunFacts.

(** X3. Whatever the files hold and whatever is typed, a run of the engine
    leaves every file other than its three artifacts as it was, and creates no
    directory other than [data]. *)
Theorem main_touches_only_its_artifacts (fromisoformat : string -> option date)
    (w : Correct.world) (p : string) :
  (p <> "data/sleep_data_corrected.json"%string ->
   p <> "data/sleep_data_backup.json"%string ->
   p <> "data/sleep_data.json"%string ->
   Correct.files (Correct.fs (Correct.main fromisoformat w)) !! p =
   Correct.files (Correct.fs w) !! p) /\
  (Correct.dirs (Correct.fs (Correct.main fromisoformat w)) = Correct.dirs (Correct.fs w) \/
   Correct.dirs (Correct.fs (Correct.main fromisoformat w)) =
     {["data"%string]} ∪ Correct.dirs (Correct.fs w)).
Proof.
  rewrite main_unfold.
  pose proof (analysis_frame fromisoformat w) as [F0 _].
  destruct (Correct.mbind _ _ w) as [[e|out] w0] eqn:Ha; cbn in F0.
  { cbn. rewrite F0. split; [done|by left]. }
  apply analysis_loaded in Ha. rewrite <- F0 in Ha.
  destruct (save_sleep_data_files out w0 Ha) as (w1 & E1 & _ & D1 & F1).
  rewrite (mbind_inr _ _ _ _ _ E1).
  pose proof (update_original_file_spec out w1) as Hu.
  destruct (Correct.stdin w1) as [|answer rest].
  - rewrite (mbind_inl _ _ _ _ _ Hu). cbn. rewrite <- F0. split; [|done].
    intros H1 H2 H3. rewrite F1, decide_False by done.
    by rewrite decide_False by (intros [? _]; done).
  - destruct Hu as (w2 & E2 & _ & D2 & F2).
    rewrite (mbind_inr _ _ _ _ _ E2). cbn. rewrite D2, <- F0. split; [|done].
    intros H1 H2 H3. rewrite F2.
    destruct (String.eqb (Correct.lower answer) "y");
      rewrite ?lookup_insert_ne by done; rewrite F1, decide_False by done;
      by rewrite decide_False by (intros [? _]; done).
Qed.

Lemma main_completes_witness :
  let rows := [Correct.summary_row "2024-11-20" (Qc_of_Z 8) (Qc_of_Z 1);
               Correct.row_without_asleep] in
  let w := Correct.world_with rows ["Y"%string] in
  exists out n,
    Correct.correct_entries Correct.iso_date Correct.cutoff rows = inr (out, n) /\
    let w' := Correct.main Correct.iso_date w in
    Correct.files (Correct.fs w') !! "data/sleep_data_corrected.json"%string
      = Some (Correct.Doc out) /\
    Correct.files (Correct.fs w') !! "data/sleep_data.json"%string =
      Some (Correct.Doc (if String.eqb (Correct.lower "Y") "y" then out else rows)) /\
    Correct.files (Correct.fs w') !! "data/sleep_data_backup.json"%string =
      (if decide (Correct.exists_at "data/sleep_data_backup.json" w)
       then Correct.files (Correct.fs w) !! "data/sleep_data_backup.json"%string
       else Some (Correct.Doc rows)) /\
    Correct.stdin w' = [] /\
    last (Correct.stdout w') = Some Correct.CompletedSuccessfully.
Proof.
  intros rows w.
  apply (main_completes Correct.iso_date eq_refl rows "Y" [] w).
  - vm_compute. reflexivity.
  - intros H. unfold w, Correct.world_with in H. cbn [Correct.fs Correct.dirs] in H.
    apply elem_of_singleton in H. discriminate H.
  - intros H. unfold w, Correct.world_with in H. cbn [Correct.fs Correct.dirs] in H.
    apply elem_of_singleton in H. discriminate H.
  - apply Forall_cons_2; [|apply Forall_cons_2; [|apply Forall_nil_2]].
    + exists "2024-11-20"%string, (Date 2024 11 20). split_and!; [done..|].
      intros _. exists (Qc_of_Z 8), (Qc_of_Z 1). done.
    + exists "2024-01-01"%string, (Date 2024 1 1). split_and!; [done..|].
      intros Hle. exfalso. unfold PyDate.le, Correct.cutoff in Hle. cbn in Hle. lia.
  - reflexivity.
Defined.

Lemma main_stops_at_end_of_input_witness :
  let rows := [Correct.summary_row "2024-11-20" (Qc_of_Z 8) (Qc_of_Z 1)] in
  let w := Correct.world_with rows [] in
  exists out n,
    Correct.correct_entries Correct.iso_date Correct.cutoff rows = inr (out, n) /\
    let w' := Correct.main Correct.iso_date w in
    Correct.files (Correct.fs w') !! "data/sleep_data_corrected.json"%string
      = Some (Correct.Doc out) /\
    Correct.files (Correct.fs w') !! "data/sleep_data.json"%string
      = Some (Correct.Doc rows) /\
    last (Correct.stdout w') = Some (Correct.AnErrorOccurred EOFError).
Proof.
  intros rows w.
  apply (main_stops_at_end_of_input Correct.iso_date eq_refl rows w).
  - vm_compute. reflexivity.
  - intros H. unfold w, Correct.world_with in H. cbn [Correct.fs Correct.dirs] in H.
    apply elem_of_singleton in H. discriminate H.
  - apply Forall_cons_2; [|apply Forall_nil_2].
    exists "2024-11-20"%string, (Date 2024 11 20). split_and!; [done..|].
    intros _. exists (Qc_of_Z 8), (Qc_of_Z 1). done.
  - reflexivity.
Defined.

Lemma main_touches_only_its_artifacts_witness :
  let w := Correct.World
             (Correct.Fs {["data"%string]}
                {["data/sleep_data.json"%string :=
                    Correct.Doc [Correct.summary_row "2024-11-20" (Qc_of_Z 8) (Qc_of_Z 1)];
                  "data/step_count_data.json"%string := Correct.Raw "[]"]})
             ["y"%string] [] in
  Correct.files (Correct.fs (Correct.main Correct.iso_date w))
    !! "data/step_count_data.json"%string =
  Correct.files (Correct.fs w) !! "data/step_count_data.json"%string.
Proof.
  intros w.
  apply (proj1 (main_touches_only_its_artifacts Correct.iso_date w
                  "data/step_count_data.json")); discriminate.
Defined.

(** ** Extraction: what stops a run and what a record needs *)

(** [int] of a finite float: the truncation is below one exactly when the
    value is, and it is the floor from one on. *)
Lemma py_int_below_one (q : Qc) :
  Z.quot (Qnum q) (Zpos (Qden q)) <= 0 <-> (q < 1)%Qc.
Proof.
  unfold Qclt. change (this 1%Qc) with (1 # 1)%Q.
  unfold Qlt. cbn [Qnum Qden].
  set (n := Qnum q). set (d := Zpos (Qden q)).
  assert (0 < d) as Hd by (unfold d; lia).
  rewrite Z.mul_1_r, Z.mul_1_l.
  destruct (Z.le_gt_cases 0 n) as [Hn|Hn].
  - rewrite Z.quot_div_nonneg by lia.
    split; intros H.
    + destruct (Z.lt_ge_cases n d) as [|Hge]; [done|].
      pose proof (Z.div_le_lower_bound n d 1 Hd). lia.
    + rewrite Z.div_small; lia.
  - split; [lia|]. intros _.
    pose proof (Z.quot_rem' n d) as Hqr.
    pose proof (Z.rem_bound_pos_neg n d) as Hb. nia.
Qed.

Lemma py_int_floor (q : Qc) :
  (1 <= q)%Qc -> Z.quot (Qnum q) (Zpos (Qden q)) = Qfloor q.
Proof.
  unfold Qcle. change (this 1%Qc) with (1 # 1)%Q.
  unfold Qle. cbn [Qnum Qden]. intros H.
  destruct q as [[n d] Hc]. cbn in *.
  apply Z.quot_div_nonneg; lia.
Qed.

(** The duration test of the sleep extraction, in seconds. *)
Lemma hours_below_tenth (n : Z) :
  (Qc_of_Z n / Qc_of_Z 3600 < Q2Qc (1 # 10))%Qc <-> n < 360.
Proof.
  unfold Qclt, Qcdiv, Qcmult, Qcinv, Qc_of_Z, Q2Qc. cbn [this].
  repeat setoid_rewrite Qred_correct.
  rewrite (Zlt_Qlt n 360).
  change (inject_Z 3600) with (3600 # 1)%Q. change (inject_Z 360) with (360 # 1)%Q.
  assert (inject_Z n * / (3600 # 1) == inject_Z n * (1 # 3600))%Q as -> by reflexivity.
  split; intros H; lra.
Qed.

Lemma hours_above_day (n : Z) :
  (Qc_of_Z 24 < Qc_of_Z n / Qc_of_Z 3600)%Qc <-> 86400 < n.
Proof.
  unfold Qclt, Qcdiv, Qcmult, Qcinv, Qc_of_Z, Q2Qc. cbn [this].
  repeat setoid_rewrite Qred_correct.
  rewrite (Zlt_Qlt 86400 n).
  change (inject_Z 3600) with (3600 # 1)%Q. change (inject_Z 86400) with (86400 # 1)%Q.
  change (inject_Z 24) with (24 # 1)%Q.
  assert (inject_Z n * / (3600 # 1) == inject_Z n * (1 # 3600))%Q as -> by reflexivity.
  split; intros H; lra.
Qed.

Section ExtractionRunFacts.

Variable strptime : string -> option datetime.
Variable float_of_string : string -> option pyfloat.

Lemma step_extract_loop_app (before rest : list element)
    (step_records : list Steps.step_record) (out : list Steps.line) :
  Forall (Steps.recoverable strptime float_of_string) before ->
  Steps.extract_loop strptime float_of_string (before ++ rest) step_records out =
  Steps.extract_loop strptime float_of_string rest
    (step_records ++ omap (Steps.accepted strptime float_of_string) before)
    (out ++ omap (Steps.reported strptime float_of_string) before).
Proof.
  intros H. revert step_records out.
  induction H as [|record records Hr _ IH]; intros step_records out; simpl.
  { by rewrite !app_nil_r. }
  unfold Steps.accepted, Steps.reported. unfold Steps.recoverable in Hr.
  destruct (Steps.try_body strptime float_of_string record) as [e|[r|]] eqn:E.
  - destruct (Hr e eq_refl) as [-> | ->]; rewrite IH; by rewrite <- app_assoc.
  - rewrite IH. by rewrite <- app_assoc.
  - by rewrite IH.
Qed.

Lemma sleep_extract_loop_app (before rest : list element)
    (sleep_records : list Sleep.sleep_record) (out : list Sleep.line) :
  Forall (Sleep.recoverable strptime) before ->
  Sleep.extract_loop strptime (before ++ rest) sleep_records out =
  Sleep.extract_loop strptime rest
    (sleep_records ++ omap (Sleep.accepted strptime) before)
    (out ++ omap (Sleep.reported strptime) before).
Proof.
  intros H. revert sleep_records out.
  induction H as [|record records Hr _ IH]; intros sleep_records out; simpl.
  { by rewrite !app_nil_r. }
  unfold Sleep.accepted, Sleep.reported. unfold Sleep.recoverable in Hr.
  destruct (Sleep.try_body strptime record) as [e|[r|]] eqn:E.
  - destruct (Hr e eq_refl) as [-> | ->]; rewrite IH; by rewrite <- app_assoc.
  - rewrite IH. by rewrite <- app_assoc.
  - by rewrite IH.
Qed.

(** X4. A step-count element whose value reads as an infinite float stops the
    extraction: [int] raises [OverflowError], which the handler of the loop
    does not catch. The call returns no record, not even those accepted
    before, and prints no count; only the lines of the malformed elements
    before it are printed. *)
Theorem infinite_step_value_aborts_extraction (xml_path : string)
    (root before after : list element) (record : element) :
  findall_records "HKQuantityTypeIdentifierStepCount" root = before ++ record :: after ->
  Forall (Steps.recoverable strptime float_of_string) before ->
  float_value float_of_string (get record "value") = inr PosInf \/
  float_value float_of_string (get record "value") = inr NegInf ->
  Steps.get_step_count_records strptime float_of_string xml_path root =
  (inl OverflowError,
   [Steps.Parsing xml_path; Steps.ExtractingStepCountRecords]
     ++ omap (Steps.reported strptime float_of_string) before).
Proof.
  intros Hall Hbefore Hinf.
  unfold Steps.get_step_count_records.
  rewrite Hall, step_extract_loop_app by done.
  cbn [Steps.extract_loop].
  assert (Steps.try_body strptime float_of_string record = inl OverflowError) as ->.
  { unfold Steps.try_body. by destruct Hinf as [-> | ->]. }
  done.
Qed.

(** X5. The value test of the step extraction. With both dates readable, an
    element is skipped silently exactly when its value is a finite number
    below one (fractions of a step included); an accepted record holds the
    integer part of the value, which is at least one, and is filed under the
    local calendar date of its start. *)
Theorem step_value_filter (record : element) (q : Qc) (s t : datetime) :
  float_value float_of_string (get record "value") = inr (Finite q) ->
  parse_datetime strptime (get record "startDate") = inr s ->
  parse_datetime strptime (get record "endDate") = inr t ->
  (Steps.try_body strptime float_of_string record = inr None <-> (q < 1)%Qc) /\
  (forall r, Steps.try_body strptime float_of_string record = inr (Some r) ->
     Steps.value r = Qfloor q /\ 1 <= Steps.value r /\
     Steps.date_key r = dt_date s /\ Steps.start_date r = s /\ Steps.end_date r = t).
Proof.
  intros Hv Hs Ht. unfold Steps.try_body. rewrite Hv, Hs, Ht. cbn [bind py_int].
  destruct (decide (Z.quot (Qnum q) (Zpos (Qden q)) <= 0)) as [Hle|Hgt].
  - split.
    + split; [intros _; by apply py_int_below_one | done].
    + intros r [=].
  - assert (1 <= q)%Qc as Hq.
    { apply Qcnot_lt_le. intros Hlt. by apply py_int_below_one in Hlt. }
    split.
    + split; [done|]. intros Hlt. by apply py_int_below_one in Hlt.
    + intros r [= <-]. cbn. rewrite <- py_int_floor by done. split_and!; [done|lia|done..].
Qed.

(** X6. A sleep element that starts before 06:00 on 0001-01-01 stops the
    extraction: the night date would be the day before the first date, the
    subtraction raises [OverflowError], and the handler does not catch it. *)
Theorem sleep_before_first_day_aborts_extraction (xml_path : string)
    (root before after : list element) (record : element) (s t : datetime) :
  findall_records "HKCategoryTypeIdentifierSleepAnalysis" root = before ++ record :: after ->
  Forall (Sleep.recoverable strptime) before ->
  parse_datetime strptime (get record "startDate") = inr s ->
  parse_datetime strptime (get record "endDate") = inr t ->
  360 <= total_seconds_between s t <= 86400 ->
  hour s < 6 ->
  toordinal (dt_date s) <= 1 ->
  Sleep.get_sleep_records strptime xml_path root =
  (inl OverflowError,
   [Sleep.Parsing xml_path; Sleep.ExtractingSleepRecords]
     ++ omap (Sleep.reported strptime) before).
Proof.
  intros Hall Hbefore Hs Ht Hd Hh Ho.
  unfold Sleep.get_sleep_records.
  rewrite Hall, sleep_extract_loop_app by done.
  cbn [Sleep.extract_loop].
  assert (Sleep.try_body strptime record = inl OverflowError) as ->.
  { unfold Sleep.try_body. rewrite Hs, Ht. cbn [bind].
    rewrite decide_False.
    2:{ rewrite hours_below_tenth, hours_above_day. lia. }
    rewrite decide_True by done.
    unfold minus_one_day, sub_one_day.
    destruct (0 <? toordinal (dt_date s) - 1) eqn:E; [apply Z.ltb_lt in E; lia|].
    done. }
  done.
Qed.

(** X7. The duration test of the sleep extraction. With both dates readable,
    an element is skipped silently exactly when the time from start to end,
    taken between the two instants, is under six minutes (an end before the
    start included) or over twenty-four hours; an accepted record spans between
    360 and 86400 seconds and its duration is that span in hours. *)
Theorem sleep_duration_filter (record : element) (s t : datetime) :
  parse_datetime strptime (get record "startDate") = inr s ->
  parse_datetime strptime (get record "endDate") = inr t ->
  (Sleep.try_body strptime record = inr None <->
   total_seconds_between s t < 360 \/ 86400 < total_seconds_between s t) /\
  (forall r, Sleep.try_body strptime record = inr (Some r) ->
     360 <= total_seconds_between s t <= 86400 /\
     (Sleep.duration r * Qc_of_Z 3600 = Qc_of_Z (total_seconds_between s t))%Qc /\
     Sleep.start_date r = s /\ Sleep.end_date r = t).
Proof.
  intros Hs Ht. unfold Sleep.try_body. rewrite Hs, Ht. cbn [bind].
  set (n := total_seconds_between s t).
  destruct (decide (Qc_of_Z n / Qc_of_Z 3600 < Q2Qc (1 # 10) \/
                    Qc_of_Z 24 < Qc_of_Z n / Qc_of_Z 3600)%Qc) as [Hout|Hin].
  - rewrite hours_below_tenth, hours_above_day in Hout.
    split; [done|]. intros r [=].
  - rewrite hours_below_tenth, hours_above_day in Hin.
    split.
    + split; [|lia].
      destruct (decide (hour s < 6)); [|done].
      unfold minus_one_day. by destruct (sub_one_day (dt_date s)).
    + intros r Hr.
      assert (Sleep.duration r = (Qc_of_Z n / Qc_of_Z 3600)%Qc /\
              Sleep.start_date r = s /\ Sleep.end_date r = t) as (-> & -> & ->).
      { destruct (decide (hour s < 6)).
        - unfold minus_one_day in Hr. destruct (sub_one_day (dt_date s)); [done|].
          cbn in Hr. by injection Hr as <-.
        - cbn in Hr. by injection Hr as <-. }
      split; [lia|]. split; [|done].
      field. discriminate.
Qed.

End ExtractionRunFacts.

(** ** Resting heart rate: extraction *)

Section RestingHRExtractionFacts.

Import RestingHRExtraction.

Variable strptime : string -> option datetime.
Variable float_of_string : string -> option pyfloat.

(** The two comparisons let through [nan] and the finite values above 0 and
    up to 200, nothing else. *)
Lemma range_test_spec (f : pyfloat) :
  le_zero f || gt_200 f = false <-> in_range f.
Proof.
  unfold in_range. destruct f as [q| | |]; cbn.
  - rewrite orb_false_iff, !bool_decide_eq_false. split.
    + intros [H0 H200]. right. exists q. split; [done|].
      split; [by apply Qcnot_le_lt | by apply Qcnot_lt_le].
    + intros [|(q' & [= <-] & H0 & H200)]; [done|].
      split; [by apply Qclt_not_le | by apply Qcle_not_lt].
  - split; [done|]. by intros [|(? & ? & _)].
  - split; [done|]. by intros [|(? & ? & _)].
  - split; [by left | done].
Qed.

(** Nothing in the body raises but [float] and [strptime]. *)
Lemma rhr_try_body_raises (record : element) (e : exn) :
  try_body strptime float_of_string record = inl e -> e = ValueError \/ e = TypeError.
Proof.
  unfold try_body, float_value, parse_datetime.
  repeat (case_match; cbn [bind]); intros [=]; subst; auto.
Qed.

Lemma rhr_extract_loop_spec (records : list element)
    (rhr_records : list raw_record) (out : list line) :
  extract_loop strptime float_of_string records rhr_records out =
  (inr (rhr_records ++ omap (accepted strptime float_of_string) records),
   out ++ omap (reported strptime float_of_string) records).
Proof.
  revert rhr_records out.
  induction records as [|record records IH]; intros rhr_records out; simpl.
  { by rewrite !app_nil_r. }
  unfold accepted, reported.
  destruct (try_body strptime float_of_string record) as [e|[r|]] eqn:E.
  - destruct (rhr_try_body_raises record e E) as [-> | ->];
      rewrite IH; by rewrite <- app_assoc.
  - rewrite IH. by rewrite <- app_assoc.
  - by rewrite IH.
Qed.

Lemma rhr_accepted_in_range (record : element) (r : raw_record) :
  accepted strptime float_of_string record = Some r -> in_range (value r).
Proof.
  unfold accepted, try_body.
  destruct (float_value float_of_string (get record "value")) as [e|f]; [done|].
  destruct (parse_datetime strptime (get record "startDate")) as [e|s]; [done|].
  destruct (parse_datetime strptime (get record "endDate")) as [e|t]; [done|].
  cbn [bind].
  destruct (le_zero f || gt_200 f) eqn:E; [done|].
  intros [= <-]. cbn. by apply range_test_spec.
Qed.

(** X8. The resting-heart-rate extraction always returns: no element can
    stop it, since an infinite value is only compared, never converted. The
    result holds the accepted records in document order, each malformed
    element is reported by one line, the last line gives the number of
    records, and every record has a value that is [nan] or lies above 0 and
    at most at 200. *)
Theorem resting_hr_extraction_returns (xml_path : string) (root : list element) :
  let elements := findall_records "HKQuantityTypeIdentifierRestingHeartRate" root in
  let records := omap (accepted strptime float_of_string) elements in
  get_resting_hr_records strptime float_of_string xml_path root =
    (inr records,
     [Parsing xml_path; ExtractingRestingHeartRateRecords]
       ++ omap (reported strptime float_of_string) elements
       ++ [FoundRestingHeartRateRecords (length records)]) /\
  Forall (fun r => in_range (value r)) records.
Proof.
  intros elements records. split.
  - unfold get_resting_hr_records. fold elements.
    by rewrite rhr_extract_loop_spec.
  - apply Forall_forall. intros r Hr.
    apply list_elem_of_omap in Hr as (record & _ & Hr).
    by apply rhr_accepted_in_range in Hr.
Qed.

(** X9. The range test of the resting-heart-rate extraction. With both dates
    readable, an element gives a record exactly when its value reads as [nan]
    or as a finite number above 0 and at most 200; every other value,
    infinite ones included, is skipped without a line. The record keeps the
    value as read and is filed under the local calendar date of its start. *)
Theorem resting_hr_value_filter (record : element) (f : pyfloat) (s t : datetime) :
  float_value float_of_string (get record "value") = inr f ->
  parse_datetime strptime (get record "startDate") = inr s ->
  parse_datetime strptime (get record "endDate") = inr t ->
  (in_range f ->
   try_body strptime float_of_string record =
   inr (Some (RawRecord s t f (get_default record "unit" "count/min")
                (get_default record "sourceName" "Unknown") (dt_date s)))) /\
  (~ in_range f -> try_body strptime float_of_string record = inr None).
Proof.
  intros Hv Hs Ht. unfold try_body. rewrite Hv, Hs, Ht. cbn [bind].
  destruct (le_zero f || gt_200 f) eqn:E.
  - split; [|done]. intros Hin. apply range_test_spec in Hin. congruence.
  - split; [done|]. intros Hout. by apply range_test_spec in E.
Qed.

End RestingHRExtractionFacts.

(** Five elements: 58 and [nan] give records, [inf] and 250 are skipped
    without a line, and the unreadable value is reported. *)
Example resting_hr_extraction_run :
  match RestingHRExtraction.get_resting_hr_records strptime_fixed float_simple "export.xml"
          RestingHRExtraction.example_elements with
  | (inr records, out) =>
      RestingHRExtraction.value <$> records = [Finite (Qc_of_Z 58); NaN] /\
      out = [RestingHRExtraction.Parsing "export.xml";
             RestingHRExtraction.ExtractingRestingHeartRateRecords;
             RestingHRExtraction.ErrorProcessingRestingHeartRateRecord ValueError;
             RestingHRExtraction.FoundRestingHeartRateRecords 2]
  | (inl _, _) => False
  end.
Proof. vm_compute. split; reflexivity. Qed.

(** Reading an attribute that is present and well formed. *)
Lemma parse_datetime_present (strptime : string -> option datetime)
    (record : element) (key v : string) (t : datetime) :
  get record key = Some v -> strptime v = Some t ->
  parse_datetime strptime (get record key) = inr t.
Proof. intros -> H. cbn. by rewrite H. Qed.

Lemma float_value_present (float_of_string : string -> option pyfloat)
    (record : element) (v : string) (f : pyfloat) :
  get record "value" = Some v -> float_of_string v = Some f ->
  float_value float_of_string (get record "value") = inr f.
Proof. intros -> H. cbn. by rewrite H. Qed.

Lemma infinite_step_value_aborts_extraction_witness :
  Steps.get_step_count_records strptime_fixed float_simple "export.xml"
    (Steps.malformed_steps :: Steps.scenario ++ [Steps.infinite_steps; Steps.zero_steps]) =
  (inl OverflowError,
   [Steps.Parsing "export.xml"; Steps.ExtractingStepCountRecords;
    Steps.ErrorProcessingStepCountRecord ValueError]).
Proof.
  apply (infinite_step_value_aborts_extraction strptime_fixed float_simple "export.xml"
           (Steps.malformed_steps :: Steps.scenario ++ [Steps.infinite_steps; Steps.zero_steps])
           (Steps.malformed_steps :: Steps.scenario) [Steps.zero_steps] Steps.infinite_steps).
  - vm_compute. reflexivity.
  - repeat (apply Forall_cons_2; [run_recoverable|]). apply Forall_nil_2.
  - left. vm_compute. reflexivity.
Defined.

Lemma step_value_filter_witness :
  let half := Steps.step_element "0.5" "2024-01-01 08:00:00 +0000"
                "2024-01-01 08:30:00 +0000" "Phone" in
  Steps.try_body strptime_fixed float_simple half = inr None.
Proof.
  intros half.
  destruct (float_simple "0.5") as [[q| | |]|] eqn:Eq;
    [|vm_compute in Eq; discriminate Eq..].
  destruct (strptime_fixed "2024-01-01 08:00:00 +0000") as [s|] eqn:Es;
    [|vm_compute in Es; discriminate Es].
  destruct (strptime_fixed "2024-01-01 08:30:00 +0000") as [t|] eqn:Et;
    [|vm_compute in Et; discriminate Et].
  apply (step_value_filter strptime_fixed float_simple half q s t).
  - by apply (float_value_present _ _ "0.5").
  - by apply (parse_datetime_present _ _ _ "2024-01-01 08:00:00 +0000").
  - by apply (parse_datetime_present _ _ _ "2024-01-01 08:30:00 +0000").
  - vm_compute in Eq. injection Eq as <-. vm_compute. reflexivity.
Defined.

Lemma sleep_before_first_day_aborts_extraction_witness :
  let first_night := Sleep.sleep_element "HKCategoryValueSleepAnalysisAsleepCore"
                       "0001-01-01 03:00:00 +0000" "0001-01-01 05:00:00 +0000" "Watch" in
  Sleep.get_sleep_records strptime_fixed "export.xml"
    [Sleep.morning; Sleep.malformed_sleep; first_night; Sleep.afternoon_nap] =
  (inl OverflowError,
   [Sleep.Parsing "export.xml"; Sleep.ExtractingSleepRecords;
    Sleep.ErrorProcessingSleepRecord ValueError]).
Proof.
  intros first_night.
  destruct (strptime_fixed "0001-01-01 03:00:00 +0000") as [s|] eqn:Es;
    [|vm_compute in Es; discriminate Es].
  destruct (strptime_fixed "0001-01-01 05:00:00 +0000") as [t|] eqn:Et;
    [|vm_compute in Et; discriminate Et].
  apply (sleep_before_first_day_aborts_extraction strptime_fixed "export.xml"
           [Sleep.morning; Sleep.malformed_sleep; first_night; Sleep.afternoon_nap]
           [Sleep.morning; Sleep.malformed_sleep] [Sleep.afternoon_nap] first_night s t).
  - vm_compute. reflexivity.
  - repeat (apply Forall_cons_2; [run_recoverable|]). apply Forall_nil_2.
  - by apply (parse_datetime_present _ _ _ "0001-01-01 03:00:00 +0000").
  - by apply (parse_datetime_present _ _ _ "0001-01-01 05:00:00 +0000").
  - vm_compute in Es, Et. injection Es as <-. injection Et as <-. vm_compute.
    split; discriminate.
  - vm_compute in Es. injection Es as <-. reflexivity.
  - vm_compute in Es. injection Es as <-. vm_compute. discriminate.
Defined.

Lemma sleep_duration_filter_witness :
  let backwards := Sleep.sleep_element "HKCategoryValueSleepAnalysisAsleepCore"
                     "2024-03-10 23:00:00 +0100" "2024-03-10 22:05:00 +0000" "Watch" in
  Sleep.try_body strptime_fixed backwards = inr None.
Proof.
  intros backwards.
  destruct (strptime_fixed "2024-03-10 23:00:00 +0100") as [s|] eqn:Es;
    [|vm_compute in Es; discriminate Es].
  destruct (strptime_fixed "2024-03-10 22:05:00 +0000") as [t|] eqn:Et;
    [|vm_compute in Et; discriminate Et].
  apply (sleep_duration_filter strptime_fixed backwards s t).
  - by apply (parse_datetime_present _ _ _ "2024-03-10 23:00:00 +0100").
  - by apply (parse_datetime_present _ _ _ "2024-03-10 22:05:00 +0000").
  - vm_compute in Es, Et. injection Es as <-. injection Et as <-. left. reflexivity.
Defined.

Lemma resting_hr_value_filter_witness :
  let not_a_number :=
    RestingHRExtraction.rhr_element "nan" "2024-01-01 09:00:00 +0000" in
  exists r,
    RestingHRExtraction.try_body strptime_fixed float_simple not_a_number = inr (Some r) /\
    RestingHRExtraction.value r = NaN.
Proof.
  intros not_a_number.
  destruct (strptime_fixed "2024-01-01 09:00:00 +0000") as [s|] eqn:Es;
    [|vm_compute in Es; discriminate Es].
  eexists. split.
  - apply (resting_hr_value_filter strptime_fixed float_simple not_a_number NaN s s).
    + by apply (float_value_present _ _ "nan").
    + by apply (parse_datetime_present _ _ _ "2024-01-01 09:00:00 +0000").
    + by apply (parse_datetime_present _ _ _ "2024-01-01 09:00:00 +0000").
    + by left.
  - reflexivity.
Defined.

(** ** Step counts: order of the records and conservation of the total *)

Section StepAggregateFacts.

Import Steps.

Lemma sum_values_Permutation (l l' : list step_record) :
  l ≡ₚ l' -> sum_values l = sum_values l'.
Proof.
  unfold sum_values. induction 1; rewrite ?fmap_cons in *; cbn [foldr] in *; lia.
Qed.

Lemma source_set_Permutation (l l' : list step_record) :
  l ≡ₚ l' -> source_set l = source_set l'.
Proof.
  intros H. unfold source_set. apply list_to_set_perm_L. by rewrite H.
Qed.

(** The dictionary the loop builds, entry by entry. *)
Lemma add_record_insert (days : gmap PyDate.date day_data) (r : step_record) :
  add_record days r =
  <[date_key r :=
      DayData (total (default default_day (days !! date_key r)) + value r)
        ({[source r]} ∪ sources (default default_day (days !! date_key r)))]> days.
Proof.
  apply map_eq. intros d. rewrite add_record_lookup.
  case_decide as Hd.
  - subst d. by rewrite lookup_insert_eq.
  - by rewrite lookup_insert_ne.
Qed.

(** The sum of the totals of a dictionary. *)
Lemma map_total_insert (days : gmap PyDate.date day_data) (d : PyDate.date) (x : day_data) :
  foldr Z.add 0 ((fun p => total p.2) <$> map_to_list (<[d := x]> days)) =
  foldr Z.add 0 ((fun p => total p.2) <$> map_to_list days)
    - total (default default_day (days !! d)) + total x.
Proof.
  assert (forall l l' : list Z, l ≡ₚ l' -> foldr Z.add 0 l = foldr Z.add 0 l') as Hperm.
  { induction 1; simpl in *; lia. }
  destruct (days !! d) as [a|] eqn:E.
  - rewrite <- (insert_delete_eq days d x).
    rewrite (Hperm _ ((fun p => total p.2) <$> ((d, x) :: map_to_list (delete d days)))).
    2:{ apply fmap_Permutation, map_to_list_insert, lookup_delete_eq. }
    rewrite (Hperm ((fun p => total p.2) <$> map_to_list days)
               ((fun p => total p.2) <$> ((d, a) :: map_to_list (delete d days)))).
    2:{ apply fmap_Permutation. symmetry. apply map_to_list_delete, E. }
    rewrite !fmap_cons. cbn [foldr snd default total default_day]. unfold id. lia.
  - rewrite (Hperm _ ((fun p => total p.2) <$> ((d, x) :: map_to_list days))).
    2:{ by apply fmap_Permutation, map_to_list_insert. }
    rewrite !fmap_cons. cbn [foldr snd default total default_day]. unfold id. lia.
Qed.

Lemma map_total_foldl (records : list step_record) (days : gmap PyDate.date day_data) :
  foldr Z.add 0 ((fun p => total p.2) <$> map_to_list (foldl add_record days records)) =
  foldr Z.add 0 ((fun p => total p.2) <$> map_to_list days) + sum_values records.
Proof.
  revert days. induction records as [|r records IH]; intros days.
  { unfold sum_values. cbn. lia. }
  cbn [foldl]. rewrite IH, add_record_insert, map_total_insert.
  unfold sum_values. rewrite fmap_cons. cbn [foldr total]. lia.
Qed.

(** X10. The order of the records does not matter to the daily step
    aggregation: two lists with the same records, in any order, give the same
    rows. *)
Theorem aggregate_by_day_order_irrelevant (records records' : list step_record) :
  records ≡ₚ records' -> aggregate_by_day records = aggregate_by_day records'.
Proof.
  intros Hp. unfold aggregate_by_day.
  replace (foldl add_record ∅ records') with (foldl add_record ∅ records); [done|].
  apply map_eq. intros d. rewrite !days_lookup.
  assert (records_on d records ≡ₚ records_on d records') as Hon.
  { unfold records_on. by rewrite Hp. }
  destruct (records_on d records) as [|r on] eqn:E.
  - apply Permutation_nil_l in Hon. by rewrite <- Hon.
  - destruct (records_on d records') as [|r' on'] eqn:E'.
    { by apply Permutation_nil_r in Hon. }
    cbv beta iota zeta.
    by rewrite (sum_values_Permutation _ _ Hon), (source_set_Permutation _ _ Hon).
Qed.

(** X11. No step is lost or counted twice: the [steps] of the rows add up to
    the values of all the records. *)
Theorem aggregate_by_day_conserves_steps (records : list step_record) :
  foldr Z.add 0 (steps <$> aggregate_by_day records) = sum_values records.
Proof.
  assert (forall l l' : list Z, l ≡ₚ l' -> foldr Z.add 0 l = foldr Z.add 0 l') as Hperm.
  { induction 1; simpl in *; lia. }
  rewrite (Hperm _ (steps <$> ((fun p => DayRow p.1 (total p.2) (sources p.2))
                      <$> map_to_list (foldl add_record ∅ records)))).
  2:{ apply fmap_Permutation, aggregate_by_day_rows. }
  rewrite <- list_fmap_compose.
  change (steps ∘ _) with (fun p : PyDate.date * day_data => total p.2).
  rewrite map_total_foldl, map_to_list_empty. simpl. lia.
Qed.

End StepAggregateFacts.

Lemma aggregate_by_day_order_irrelevant_witness :
  match Steps.get_step_count_records strptime_fixed float_simple "export.xml"
          Steps.scenario with
  | (inr records, _) => Steps.aggregate_by_day records = Steps.aggregate_by_day (reverse records)
  | (inl _, _) => False
  end.
Proof.
  destruct (Steps.get_step_count_records strptime_fixed float_simple "export.xml"
              Steps.scenario) as [[e|records] out] eqn:E;
    [vm_compute in E; discriminate E|].
  apply (aggregate_by_day_order_irrelevant records (reverse records)).
  by rewrite reverse_Permutation.
Defined.

(** ** Sleep: when the night aggregation fails *)

Section SleepFailureFacts.

Import Sleep.

Lemma aggregate_loop_raises (records : list sleep_record)
    (nights : gmap PyDate.date night_data) (e : exn) :
  aggregate_loop records nights = inl e -> e = TypeError.
Proof.
  revert nights. induction records as [|r records IH]; intros nights;
    cbn [aggregate_loop]; [done|].
  destruct (add_record nights r) as [e'|n1] eqn:E; cbn [bind].
  - intros [= <-]. unfold add_record in E.
    destruct (is_nap r); [done|].
    destruct (value r); cbv beta iota zeta in E; congruence.
  - apply IH.
Qed.

(** X12. The night aggregation fails exactly when some record that is not a
    nap has no label: the membership test on the missing label raises
    [TypeError], and no rows are returned. A nap without a label does no
    harm. *)
Theorem night_aggregation_fails_iff (records : list sleep_record) :
  (exists r, r ∈ records /\ is_nap r = false /\ value r = None) <->
  aggregate_sleep_by_night records = inl TypeError.
Proof.
  unfold aggregate_sleep_by_night. split.
  - intros (r & Hin & Hnap & Hv).
    destruct (aggregate_loop records ∅) as [e|nights] eqn:E.
    + apply aggregate_loop_raises in E as ->. done.
    + apply aggregate_loop_labelled in E. unfold labelled in E.
      rewrite Forall_forall in E. destruct (E r Hin Hnap) as [v Hv']. congruence.
  - destruct (aggregate_loop records ∅) as [e|nights] eqn:E; [|done].
    intros _.
    destruct (decide (Exists (fun r => is_nap r = false /\ value r = None) records))
      as [Hex|Hnex].
    + apply Exists_exists in Hex as (r & Hin & Hnap & Hv). eauto.
    + assert (labelled records) as Hl.
      { unfold labelled. apply Forall_forall. intros r Hin Hnap.
        destruct (value r) eqn:Hv; [eauto|].
        destruct Hnex. apply Exists_exists. eauto. }
      destruct (aggregate_loop_returns records ∅ Hl) as [nights Hn]. congruence.
Qed.

End SleepFailureFacts.

(** An element without a [value] attribute is accepted by the extraction and
    then makes the aggregation fail. *)
Lemma night_aggregation_fails_iff_witness :
  let unlabelled :=
    record_element "HKCategoryTypeIdentifierSleepAnalysis"
      [("startDate", "2024-03-10 22:00:00 +0000");
       ("endDate", "2024-03-11 06:00:00 +0000")]%string in
  match Sleep.get_sleep_records strptime_fixed "export.xml" [Sleep.morning; unlabelled] with
  | (inr records, _) => Sleep.aggregate_sleep_by_night records = inl TypeError
  | (inl _, _) => False
  end.
Proof.
  intros unlabelled.
  destruct (Sleep.get_sleep_records strptime_fixed "export.xml" [Sleep.morning; unlabelled])
    as [[e|records] out] eqn:E; [vm_compute in E; discriminate E|].
  apply (proj1 (night_aggregation_fails_iff records)).
  vm_compute in E. injection E as <- _.
  eexists. split; [apply elem_of_cons; right; apply elem_of_cons; left; reflexivity|].
  split; reflexivity.
Defined.

(** ** The extraction scripts: what a run leaves on disk *)

Section ScriptFacts.

Import Correct Output.

Variable strptime : string -> option datetime.
Variable float_of_string : string -> option pyfloat.
Variable true_div : Z -> Z -> option Qc.

(** With [data] a directory or absent, and the output path not a directory,
    the write goes through after [ensure_dir]. *)
Lemma steps_save_to_json_spec (data : list Steps.day_row) (fs : filesystem) :
  "data" ∈ dirs fs \/ files fs !! "data" = None ->
  "data/step_count_data.json" ∉ dirs fs ->
  exists lines,
    StepsScript.save_to_json data "data" "step_count_data.json" fs =
    (inr "data/step_count_data.json",
     Fs ({["data"]} ∪ dirs fs)
        (<["data/step_count_data.json" := Doc (StepsScript.serializable_entry <$> data)]>
           (files fs)),
     lines ++ [StepsScript.DataSavedAs "data/step_count_data.json"]).
Proof.
  intros Hdir Hout.
  unfold StepsScript.save_to_json, StepsScript.ensure_dir, path_exists.
  case_bool_decide as Hex; cbn [negb].
  - assert ("data" ∈ dirs fs) as Hin.
    { destruct Hdir as [|Hnone]; [done|]. destruct Hex as [|[c Hc]]; [done|congruence]. }
    unfold write_json. rewrite decide_True by done.
    exists []. repeat f_equal. destruct fs as [ds fl]. cbn in *. f_equal. set_solver.
  - unfold write_json, makedirs. cbn [dirs files].
    rewrite decide_True.
    2:{ split; [set_solver|]. intros [Heq%elem_of_singleton|?]%elem_of_union; done. }
    exists [StepsScript.CreatedDirectory "data"]. done.
Qed.

Lemma aggregate_by_day_nil : Steps.aggregate_by_day [] = [].
Proof. unfold Steps.aggregate_by_day. cbn [foldl]. by rewrite map_to_list_empty. Qed.

(** A record gives a row. *)
Lemma aggregate_by_day_not_nil (records : list Steps.step_record) :
  records <> [] -> Steps.aggregate_by_day records <> [].
Proof.
  destruct records as [|r records]; [done|]. intros _ Hnil.
  assert (Steps.DayRow (Steps.date_key r)
            (Steps.sum_values (Steps.records_on (Steps.date_key r) (r :: records)))
            (Steps.source_set (Steps.records_on (Steps.date_key r) (r :: records)))
          ∈ Steps.aggregate_by_day (r :: records)) as Hin.
  { apply elem_of_aggregate_by_day. cbn [Steps.date Steps.steps Steps.row_sources].
    rewrite days_lookup. unfold Steps.records_on. rewrite filter_cons.
    by rewrite decide_True. }
  rewrite Hnil in Hin. by apply not_elem_of_nil in Hin.
Qed.

(** X13. When the export holds no acceptable step-count element, the
    step-count script saves nothing: the statistics of no data are the empty
    dictionary, reading [days_recorded] off it raises [KeyError], and the run
    ends on that error with the file system as it was. *)
Theorem steps_main_without_records (root : list element) (fs : filesystem) :
  let steps := findall_records "HKQuantityTypeIdentifierStepCount" root in
  Forall (Steps.recoverable strptime float_of_string) steps ->
  omap (Steps.accepted strptime float_of_string) steps = [] ->
  StepsScript.main strptime float_of_string true_div (inr root) fs =
  (fs,
   [StepsScript.WillSaveOutputTo "data";
    StepsScript.FromExtraction (Steps.Parsing "apple_health_export/export.xml");
    StepsScript.FromExtraction Steps.ExtractingStepCountRecords]
     ++ (StepsScript.FromExtraction <$> omap (Steps.reported strptime float_of_string) steps)
     ++ [StepsScript.FromExtraction (Steps.FoundStepCountRecords 0);
         StepsScript.StepCountStatistics;
         StepsScript.AnErrorOccurred (KeyError "days_recorded")]).
Proof.
  intros steps Hrec Hnone.
  unfold StepsScript.main, StepsScript.extract, Steps.get_step_count_records.
  fold steps. rewrite step_extract_loop_spec by done. rewrite Hnone.
  cbn [app length]. rewrite aggregate_by_day_nil. cbn [StepsScript.calculate_stats].
  f_equal. rewrite !fmap_cons, fmap_app. cbn [fmap list_fmap app].
  by rewrite <- !app_assoc.
Qed.

(** The statistics of some rows are there exactly when the division of the
    average returns. *)
Lemma calculate_stats_returns (data : list Steps.day_row) :
  data <> [] ->
  match true_div (foldl Z.add 0 (Steps.steps <$> data)) (Z.of_nat (length data)) with
  | Some q => exists st, StepsScript.calculate_stats true_div data = inr (Some st)
  | None => StepsScript.calculate_stats true_div data = inl OverflowError
  end.
Proof.
  destruct data as [|r data]; [done|]. intros _.
  unfold StepsScript.calculate_stats.
  set (rows := r :: data). rewrite length_fmap.
  rewrite decide_True by (unfold rows; cbn; lia).
  destruct (true_div _ _); cbn [bind]; eauto.
Qed.

(** X14. When the extraction returns at least one record, and the average
    of the daily totals is within the range of floats, the step-count script
    saves the rows of the daily aggregation, each with its date as a string
    and its sources as a list, to [data/step_count_data.json], creating [data]
    if need be and touching no other file; its last line reports the path.
    When the average is beyond the range of floats, the division raises
    [OverflowError] and the run ends on that error with the file system as it
    was. *)
Theorem steps_main_saves_rows (root : list element) (fs : filesystem)
    (records : list Steps.step_record) (out : list Steps.line) :
  Steps.get_step_count_records strptime float_of_string
    "apple_health_export/export.xml" root = (inr records, out) ->
  records <> [] ->
  "data" ∈ dirs fs \/ files fs !! "data" = None ->
  "data/step_count_data.json" ∉ dirs fs ->
  let rows := Steps.aggregate_by_day records in
  let average :=
    true_div (foldl Z.add 0 (Steps.steps <$> rows)) (Z.of_nat (length rows)) in
  let run := StepsScript.main strptime float_of_string true_div (inr root) fs in
  (is_Some average ->
   files run.1 =
     <["data/step_count_data.json" := Doc (StepsScript.serializable_entry <$> rows)]>
       (files fs) /\
   dirs run.1 = {["data"]} ∪ dirs fs /\
   last run.2 = Some (StepsScript.ExtractionComplete "data/step_count_data.json")) /\
  (average = None ->
   run.1 = fs /\ last run.2 = Some (StepsScript.AnErrorOccurred OverflowError)).
Proof.
  intros Hget Hne Hdir Hout rows average run.
  unfold run, StepsScript.main, StepsScript.extract.
  rewrite Hget. fold rows.
  pose proof (aggregate_by_day_not_nil records Hne) as Hrows. fold rows in Hrows.
  pose proof (calculate_stats_returns rows Hrows) as Hstats. fold average in Hstats.
  split.
  - intros [q Hq]. rewrite Hq in Hstats. destruct Hstats as [st ->].
    destruct (steps_save_to_json_spec rows fs Hdir Hout) as [lines ->].
    cbn [fst snd files dirs]. split_and!; [done..|].
    by rewrite !app_assoc, last_snoc.
  - intros Hnone. rewrite Hnone in Hstats. rewrite Hstats.
    cbn [fst snd]. split; [done|]. by rewrite !app_assoc, last_snoc.
Qed.

End ScriptFacts.

Section SleepScriptFacts.

Import Correct Output.

Variable strptime : string -> option datetime.

Lemma sleep_save_json_spec (data : list Sleep.night_row) (fs : filesystem) :
  "data" ∈ dirs fs \/ files fs !! "data" = None ->
  "data/sleep_data.json" ∉ dirs fs ->
  exists lines,
    SleepScript.save_sleep_data_json data "data" "sleep_data.json" fs =
    (inr "data/sleep_data.json",
     Fs ({["data"]} ∪ dirs fs)
        (<["data/sleep_data.json" := Doc (SleepScript.serializable_entry <$> data)]>
           (files fs)),
     lines ++ [SleepScript.DataSavedAs "data/sleep_data.json"]).
Proof.
  intros Hdir Hout.
  unfold SleepScript.save_sleep_data_json, SleepScript.ensure_dir, path_exists.
  case_bool_decide as Hex; cbn [negb].
  - assert ("data" ∈ dirs fs) as Hin.
    { destruct Hdir as [|Hnone]; [done|]. destruct Hex as [|[c Hc]]; [done|congruence]. }
    unfold write_json. rewrite decide_True by done.
    exists []. repeat f_equal. destruct fs as [ds fl]. cbn in *. f_equal. set_solver.
  - unfold write_json, makedirs. cbn [dirs files].
    rewrite decide_True.
    2:{ split; [set_solver|]. intros [Heq%elem_of_singleton|?]%elem_of_union; done. }
    exists [SleepScript.CreatedDirectory "data"]. done.
Qed.

(** X15. The sleep script saves whatever the night aggregation returns, an
    empty list included, to [data/sleep_data.json], creating [data] if need
    be and touching no other file. *)
Theorem sleep_main_saves_rows (root : list element) (fs : filesystem)
    (records : list Sleep.sleep_record) (out : list Sleep.line)
    (rows : list Sleep.night_row) :
  Sleep.get_sleep_records strptime "apple_health_export/export.xml" root =
    (inr records, out) ->
  Sleep.aggregate_sleep_by_night records = inr rows ->
  "data" ∈ dirs fs \/ files fs !! "data" = None ->
  "data/sleep_data.json" ∉ dirs fs ->
  let run := SleepScript.main strptime (inr root) fs in
  files run.1 =
    <["data/sleep_data.json" := Doc (SleepScript.serializable_entry <$> rows)]> (files fs) /\
  dirs run.1 = {["data"]} ∪ dirs fs /\
  last run.2 = Some SleepScript.ExtractionComplete.
Proof.
  intros Hget Hagg Hdir Hout run. unfold run, SleepScript.main, SleepScript.extract.
  rewrite Hget, Hagg.
  destruct (sleep_save_json_spec rows fs Hdir Hout) as [lines ->].
  cbn [fst snd files dirs]. split_and!; [done..|].
  by rewrite !app_assoc, last_snoc.
Qed.

End SleepScriptFacts.

Lemma steps_main_without_records_witness :
  let root := [Steps.zero_steps; Steps.malformed_steps] in
  StepsScript.main strptime_fixed float_simple StepsScript.exact_div (inr root)
    (Correct.Fs ∅ ∅) =
  (Correct.Fs ∅ ∅,
   [StepsScript.WillSaveOutputTo "data";
    StepsScript.FromExtraction (Steps.Parsing "apple_health_export/export.xml");
    StepsScript.FromExtraction Steps.ExtractingStepCountRecords;
    StepsScript.FromExtraction (Steps.ErrorProcessingStepCountRecord ValueError);
    StepsScript.FromExtraction (Steps.FoundStepCountRecords 0);
    StepsScript.StepCountStatistics;
    StepsScript.AnErrorOccurred (KeyError "days_recorded")]).
Proof.
  intros root.
  apply (steps_main_without_records strptime_fixed float_simple StepsScript.exact_div
           root (Correct.Fs ∅ ∅)).
  - let l := eval vm_compute in (findall_records "HKQuantityTypeIdentifierStepCount" root)
    in change (findall_records "HKQuantityTypeIdentifierStepCount" root) with l.
    repeat (apply Forall_cons_2; [run_recoverable|]). apply Forall_nil_2.
  - vm_compute. reflexivity.
Defined.

Lemma steps_main_saves_rows_witness :
  let run := StepsScript.main strptime_fixed float_simple StepsScript.exact_div
               (inr Steps.scenario) (Correct.Fs ∅ ∅) in
  exists rows,
    Correct.files run.1 = {["data/step_count_data.json"%string := Correct.Doc rows]} /\
    length rows = 1%nat /\
    Correct.dirs run.1 = {["data"%string]} ∪ ∅.
Proof.
  intros run.
  destruct (Steps.get_step_count_records strptime_fixed float_simple
              "apple_health_export/export.xml" Steps.scenario) as [[e|records] out] eqn:E;
    [vm_compute in E; discriminate E|].
  destruct (steps_main_saves_rows strptime_fixed float_simple StepsScript.exact_div
              Steps.scenario (Correct.Fs ∅ ∅) records out E) as [Hsaved _].
  - vm_compute in E. by injection E as <- _.
  - by right.
  - cbn. set_solver.
  - destruct Hsaved as (Hfiles & Hdirs & _); [by eexists|].
    eexists. split; [exact Hfiles|]. split; [|exact Hdirs].
    vm_compute in E. injection E as <- _. vm_compute. reflexivity.
Defined.

(** An export without any sleep element still gives a file, holding the empty
    list. *)
Lemma sleep_main_saves_rows_witness :
  let run := SleepScript.main strptime_fixed (inr Steps.scenario) (Correct.Fs ∅ ∅) in
  Correct.files run.1 = {["data/sleep_data.json"%string := Correct.Doc []]} /\
  last run.2 = Some SleepScript.ExtractionComplete.
Proof.
  intros run.
  destruct (sleep_main_saves_rows strptime_fixed Steps.scenario (Correct.Fs ∅ ∅) []
              [Sleep.Parsing "apple_health_export/export.xml"; Sleep.ExtractingSleepRecords;
               Sleep.FoundSleepRecords 0] []) as (Hfiles & _ & Hlast).
  - vm_compute. reflexivity.
  - vm_compute. reflexivity.
  - by right.
  - cbn. set_solver.
  - split; [exact Hfiles | exact Hlast].
Defined.

(** ** The statistics of the step-count script *)

Section StatsFacts.

Import Steps StepsScript.

Variable true_div : Z -> Z -> option Qc.

Lemma foldl_add_sum (l : list Z) (a : Z) : foldl Z.add a l = a + foldr Z.add 0 l.
Proof.
  revert a. induction l as [|x l IH]; intros a; cbn [foldl foldr]; [lia|].
  rewrite IH. lia.
Qed.

Lemma foldl_min_spec (vs : list Z) (v : Z) :
  foldl Z.min v vs ∈ v :: vs /\ Forall (fun x => foldl Z.min v vs <= x) (v :: vs).
Proof.
  revert v. induction vs as [|x vs IH]; intros v; cbn [foldl].
  { split; [left|]. apply Forall_cons_2; [lia|apply Forall_nil_2]. }
  destruct (IH (Z.min v x)) as [Hin Hle]. split.
  - apply elem_of_cons in Hin as [Heq|Hin].
    + rewrite Heq. destruct (Z.min_spec v x) as [[_ ->]|[_ ->]]; set_solver.
    + set_solver.
  - apply Forall_cons_1 in Hle as [Hm Hle].
    repeat apply Forall_cons_2; [lia|lia|done].
Qed.

Lemma foldl_max_spec (vs : list Z) (v : Z) :
  foldl Z.max v vs ∈ v :: vs /\ Forall (fun x => x <= foldl Z.max v vs) (v :: vs).
Proof.
  revert v. induction vs as [|x vs IH]; intros v; cbn [foldl].
  { split; [left|]. apply Forall_cons_2; [lia|apply Forall_nil_2]. }
  destruct (IH (Z.max v x)) as [Hin Hle]. split.
  - apply elem_of_cons in Hin as [Heq|Hin].
    + rewrite Heq. destruct (Z.max_spec v x) as [[_ ->]|[_ ->]]; set_solver.
    + set_solver.
  - apply Forall_cons_1 in Hle as [Hm Hle].
    repeat apply Forall_cons_2; [lia|lia|done].
Qed.

(** The first entry with a given value, when there is one. *)
Lemma first_date_with_spec (v : Z) (data : list day_row) :
  v ∈ steps <$> data ->
  exists before row after,
    data = before ++ row :: after /\ steps row = v /\
    Forall (fun r => steps r <> v) before /\
    first_date_with v data = Some (date row).
Proof.
  unfold first_date_with.
  induction data as [|r data IH]; intros Hin; [by apply not_elem_of_nil in Hin|].
  rewrite filter_cons. case_decide as Hr.
  - exists [], r, data. split_and!; [done|done|apply Forall_nil_2|done].
  - rewrite fmap_cons in Hin. apply elem_of_cons in Hin as [Heq|Hin]; [done|].
    destruct (IH Hin) as (before & row & after & -> & Hrow & Hbefore & Hfirst).
    exists (r :: before), row, after.
    split_and!; [done|done|by apply Forall_cons_2|done].
Qed.

(** X16. The statistics of a non-empty list of daily rows, when the
    division of the average returns: the number of rows, the sum of their
    steps, the average as that division of the sum by the number gives it, a
    least and a greatest number of steps that bound every row, and for each of
    the two the date of the first row that reaches it. *)
Theorem calculate_stats_spec (data : list day_row) (st : stats) :
  calculate_stats true_div data = inr (Some st) ->
  days_recorded st = length data /\
  total_steps st = foldr Z.add 0 (steps <$> data) /\
  true_div (total_steps st) (Z.of_nat (days_recorded st)) =
    Some (average_daily_steps st) /\
  Forall (fun row => min_steps st <= steps row <= max_steps st) data /\
  (exists before row after,
     data = before ++ row :: after /\ steps row = min_steps st /\
     Forall (fun r => steps r <> min_steps st) before /\
     min_date st = Some (date row)) /\
  (exists before row after,
     data = before ++ row :: after /\ steps row = max_steps st /\
     Forall (fun r => steps r <> max_steps st) before /\
     max_date st = Some (date row)).
Proof.
  destruct data as [|r data]; [done|]. unfold calculate_stats.
  set (rows := r :: data).
  set (values := steps <$> rows).
  set (lo := foldl Z.min (steps r) (steps <$> data)).
  set (hi := foldl Z.max (steps r) (steps <$> data)).
  assert (0 < length values)%nat as Hlen by (unfold values, rows; cbn; lia).
  rewrite decide_True by done.
  destruct (true_div (foldl Z.add 0 values) (Z.of_nat (length values))) as [q|] eqn:Hq;
    cbn [bind]; [|done].
  intros Hst.
  assert (st = Stats (length values) (foldl Z.add 0 values) q
                 lo (first_date_with lo rows) hi (first_date_with hi rows)) as ->.
  { injection Hst as <-. reflexivity. }
  clear Hst.
  cbn [days_recorded total_steps average_daily_steps min_steps min_date max_steps max_date].
  destruct (foldl_min_spec (steps <$> data) (steps r)) as [Hmin_in Hmin].
  destruct (foldl_max_spec (steps <$> data) (steps r)) as [Hmax_in Hmax].
  fold lo in Hmin_in, Hmin. fold hi in Hmax_in, Hmax.
  change (steps r :: (steps <$> data)) with values in Hmin_in, Hmin, Hmax_in, Hmax.
  assert (Forall (fun x => lo <= x <= hi) values) as Hbounds.
  { rewrite Forall_forall in Hmin, Hmax. apply Forall_forall. intros x Hx.
    split; [by apply Hmin | by apply Hmax]. }
  clearbody lo hi.
  split; [apply length_fmap|].
  split; [by rewrite foldl_add_sum, Z.add_0_l|].
  split; [exact Hq|].
  split; [by apply Forall_fmap in Hbounds|].
  split; by apply first_date_with_spec.
Qed.

End StatsFacts.

Lemma calculate_stats_spec_witness :
  let data := [Steps.DayRow (Date 2024 1 1) 7500 {["Phone"%string]};
               Steps.DayRow (Date 2024 1 2) 2000 {["Watch"%string]};
               Steps.DayRow (Date 2024 1 3) 7500 {["Watch"%string]}] in
  exists st,
    StepsScript.calculate_stats StepsScript.exact_div data = inr (Some st) /\
    StepsScript.days_recorded st = 3%nat /\
    StepsScript.total_steps st = 17000 /\
    StepsScript.min_date st = Some (Date 2024 1 2) /\
    StepsScript.max_date st = Some (Date 2024 1 1).
Proof.
  intros data.
  destruct (StepsScript.calculate_stats StepsScript.exact_div data) as [e|[st|]] eqn:E;
    [vm_compute in E; discriminate E| |vm_compute in E; discriminate E].
  destruct (calculate_stats_spec StepsScript.exact_div data st E) as (Hn & Htotal & _).
  exists st. split; [done|]. split; [exact Hn|]. split; [exact Htotal|].
  vm_compute in E. injection E as <-. split; reflexivity.
Defined.

(** ** From the sleep script to the correction engine *)

(** Reading back what [isoformat] writes. *)
Lemma digit_digit_char (k : Z) : 0 <= k <= 9 -> digit (digit_char k) = Some k.
Proof.
  intros Hk.
  assert (k = 0 \/ k = 1 \/ k = 2 \/ k = 3 \/ k = 4 \/ k = 5 \/ k = 6 \/ k = 7 \/
          k = 8 \/ k = 9) as Hcases by lia.
  repeat (destruct Hcases as [->|Hcases]; [reflexivity|]). by subst k.
Qed.

Lemma digits_app (l1 l2 : list Ascii.ascii) (acc : Z) :
  digits (l1 ++ l2) acc =
  match digits l1 acc with
  | Some a => digits l2 a
  | None => None
  end.
Proof.
  revert acc. induction l1 as [|c l1 IH]; intros acc; cbn [app digits]; [done|].
  destruct (digit c); [apply IH|done].
Qed.

Lemma digits_zero_padded (width : nat) (n acc : Z) :
  0 <= n ->
  digits (zero_padded width n) acc =
  Some (acc * 10 ^ Z.of_nat width + n mod 10 ^ Z.of_nat width).
Proof.
  revert n. induction width as [|w IH]; intros n Hn.
  { cbn. f_equal. rewrite Z.mod_1_r. lia. }
  cbn [zero_padded]. rewrite digits_app, IH by (apply Z.div_pos; lia).
  cbn [digits].
  rewrite digit_digit_char by (pose proof (Z.mod_pos_bound n 10); lia).
  f_equal. rewrite Nat2Z.inj_succ, Z.pow_succ_r by lia.
  rewrite (Z.rem_mul_r n 10 (10 ^ Z.of_nat w)) by lia. lia.
Qed.

Lemma iso_date_isoformat (d : date) :
  valid d -> Correct.iso_date (isoformat d) = Some d.
Proof.
  intros Hv. pose proof Hv as ((Hy1 & Hy2) & (Hm1 & Hm2) & (Hd1 & Hd2)).
  assert (day d <= 31) as Hd31.
  { revert Hd2. unfold days_in_month.
    destruct ((month d =? 2) && is_leap (year d)); [lia|].
    destruct (month d) as [|p|p]; try lia.
    do 4 (destruct p as [p|p|]; try lia). }
  unfold Correct.iso_date, isoformat.
  rewrite String.list_ascii_of_string_of_list_ascii.
  cbn [zero_padded app].
  change [digit_char (year d / 10 / 10 / 10 mod 10); digit_char (year d / 10 / 10 mod 10);
          digit_char (year d / 10 mod 10); digit_char (year d mod 10)]
    with (zero_padded 4 (year d)).
  change [digit_char (month d / 10 mod 10); digit_char (month d mod 10)]
    with (zero_padded 2 (month d)).
  change [digit_char (day d / 10 mod 10); digit_char (day d mod 10)]
    with (zero_padded 2 (day d)).
  rewrite !digits_zero_padded by lia.
  change (Z.of_nat 4) with 4. change (Z.of_nat 2) with 2.
  rewrite !Z.mod_small by lia. rewrite !Z.mul_0_l, !Z.add_0_l.
  destruct d as [y m dd]. cbn [year month day] in *.
  by rewrite decide_True.
Qed.

Section SleepToCorrection.

Variable strptime : string -> option datetime.
Variable fromisoformat : string -> option date.

(** Whatever the loop returns, it is the accepted records in order. *)
Lemma sleep_extract_loop_inr (records : list element)
    (sleep_records res : list Sleep.sleep_record) (out out' : list Sleep.line) :
  Sleep.extract_loop strptime records sleep_records out = (inr res, out') ->
  res = sleep_records ++ omap (Sleep.accepted strptime) records.
Proof.
  revert sleep_records out.
  induction records as [|record records IH]; intros sleep_records out; cbn [Sleep.extract_loop].
  { intros [= <- _]. by rewrite app_nil_r. }
  cbn [omap list_omap]. unfold Sleep.accepted at 1.
  destruct (Sleep.try_body strptime record) as [e|[r|]].
  - destruct e; try done; apply IH.
  - intros H%IH. by rewrite <- app_assoc in H.
  - apply IH.
Qed.

(** The night date of a record with a valid start date is a valid date. *)
Lemma accepted_night_date_valid (record : element) (r : Sleep.sleep_record) :
  Sleep.try_body strptime record = inr (Some r) ->
  valid (dt_date (Sleep.start_date r)) ->
  valid (Sleep.night_date r).
Proof.
  intros Hr Hv.
  destruct (sleep_try_body_inv strptime record r Hr) as (_ & _ & _ & _ & _ & _ & _ & Hn).
  case_decide as Hh; [|by rewrite Hn].
  unfold sub_one_day in Hn.
  destruct (0 <? toordinal (dt_date (Sleep.start_date r)) - 1) eqn:Ho; [|done].
  apply Z.ltb_lt in Ho. injection Hn as <-.
  by destruct (prev_day_spec (dt_date (Sleep.start_date r)) Hv); [lia|].
Qed.

(** X17. The file the sleep script writes is one the correction engine can
    process. For records returned by the extraction, with valid start dates,
    every row of the night aggregation, once made serialisable, has a date
    string that reads back as its date and numeric [asleep] and [in_bed]
    fields: it is a row the correction rule applies to. *)
Theorem sleep_summary_is_correctable (xml_path : string) (root : list element)
    (records : list Sleep.sleep_record) (out : list Sleep.line)
    (rows : list Sleep.night_row) :
  (forall d, valid d -> fromisoformat (isoformat d) = Some d) ->
  Sleep.get_sleep_records strptime xml_path root = (inr records, out) ->
  Forall (fun r => valid (dt_date (Sleep.start_date r))) records ->
  Sleep.aggregate_sleep_by_night records = inr rows ->
  Forall (Correct.correctable fromisoformat) (SleepScript.serializable_entry <$> rows).
Proof.
  intros Hiso Hget Hvalid Hrows.
  assert (records =
          omap (Sleep.accepted strptime)
            (findall_records "HKCategoryTypeIdentifierSleepAnalysis" root)) as Hrecords.
  { unfold Sleep.get_sleep_records in Hget.
    destruct (Sleep.extract_loop strptime _ [] _) as [[e|res] out'] eqn:E; [done|].
    apply sleep_extract_loop_inr in E. injection Hget as <- _. done. }
  apply Forall_forall. intros entry Hentry.
  apply list_elem_of_fmap in Hentry as (row & -> & Hrow).
  apply (elem_of_aggregate_sleep records rows row Hrows) in Hrow as (on & Hon & Hne & _).
  destruct on as [|r on]; [done|].
  assert (r ∈ Sleep.night_records (Sleep.date row) records) as Hr by (rewrite Hon; left).
  apply list_elem_of_filter in Hr as [[Hnight _] Hin].
  assert (valid (Sleep.date row)) as Hv.
  { rewrite <- Hnight. rewrite Forall_forall in Hvalid.
    pose proof (Hvalid r Hin) as Hstart.
    rewrite Hrecords in Hin. apply list_elem_of_omap in Hin as (record & _ & Hacc).
    unfold Sleep.accepted in Hacc.
    destruct (Sleep.try_body strptime record) as [e|[r'|]] eqn:E; [done| |done].
    injection Hacc as ->. by eapply accepted_night_date_valid. }
  exists (isoformat (Sleep.date row)), (Sleep.date row).
  unfold SleepScript.serializable_entry.
  split; [by rewrite lookup_insert_eq|]. split; [by apply Hiso|].
  intros _. eexists _, _. split.
  - rewrite lookup_insert_ne by done. by rewrite lookup_insert_eq.
  - do 2 (rewrite lookup_insert_ne by done). by rewrite lookup_insert_eq.
Qed.

End SleepToCorrection.

Lemma sleep_summary_is_correctable_witness :
  let root := [Sleep.after_midnight; Sleep.morning; Sleep.afternoon_nap] in
  match Sleep.get_sleep_records strptime_fixed "export.xml" root with
  | (inr records, _) =>
      match Sleep.aggregate_sleep_by_night records with
      | inr rows =>
          length rows = 2%nat /\
          Forall (Correct.correctable Correct.iso_date)
            (SleepScript.serializable_entry <$> rows)
      | inl _ => False
      end
  | (inl _, _) => False
  end.
Proof.
  intros root.
  destruct (Sleep.get_sleep_records strptime_fixed "export.xml" root)
    as [[e|records] out] eqn:E; [vm_compute in E; discriminate E|].
  destruct (Sleep.aggregate_sleep_by_night records) as [e|rows] eqn:Er.
  { pose proof E as E'. vm_compute in E'. injection E' as <- _.
    vm_compute in Er. discriminate Er. }
  split.
  - pose proof E as E'. vm_compute in E'. injection E' as <- _.
    vm_compute in Er. injection Er as <-. reflexivity.
  - apply (sleep_summary_is_correctable strptime_fixed Correct.iso_date "export.xml"
             root records out rows); [apply iso_date_isoformat|exact E| |exact Er].
    pose proof E as E'. vm_compute in E'. injection E' as <- _.
    repeat (apply Forall_cons_2; [vm_compute; intuition discriminate|]).
    apply Forall_nil_2.
Defined.

(** ** What the correction engine reports *)

Section ReportFacts.

Import Correct Report.

Variable fromisoformat : string -> option date.

Hypothesis cutoff_parses : fromisoformat "2024-11-20" = Some cutoff.

(** The two ways through the body of the loop. *)
Lemma correct_entry_cases (r : row) :
  correctable fromisoformat r ->
  exists d, row_date fromisoformat r = Some d /\
    ((PyDate.le cutoff d /\ exists a b,
        r !! "asleep" = Some (JNum a) /\ r !! "in_bed" = Some (JNum b) /\
        correct_entry fromisoformat cutoff r =
        inr (<["asleep" := JNum (py_max0 (a - b))]> r, true)) \/
     (~ PyDate.le cutoff d /\ correct_entry fromisoformat cutoff r = inr (r, false))).
Proof.
  intros (s & d & Hd & Hp & Hn). exists d.
  unfold row_date, correct_entry, getitem, parse_date. rewrite Hd. cbn [bind].
  rewrite Hp. cbn [bind]. split; [done|].
  destruct (decide (PyDate.le cutoff d)) as [Hle|Hle]; [left|right; done].
  destruct (Hn Hle) as (a & b & Ha & Hb). rewrite Ha, Hb. cbn [bind py_sub].
  split; [done|]. by exists a, b.
Qed.

Lemma correct_entries_count (data : list row) :
  Forall (correctable fromisoformat) data ->
  exists out,
    correct_entries fromisoformat cutoff data =
      inr (out, length (filter (fun r => from_cutoff fromisoformat r = true) data)) /\
    length out = length data.
Proof.
  induction 1 as [|r data Hr _ (out & IH & Hlen)]; cbn [correct_entries].
  { by exists []. }
  rewrite IH, filter_cons.
  destruct (correct_entry_cases r Hr) as (d & Hd & Hcase).
  assert (from_cutoff fromisoformat r = bool_decide (PyDate.le cutoff d)) as ->.
  { unfold from_cutoff. by rewrite Hd. }
  destruct Hcase as [(Hle & a & b & _ & _ & ->)|(Hle & ->)]; cbn [bind fst snd].
  - rewrite bool_decide_eq_true_2 by done. rewrite decide_True by done.
    eexists. split; [done|]. cbn. by rewrite Hlen.
  - rewrite bool_decide_eq_false_2 by done. rewrite decide_False by done.
    eexists. split; [done|]. cbn. by rewrite Hlen.
Qed.

(** X18. On rows it can process, the correction returns as many rows as it
    was given and prints two lines: the number of rows, and the number of rows
    dated from the cutoff on, whether their [asleep] changed or not. *)
Theorem correction_counts_rows_from_cutoff (data : list row) (w : world) :
  Forall (correctable fromisoformat) data ->
  exists out,
    correct_sleep_data fromisoformat data "2024-11-20" w =
      (inr out,
       World (fs w) (stdin w)
         (stdout w ++
            [ProcessedRecords (length data);
             AppliedCorrectionTo
               (length (filter (fun r => from_cutoff fromisoformat r = true) data))
               "2024-11-20"])) /\
    length out = length data.
Proof.
  intros Hd. destruct (correct_entries_count data Hd) as (out & He & Hlen).
  exists out. split; [|done].
  unfold correct_sleep_data, mbind, lift, parse_date, print, ret.
  rewrite cutoff_parses, He. cbn [fst snd fs stdin stdout].
  by rewrite <- app_assoc.
Qed.

(** With one row for each date, the dictionary of the analysis gives each row
    back under its date. *)
Lemma original_dict_own (rows : list row) (dict : gmap date row) :
  Forall (correctable fromisoformat) rows ->
  NoDup (row_date fromisoformat <$> rows) ->
  original_dict fromisoformat rows ∅ = inr dict ->
  forall r d, r ∈ rows -> row_date fromisoformat r = Some d -> dict !! d = Some r.
Proof.
  intros Hrows Hnodup Hdict r d Hin Hd.
  destruct (original_dict_spec fromisoformat rows ∅ Hrows) as (dict' & Hd' & Hfrom & _ & Hall).
  rewrite Hdict in Hd'. injection Hd' as <-.
  assert (exists s, r !! "date" = Some (JStr s) /\ fromisoformat s = Some d) as (s & Hs & Hp).
  { unfold row_date in Hd. destruct (r !! "date") as [[| |s|]|]; try done. eauto. }
  destruct (Hall r s d Hin Hs Hp) as [r0 Hr0]. rewrite Hr0. f_equal.
  destruct (Hfrom d r0 Hr0) as [Hacc|(Hin0 & s0 & Hs0 & Hp0)]; [by rewrite lookup_empty in Hacc|].
  assert (row_date fromisoformat r0 = Some d) as Hd0.
  { unfold row_date. by rewrite Hs0. }
  apply list_elem_of_lookup in Hin as [i Hi], Hin0 as [j Hj].
  assert (i = j) as ->.
  { eapply (NoDup_lookup _ i j (Some d)); [done|..]; rewrite list_lookup_fmap.
    - by rewrite Hi; cbn; rewrite Hd.
    - by rewrite Hj; cbn; rewrite Hd0. }
  congruence.
Qed.

(** The loop of the analysis on the corrected rows of some of the rows. *)
Lemma analyze_loop_exact (rows : list row) (dict : gmap date row) :
  (forall r d, r ∈ rows -> row_date fromisoformat r = Some d -> dict !! d = Some r) ->
  forall (rs out : list row) (n affected : nat) (total : Qc),
    rs ⊆ rows ->
    Forall (correctable fromisoformat) rs ->
    correct_entries fromisoformat cutoff rs = inr (out, n) ->
    analyze_loop fromisoformat cutoff dict out affected total =
    inr ((affected + length (changed fromisoformat rs))%nat,
         foldl (fun acc r => (acc + reduction fromisoformat r)%Qc) total
           (changed fromisoformat rs)).
Proof.
  intros Hdict rs. induction rs as [|r rs IH]; intros out n affected total Hsub Hrs Hc.
  { cbn in Hc. injection Hc as <- <-. cbn. by rewrite Nat.add_0_r. }
  apply Forall_cons_1 in Hrs as [Hr Hrs].
  assert (r ∈ rows) as Hin by (apply Hsub; left).
  assert (rs ⊆ rows) as Hsub' by (intros x Hx; apply Hsub; by right).
  cbn [correct_entries] in Hc.
  destruct (correct_entries fromisoformat cutoff rs) as [e|[out' n']] eqn:Ers.
  { by destruct (correct_entry fromisoformat cutoff r). }
  destruct (correct_entry_cases r Hr) as (d & Hd & Hcase).
  assert (exists s, r !! "date" = Some (JStr s) /\ fromisoformat s = Some d) as (s & Hs & Hp).
  { unfold row_date in Hd. destruct (r !! "date") as [[| |s|]|]; try done. eauto. }
  destruct Hcase as [(Hle & a & b & Ha & Hb & He)|(Hle & He)];
    rewrite He in Hc; cbn [bind fst snd] in Hc; injection Hc as <- <-;
    cbn [analyze_loop]; unfold getitem, parse_date.
  - assert (reduction fromisoformat r = a - py_max0 (a - b))%Qc as Hred.
    { unfold reduction, from_cutoff.
      by rewrite Ha, Hb, Hd, bool_decide_eq_true_2. }
    rewrite lookup_insert_ne by done. rewrite Hs. cbn [bind]. rewrite Hp. cbn [bind].
    rewrite decide_True by done. rewrite (Hdict r d Hin Hd). cbn [bind].
    rewrite Ha, lookup_insert_eq. cbn [bind].
    unfold changed. rewrite filter_cons. fold (changed fromisoformat rs).
    destruct (decide (reduction fromisoformat r <> 0%Qc)) as [Hnz|Hz].
    + rewrite decide_True.
      2:{ intros [= Heq]. apply Hnz. rewrite Hred, <- Heq. ring. }
      cbn [py_sub bind]. rewrite (IH out' n' _ _ Hsub' Hrs eq_refl).
      cbn [length foldl]. rewrite Hred. f_equal. f_equal. lia.
    + rewrite decide_False.
      2:{ intros Hne. apply Hz. intros Hzero. apply Hne. f_equal.
          rewrite Hred in Hzero.
          rewrite <- (Qcplus_0_l (py_max0 (a - b))), <- Hzero. ring. }
      by apply (IH out' n').
  - assert (reduction fromisoformat r = 0%Qc) as Hred.
    { unfold reduction, from_cutoff. rewrite Hd, bool_decide_eq_false_2 by done.
      by repeat case_match. }
    rewrite Hs. cbn [bind]. rewrite Hp. cbn [bind].
    rewrite decide_False by done.
    unfold changed. rewrite filter_cons. fold (changed fromisoformat rs).
    rewrite decide_False by (intros Hne; by apply Hne).
    by apply (IH out' n').
Qed.

(** X19. With one row for each date, the analysis reports the rows whose
    [asleep] the correction changed: their number, and the sum and the mean
    of what was taken off them; or that no row was affected. It touches
    neither the files nor the input. *)
Theorem analysis_reports_reductions (rows out : list row) (n : nat) (w : world) :
  Forall (correctable fromisoformat) rows ->
  NoDup (row_date fromisoformat <$> rows) ->
  correct_entries fromisoformat cutoff rows = inr (out, n) ->
  analyze_corrections fromisoformat rows out w =
  (inr tt, World (fs w) (stdin w) (stdout w ++ analysis_lines fromisoformat rows)).
Proof.
  intros Hrows Hnodup Hc.
  destruct (original_dict_spec fromisoformat rows ∅ Hrows) as (dict & Hdict & _).
  pose proof (original_dict_own rows dict Hrows Hnodup Hdict) as Hown.
  pose proof (analyze_loop_exact rows dict Hown rows out n 0%nat 0%Qc
                (fun x Hx => Hx) Hrows Hc) as Hloop.
  unfold analyze_corrections, mbind, lift, parse_date.
  rewrite cutoff_parses, Hdict, Hloop. cbn [fst snd Nat.add].
  unfold analysis_lines.
  destruct (decide (0 < length (changed fromisoformat rows))%nat).
  - unfold print. cbn [fst snd fs stdin stdout]. by rewrite <- !app_assoc.
  - done.
Qed.

End ReportFacts.

Lemma correction_counts_rows_from_cutoff_witness :
  let data := [Correct.summary_row "2024-11-19" (Qc_of_Z 7) (Qc_of_Z 8);
               Correct.summary_row "2024-11-20" (Qc_of_Z 7) (Qc_of_Z 1);
               Correct.summary_row "2024-11-21" (Qc_of_Z 5) (Qc_of_Z 0)] in
  let w := Correct.world_with data [] in
  (exists out,
     Correct.correct_sleep_data Correct.iso_date data "2024-11-20" w =
       (inr out,
        Correct.World (Correct.fs w) (Correct.stdin w)
          (Correct.stdout w ++
             [Correct.ProcessedRecords (length data);
              Correct.AppliedCorrectionTo
                (length (filter (fun r => Report.from_cutoff Correct.iso_date r = true) data))
                "2024-11-20"])) /\
     length out = length data) /\
  length (filter (fun r => Report.from_cutoff Correct.iso_date r = true) data) = 2%nat.
Proof.
  intros data w. split; [|vm_compute; reflexivity].
  apply (correction_counts_rows_from_cutoff Correct.iso_date eq_refl data w).
  repeat apply Forall_cons_2; [..|apply Forall_nil_2].
  - exists "2024-11-19"%string, (Date 2024 11 19). split_and!; [done..|].
    intros _. exists (Qc_of_Z 7), (Qc_of_Z 8). done.
  - exists "2024-11-20"%string, (Date 2024 11 20). split_and!; [done..|].
    intros _. exists (Qc_of_Z 7), (Qc_of_Z 1). done.
  - exists "2024-11-21"%string, (Date 2024 11 21). split_and!; [done..|].
    intros _. exists (Qc_of_Z 5), (Qc_of_Z 0). done.
Defined.

(** Three rows: one before the cutoff, one the correction changes and one it
    leaves as it is, since nothing was in bed. *)
Lemma analysis_reports_reductions_witness :
  let rows := [Correct.summary_row "2024-11-19" (Qc_of_Z 7) (Qc_of_Z 8);
               Correct.summary_row "2024-11-20" (Qc_of_Z 7) (Qc_of_Z 1);
               Correct.summary_row "2024-11-21" (Qc_of_Z 5) (Qc_of_Z 0)] in
  let w := Correct.world_with rows [] in
  exists out n,
    Correct.correct_entries Correct.iso_date Correct.cutoff rows = inr (out, n) /\
    Correct.analyze_corrections Correct.iso_date rows out w =
      (inr tt,
       Correct.World (Correct.fs w) (Correct.stdin w)
         (Correct.stdout w ++ Report.analysis_lines Correct.iso_date rows)) /\
    length (Report.changed Correct.iso_date rows) = 1%nat.
Proof.
  intros rows w.
  destruct (Correct.correct_entries Correct.iso_date Correct.cutoff rows)
    as [e|[out n]] eqn:E; [vm_compute in E; discriminate E|].
  exists out, n. split; [done|]. split; [|vm_compute; reflexivity].
  apply (analysis_reports_reductions Correct.iso_date eq_refl rows out n w).
  - repeat apply Forall_cons_2; [..|apply Forall_nil_2].
    + exists "2024-11-19"%string, (Date 2024 11 19). split_and!; [done..|].
      intros _. exists (Qc_of_Z 7), (Qc_of_Z 8). done.
    + exists "2024-11-20"%string, (Date 2024 11 20). split_and!; [done..|].
      intros _. exists (Qc_of_Z 7), (Qc_of_Z 1). done.
    + exists "2024-11-21"%string, (Date 2024 11 21). split_and!; [done..|].
      intros _. exists (Qc_of_Z 5), (Qc_of_Z 0). done.
  - apply (bool_decide_eq_true_1 _). vm_compute. reflexivity.
  - exact E.
Defined.

(** ** The order of the rows of the sleep and heart-rate summaries *)

(** In a list sorted by a key without a repeated key, an earlier element has
    a strictly smaller key. *)
Lemma sorted_by_date_lookup {A} (key : A -> date) (l : list A) :
  StronglySorted (fun x y => PyDate.le (key x) (key y)) l ->
  NoDup (key <$> l) ->
  forall (i j : nat) (x y : A),
    l !! i = Some x -> l !! j = Some y -> (i < j)%nat -> PyDate.lt (key x) (key y).
Proof.
  induction 1 as [|a l Hs IH Ha]; intros Hn i j x y Hi Hj Hij; [done|].
  rewrite fmap_cons in Hn. apply NoDup_cons in Hn as [Hnotin Hn].
  destruct j as [|j]; [lia|]. cbn in Hj.
  destruct i as [|i].
  - cbn in Hi. injection Hi as <-.
    assert (y ∈ l) as Hy by (by eapply list_elem_of_lookup_2).
    split.
    + rewrite Forall_forall in Ha. by apply Ha.
    + intros Heq. apply Hnotin. rewrite Heq. apply list_elem_of_fmap. eauto.
  - cbn in Hi. apply (IH Hn i j); [done..|lia].
Qed.

Section SleepOrderFacts.

Import Sleep.

#[local] Instance sleep_by_date_trans : Transitive by_date.
Proof. intros x y z. unfold by_date. apply date_le_trans. Qed.

#[local] Instance sleep_by_date_total : Total by_date.
Proof. intros x y. unfold by_date. apply date_le_total. Qed.

(** X20. The rows the night aggregation returns are in strictly ascending
    date order, so one row a night, and the nights that have a row are those
    of the records that are not naps. *)
Theorem night_rows_ascending (records : list sleep_record) (rows : list night_row) :
  aggregate_sleep_by_night records = inr rows ->
  (forall (i j : nat) (x y : night_row),
     rows !! i = Some x -> rows !! j = Some y -> (i < j)%nat ->
     PyDate.lt (date x) (date y)) /\
  (forall d, (exists row, row ∈ rows /\ date row = d) <->
             (exists r, r ∈ records /\ night_date r = d /\ is_nap r = false)).
Proof.
  intros Hrows. split.
  - unfold aggregate_sleep_by_night in Hrows.
    destruct (aggregate_loop records ∅) as [e|nights]; [done|].
    cbn [bind] in Hrows. injection Hrows as <-.
    apply (sorted_by_date_lookup date).
    + apply (StronglySorted_merge_sort by_date).
    + rewrite merge_sort_Permutation, <- list_fmap_compose.
      apply (NoDup_fst_map_to_list nights).
  - intros d. split.
    + intros (row & Hin & <-).
      apply (elem_of_aggregate_sleep records rows row Hrows) in Hin as (on & Hon & Hne & _).
      destruct on as [|r on]; [done|].
      assert (r ∈ night_records (date row) records) as Hr by (rewrite Hon; left).
      apply list_elem_of_filter in Hr as [[Hnight Hnap] Hin]. eauto.
    + intros (r & Hin & <- & Hnap).
      assert (r ∈ night_records (night_date r) records) as Hr.
      { by apply list_elem_of_filter. }
      exists (NightRow (night_date r)
                (accumulate default_night (night_records (night_date r) records))).
      split; [|done].
      apply (elem_of_aggregate_sleep records rows _ Hrows). cbn [date data].
      eexists. split; [done|]. split; [|done].
      intros Hnil. rewrite Hnil in Hr. by apply not_elem_of_nil in Hr.
Qed.

End SleepOrderFacts.

Section RestingHROrderFacts.

Import RestingHR.

#[local] Instance rhr_by_date_trans : Transitive by_date.
Proof. intros x y z. unfold by_date. apply date_le_trans. Qed.

#[local] Instance rhr_by_date_total : Total by_date.
Proof. intros x y. unfold by_date. apply date_le_total. Qed.

Variable statistics_mean : list pyfloat -> pyfloat.
Variable round1 : pyfloat -> pyfloat.

Lemma make_row_date (p : PyDate.date * day_data) (row : day_row) :
  make_row statistics_mean round1 p = Some row -> date row = p.1.
Proof. unfold make_row. case_decide; [|done]. by intros [= <-]. Qed.

(** Keeping some entries of a list keeps its keys distinct. *)
Lemma NoDup_omap_key {A B} (key : A -> PyDate.date) (key' : B -> PyDate.date)
    (f : A -> option B) (l : list A) :
  (forall a b, f a = Some b -> key' b = key a) ->
  NoDup (key <$> l) -> NoDup (key' <$> omap f l).
Proof.
  intros Hkey. induction l as [|a l IH]; intros Hn; [constructor|].
  rewrite fmap_cons in Hn. apply NoDup_cons in Hn as [Hnotin Hn].
  cbn [omap list_omap]. destruct (f a) as [b|] eqn:E; [|by apply IH].
  fold (omap f l). rewrite fmap_cons. apply NoDup_cons. split; [|by apply IH].
  intros Hin. apply Hnotin. rewrite <- (Hkey a b E).
  apply list_elem_of_fmap in Hin as (b' & -> & Hb').
  apply list_elem_of_omap in Hb' as (a' & Ha' & E').
  rewrite (Hkey a' b' E'). apply list_elem_of_fmap. eauto.
Qed.

(** X21. The rows of the daily heart-rate aggregation are in strictly
    ascending date order: an earlier row has an earlier date, so no date has
    two rows. *)
Theorem resting_hr_rows_ascending (records : list rhr_record)
    (i j : nat) (x y : day_row) :
  aggregate_by_day statistics_mean round1 records !! i = Some x ->
  aggregate_by_day statistics_mean round1 records !! j = Some y ->
  (i < j)%nat ->
  PyDate.lt (date x) (date y).
Proof.
  apply (sorted_by_date_lookup date).
  - unfold aggregate_by_day. apply (StronglySorted_merge_sort by_date).
  - unfold aggregate_by_day. rewrite merge_sort_Permutation.
    apply (NoDup_omap_key fst date (make_row statistics_mean round1));
      [apply make_row_date|].
    apply (NoDup_fst_map_to_list (foldl add_record ∅ records)).
Qed.

End RestingHROrderFacts.

Lemma night_rows_ascending_witness :
  exists rows x y,
    Sleep.aggregate_sleep_by_night Sleep.example_records = inr rows /\
    rows !! 0%nat = Some x /\ rows !! 1%nat = Some y /\
    PyDate.lt (Sleep.date x) (Sleep.date y).
Proof.
  destruct (Sleep.aggregate_sleep_by_night Sleep.example_records) as [e|rows] eqn:E;
    [vm_compute in E; discriminate E|].
  destruct (rows !! 0%nat) as [x|] eqn:E0.
  2:{ vm_compute in E. injection E as <-. discriminate E0. }
  destruct (rows !! 1%nat) as [y|] eqn:E1.
  2:{ vm_compute in E. injection E as <-. discriminate E1. }
  exists rows, x, y. split_and!; [done..|].
  apply (proj1 (night_rows_ascending Sleep.example_records rows E) 0%nat 1%nat x y E0 E1).
  lia.
Defined.

Lemma resting_hr_rows_ascending_witness :
  let records := [RestingHR.reading (Date 2024 1 2) (Finite (Qc_of_Z 55)) "Watch";
                  RestingHR.reading (Date 2024 1 1) (Finite (Qc_of_Z 60)) "Watch"] in
  let rows := RestingHR.aggregate_by_day
                RestingHR.exact_statistics_mean RestingHR.exact_py_round1 records in
  exists x y,
    rows !! 0%nat = Some x /\ rows !! 1%nat = Some y /\
    PyDate.lt (RestingHR.date x) (RestingHR.date y).
Proof.
  intros records rows.
  destruct (rows !! 0%nat) as [x|] eqn:E0;
    [|vm_compute in E0; discriminate E0].
  destruct (rows !! 1%nat) as [y|] eqn:E1;
    [|vm_compute in E1; discriminate E1].
  exists x, y. split_and!; [done..|].
  apply (resting_hr_rows_ascending RestingHR.exact_statistics_mean
           RestingHR.exact_py_round1 records 0%nat 1%nat x y E0 E1). lia.
Defined.

(** ** From extraction to summary: what every row holds *)

Section StepPipelineFacts.

Variable strptime : string -> option datetime.
Variable float_of_string : string -> option pyfloat.

(** Whatever the loop returns, it is the accepted records in order. *)
Lemma step_extract_loop_inr (records : list element)
    (step_records res : list Steps.step_record) (out out' : list Steps.line) :
  Steps.extract_loop strptime float_of_string records step_records out = (inr res, out') ->
  res = step_records ++ omap (Steps.accepted strptime float_of_string) records.
Proof.
  revert step_records out.
  induction records as [|record records IH]; intros step_records out; cbn [Steps.extract_loop].
  { intros [= <- _]. by rewrite app_nil_r. }
  cbn [omap list_omap]. unfold Steps.accepted at 1.
  destruct (Steps.try_body strptime float_of_string record) as [e|[r|]].
  - destruct e; try done; apply IH.
  - intros H%IH. by rewrite <- app_assoc in H.
  - apply IH.
Qed.

Lemma step_accepted_value (record : element) (r : Steps.step_record) :
  Steps.try_body strptime float_of_string record = inr (Some r) -> 1 <= Steps.value r.
Proof.
  unfold Steps.try_body.
  destruct (float_value float_of_string (get record "value")) as [e|f]; [done|].
  cbn [bind]. destruct (py_int f) as [e|v]; [done|]. cbn [bind].
  destruct (parse_datetime strptime (get record "startDate")) as [e|s]; [done|].
  destruct (parse_datetime strptime (get record "endDate")) as [e|t]; [done|].
  cbn [bind]. case_decide; [done|]. intros [= <-]. cbn. lia.
Qed.

Lemma sum_values_at_least (records : list Steps.step_record) :
  Forall (fun r => 1 <= Steps.value r) records ->
  Z.of_nat (length records) <= Steps.sum_values records.
Proof.
  unfold Steps.sum_values.
  induction 1 as [|r records Hr _ IH]; [done|].
  rewrite fmap_cons. cbn [foldr length]. lia.
Qed.

(** X22. No day of the step summary is empty: for records returned by the
    extraction, every row of the daily aggregation stands for at least one
    record and counts at least one step for each of its records. *)
Theorem extracted_days_have_steps (xml_path : string) (root : list element)
    (records : list Steps.step_record) (out : list Steps.line) (row : Steps.day_row) :
  Steps.get_step_count_records strptime float_of_string xml_path root = (inr records, out) ->
  row ∈ Steps.aggregate_by_day records ->
  1 <= Z.of_nat (length (Steps.records_on (Steps.date row) records)) <= Steps.steps row.
Proof.
  intros Hget Hrow.
  assert (Forall (fun r => 1 <= Steps.value r) records) as Hvalues.
  { unfold Steps.get_step_count_records in Hget.
    destruct (Steps.extract_loop strptime float_of_string _ [] _) as [[e|res] out'] eqn:E;
      [done|].
    apply step_extract_loop_inr in E. injection Hget as <- _. subst res.
    apply Forall_forall. intros r Hr.
    apply list_elem_of_omap in Hr as (record & _ & Hacc).
    unfold Steps.accepted in Hacc.
    destruct (Steps.try_body strptime float_of_string record) as [e|[r'|]] eqn:Er;
      [done| |done].
    injection Hacc as ->. by eapply step_accepted_value. }
  apply elem_of_aggregate_by_day in Hrow. rewrite days_lookup in Hrow.
  destruct (Steps.records_on (Steps.date row) records) as [|r on] eqn:E; [done|].
  injection Hrow as Hsteps _.
  assert (Forall (fun r => 1 <= Steps.value r) (r :: on)) as Hon.
  { rewrite <- E. apply Forall_forall. intros x Hx.
    apply list_elem_of_filter in Hx as [_ Hx].
    rewrite Forall_forall in Hvalues. by apply Hvalues. }
  pose proof (sum_values_at_least (r :: on) Hon) as Hsum.
  rewrite <- Hsteps. cbn [length] in *. lia.
Qed.

End StepPipelineFacts.

Lemma extracted_days_have_steps_witness :
  match Steps.get_step_count_records strptime_fixed float_simple "export.xml"
          Steps.scenario with
  | (inr records, _) =>
      forall row, row ∈ Steps.aggregate_by_day records ->
        1 <= Z.of_nat (length (Steps.records_on (Steps.date row) records))
          <= Steps.steps row
  | (inl _, _) => False
  end.
Proof.
  destruct (Steps.get_step_count_records strptime_fixed float_simple "export.xml"
              Steps.scenario) as [[e|records] out] eqn:E;
    [vm_compute in E; discriminate E|].
  intros row.
  exact (extracted_days_have_steps strptime_fixed float_simple "export.xml"
           Steps.scenario records out row E).
Defined.

Section SleepPipelineFacts.

Import Sleep.

Variable strptime : string -> option datetime.

Lemma Qc_sum_bounds (f : sleep_record -> Qc) (lo hi : Qc) (l : list sleep_record) :
  Forall (fun r => lo <= f r /\ f r <= hi)%Qc l ->
  (Qc_of_Z (Z.of_nat (length l)) * lo <= foldr (fun r acc => f r + acc) 0 l /\
   foldr (fun r acc => f r + acc) 0 l <= Qc_of_Z (Z.of_nat (length l)) * hi)%Qc.
Proof.
  induction 1 as [|r l [Hlo Hhi] _ [IHlo IHhi]]; cbn [length foldr].
  - change (Z.of_nat 0) with 0. rewrite Z2Qc_inj_0, !Qcmult_0_l.
    split; apply Qcle_refl.
  - set (s := foldr (fun r acc => f r + acc)%Qc 0%Qc l) in *.
    rewrite Nat2Z.inj_succ. unfold Z.succ.
    rewrite Z2Qc_inj_add, Z2Qc_inj_1.
    rewrite !Qcmult_plus_distr_l, !Qcmult_1_l. split.
    + rewrite (Qcplus_comm _ lo). by apply Qcplus_le_compat.
    + rewrite (Qcplus_comm _ hi). by apply Qcplus_le_compat.
Qed.

(** X23. No night of the sleep summary is empty: for records returned by the
    extraction, every row of the night aggregation stands for at least one
    record that is not a nap, its [total] is at least six minutes and at most
    twenty-four hours for each of these records, and none of its three
    categories is negative. (These bounds do not depend on the sums being
    exact: they also hold when every addition rounds to the nearest float.) *)
Theorem extracted_nights_have_sleep (xml_path : string) (root : list element)
    (records : list sleep_record) (out : list line)
    (rows : list night_row) (row : night_row) :
  get_sleep_records strptime xml_path root = (inr records, out) ->
  aggregate_sleep_by_night records = inr rows ->
  row ∈ rows ->
  let n := length (night_records (date row) records) in
  (1 <= n)%nat /\
  (Q2Qc (1 # 10) <= total (data row) /\
   total (data row) <= Qc_of_Z (Z.of_nat n) * Qc_of_Z 24)%Qc /\
  (0 <= asleep (data row) /\ 0 <= in_bed (data row) /\ 0 <= unspecified (data row))%Qc.
Proof.
  intros Hget Hrows Hrow n.
  assert (Forall (fun r => Q2Qc (1 # 10) <= duration r /\ duration r <= Qc_of_Z 24)%Qc
            records) as Hdur.
  { unfold get_sleep_records in Hget.
    destruct (extract_loop strptime _ [] _) as [[e|res] out'] eqn:E; [done|].
    apply sleep_extract_loop_inr in E. injection Hget as <- _. subst res.
    apply Forall_forall. intros r Hr.
    apply list_elem_of_omap in Hr as (record & _ & Hacc).
    unfold accepted in Hacc.
    destruct (try_body strptime record) as [e|[r'|]] eqn:Er; [done| |done].
    injection Hacc as ->.
    by destruct (sleep_try_body_inv strptime record r Er) as (_ & _ & _ & _ & _ & ? & _). }
  apply (elem_of_aggregate_sleep records rows row Hrows) in Hrow as (on & Hon & Hne & Hdata).
  subst n. rewrite Hon, Hdata.
  assert (Forall (fun r => Q2Qc (1 # 10) <= duration r /\ duration r <= Qc_of_Z 24)%Qc on)
    as Hon_dur.
  { rewrite <- Hon. apply Forall_forall. intros x Hx.
    apply list_elem_of_filter in Hx as [_ Hx].
    rewrite Forall_forall in Hdur. by apply Hdur. }
  unfold accumulate, default_night. cbn [asleep in_bed unspecified total].
  rewrite !Qcplus_0_l.
  assert (1 <= length on)%nat as Hlen by (destruct on; [done|cbn; lia]).
  split; [exact Hlen|].
  split.
  { destruct (Qc_sum_bounds duration _ _ on Hon_dur) as [Hlo Hhi]. split; [|exact Hhi].
    eapply Qcle_trans; [|exact Hlo].
    rewrite <- (Qcmult_1_l (Q2Qc (1 # 10))) at 1.
    apply Qcmult_le_compat_r; [|done].
    rewrite <- Z2Qc_inj_1. apply (proj1 (Z2Qc_inj_le 1 (Z.of_nat (length on)))). lia. }
  assert (forall c, 0 <= duration_in c on)%Qc as Hcat.
  { intros c.
    assert (Forall (fun r => 0 <= in_category c r /\ in_category c r <= Qc_of_Z 24)%Qc on)
      as Hc.
    { eapply Forall_impl; [exact Hon_dur|]. intros r [Hlo Hhi]. cbn beta.
      assert (0 <= duration r)%Qc as Hpos.
      { eapply Qcle_trans; [|exact Hlo]. done. }
      unfold in_category. destruct (value r); [case_decide|]; split; done. }
    destruct (Qc_sum_bounds (in_category c) _ _ on Hc) as [Hlo _].
    by rewrite Qcmult_0_r in Hlo. }
  split_and!; apply Hcat.
Qed.

End SleepPipelineFacts.

Lemma extracted_nights_have_sleep_witness :
  let root := [Sleep.after_midnight; Sleep.morning; Sleep.afternoon_nap] in
  match Sleep.get_sleep_records strptime_fixed "export.xml" root with
  | (inr records, _) =>
      match Sleep.aggregate_sleep_by_night records with
      | inr rows =>
          Forall (fun row => (Q2Qc (1 # 10) <= Sleep.total (Sleep.data row))%Qc) rows /\
          length rows = 2%nat
      | inl _ => False
      end
  | (inl _, _) => False
  end.
Proof.
  intros root.
  destruct (Sleep.get_sleep_records strptime_fixed "export.xml" root)
    as [[e|records] out] eqn:E; [vm_compute in E; discriminate E|].
  destruct (Sleep.aggregate_sleep_by_night records) as [e|rows] eqn:Er.
  { pose proof E as E'. vm_compute in E'. injection E' as <- _.
    vm_compute in Er. discriminate Er. }
  split.
  - apply Forall_forall. intros row Hrow.
    pose proof (extracted_nights_have_sleep strptime_fixed "export.xml" root records out
                  rows row E Er Hrow) as H.
    cbv zeta in H. destruct H as (_ & [Hlo _] & _). exact Hlo.
  - pose proof E as E'. vm_compute in E'. injection E' as <- _.
    vm_compute in Er. injection Er as <-. reflexivity.
Defined.

(** ** The correction engine: unreadable input and the size of the correction *)

Section EngineEdgeFacts.

Import Correct.

Variable fromisoformat : string -> option date.

(** X24. A summary file that is not a JSON document stops the engine at
    loading: the run prints the path it loads from and the error, and leaves
    the files and the input as they were. *)
Theorem main_on_unreadable_summary (w : world) (bytes : string) :
  files (fs w) !! "data/sleep_data.json" = Some (Raw bytes) ->
  main fromisoformat w =
  World (fs w) (stdin w)
    (stdout w ++ [LoadingDataFrom "data/sleep_data.json"; AnErrorOccurred ValueError]).
Proof.
  intros Hraw.
  assert (load_sleep_data "data" "sleep_data.json" w =
          (inl ValueError,
           World (fs w) (stdin w) (stdout w ++ [LoadingDataFrom "data/sleep_data.json"])))
    as Hload.
  { unfold load_sleep_data, mbind, path_exists, raise, print, json_load, ret.
    change (path_join "data" "sleep_data.json") with "data/sleep_data.json".
    cbn [fst snd fs stdin stdout].
    rewrite bool_decide_eq_true_2 by (right; rewrite Hraw; eauto).
    cbn [negb fs]. by rewrite Hraw. }
  unfold main, main_body. rewrite (mbind_inl _ _ _ _ _ Hload).
  unfold print. cbn [fst snd fs stdin stdout]. by rewrite <- app_assoc.
Qed.

Lemma py_max0_bounds (a b : Qc) :
  (0 <= a)%Qc -> (0 <= b)%Qc ->
  (0 <= py_max0 (a - b) /\ py_max0 (a - b) <= a)%Qc.
Proof.
  intros Ha Hb. unfold py_max0. case_decide as Hpos.
  - split; [by apply Qclt_le_weak|].
    rewrite <- (Qcplus_0_r a) at 2. unfold Qcminus.
    apply Qcplus_le_compat; [apply Qcle_refl|].
    apply (Qcopp_le_compat 0 b) in Hb. done.
  - split; [apply Qcle_refl|done].
Qed.

(** X25. On rows whose [asleep] and [in_bed] are non-negative numbers, the
    correction never raises [asleep] and never makes it negative: each
    corrected row has an [asleep] between [0] and the one it had. *)
Theorem correction_never_increases_asleep (data out : list row) (n : nat) :
  correct_entries fromisoformat cutoff data = inr (out, n) ->
  Forall (fun r => exists a b, r !! "asleep" = Some (JNum a) /\
                     r !! "in_bed" = Some (JNum b) /\ (0 <= a)%Qc /\ (0 <= b)%Qc) data ->
  Forall2 (fun r r' => exists a v, r !! "asleep" = Some (JNum a) /\
                         r' !! "asleep" = Some (JNum v) /\ (0 <= v)%Qc /\ (v <= a)%Qc)
    data out.
Proof.
  intros Hc Hdata. revert out n Hc.
  induction Hdata as [|r data (a & b & Ha & Hb & Ha0 & Hb0) _ IH]; intros out n Hc.
  { cbn in Hc. injection Hc as <- _. constructor. }
  cbn [correct_entries] in Hc.
  destruct (correct_entry fromisoformat cutoff r) as [e|[r' c]] eqn:Er; [done|].
  destruct (correct_entries fromisoformat cutoff data) as [e|[out' n']] eqn:Ers; [done|].
  cbn [bind fst snd] in Hc. injection Hc as <- _.
  constructor; [|by eapply IH].
  exists a. unfold correct_entry, getitem in Er.
  destruct (r !! "date") as [dv|]; [|done]. cbn [bind] in Er.
  destruct (parse_date fromisoformat dv) as [e|d]; [done|]. cbn [bind] in Er.
  case_decide.
  - rewrite Ha, Hb in Er. cbn [bind py_sub] in Er. injection Er as <- _.
    exists (py_max0 (a - b)). rewrite lookup_insert_eq.
    destruct (py_max0_bounds a b Ha0 Hb0). done.
  - injection Er as <- _. exists a. split_and!; [done..|apply Qcle_refl].
Qed.

End EngineEdgeFacts.

Lemma main_on_unreadable_summary_witness :
  let w := Correct.World
             (Correct.Fs {["data"%string]}
                {["data/sleep_data.json"%string := Correct.Raw "not json"]})
             ["y"%string] [] in
  Correct.main Correct.iso_date w =
  Correct.World (Correct.fs w) (Correct.stdin w)
    (Correct.stdout w ++ [Correct.LoadingDataFrom "data/sleep_data.json";
                          Correct.AnErrorOccurred ValueError]).
Proof.
  intros w.
  apply (main_on_unreadable_summary Correct.iso_date w "not json").
  reflexivity.
Defined.

Lemma correction_never_increases_asleep_witness :
  let data := [Correct.summary_row "2024-11-19" (Qc_of_Z 7) (Qc_of_Z 8);
               Correct.summary_row "2024-11-20" (Qc_of_Z 7) (Qc_of_Z 1);
               Correct.summary_row "2024-11-21" (Qc_of_Z 1) (Qc_of_Z 8)] in
  exists out n,
    Correct.correct_entries Correct.iso_date Correct.cutoff data = inr (out, n) /\
    Forall2 (fun r r' => exists a v, r !! "asleep"%string = Some (Correct.JNum a) /\
                           r' !! "asleep"%string = Some (Correct.JNum v) /\
                           (0 <= v)%Qc /\ (v <= a)%Qc) data out.
Proof.
  intros data.
  destruct (Correct.correct_entries Correct.iso_date Correct.cutoff data)
    as [e|[out n]] eqn:E; [vm_compute in E; discriminate E|].
  exists out, n. split; [done|].
  apply (correction_never_increases_asleep Correct.iso_date data out n E).
  repeat apply Forall_cons_2; [..|apply Forall_nil_2].
  - exists (Qc_of_Z 7), (Qc_of_Z 8). split_and!; done.
  - exists (Qc_of_Z 7), (Qc_of_Z 1). split_and!; done.
  - exists (Qc_of_Z 1), (Qc_of_Z 8). split_and!; done.
Defined.
